(** * GULLYESPORTS backend: registration workflow and admin authentication

    A shallow embedding of the Express/Mongoose backend:

    - [backend/routes/registerRoutes.js]  (POST /api/v1/register)
    - [backend/routes/contactRoutes.js]   (POST /api/v1/contact)
    - [backend/routes/adminRoutes.js]     (login, me, stats, contacts, registrations)
    - [backend/middleware/authMiddleware.js] (protect)
    - [backend/models/Registration.js], [Contact.js], [Admin.js]
    - [backend/server.js] (the sanitizer of request bodies)
    - [backend/scripts/seedAdmin.js]
    - [js/main.js], [js/register.js] (the checks of the browser and the data
      that the registration page posts)

    Conventions of the embedding.

    - A scalar field of a JSON request body is an [option string]: [None]
      stands for a key that is absent (JavaScript [undefined]) or [null].
      Bodies whose scalar fields hold numbers, arrays or objects are outside
      this typed model, and so are keys that start with a dollar sign, which
      the sanitizer of [server.js] removes; the sanitizer itself is modelled
      on untyped JSON values, in [Json]. Strings are ASCII.
    - A thrown JavaScript error is a value of [JS.Exn] (its [name], [code]
      and [message]); code that may throw returns a [JS.result].
    - A Mongo collection is the list of its documents, newest first; the
      store is threaded explicitly through every handler. Identifiers are
      drawn from a counter of the store.
    - Every [await] on the database is a point where other requests may run.
      The registration handler has two of them ([findOne], then [save]); it
      is split there into [RegisterRoute.begin] and [RegisterRoute.commit].
      [RegisterRoute.interleaved] runs the two on possibly different states
      of the collection and [RegisterRoute.handler] on the same one.
    - The rate limiters run before the handlers and are not modelled: a
      request is one that the limiter let through. The notification e-mails
      are sent without being awaited and change neither store nor response.
    - Library behaviour that the sources rely on but do not contain
      (validator.js [isEmail] and [normalizeEmail], bcrypt, the wire format of
      a JSON Web Token) enters as a [Variable] of the section [Server];
      express-validator, Mongoose and jsonwebtoken are modelled as far as the
      routes and schemas use them. *)

From Stdlib Require Import String Ascii List ZArith Lia Bool Arith.
From Stdlib Require Import DecimalString.
Import ListNotations.

Local Open Scope string_scope.
Local Open Scope list_scope.

(* ====================================================================== *)
(** ** JavaScript values used by the handlers *)
(* ====================================================================== *)

Module JS.

(** Characters matched by the regular expression class [\s], restricted to
    the ASCII range: space, tab, line feed, vertical tab, form feed,
    carriage return. *)
Definition is_space (c : ascii) : bool :=
  let n := nat_of_ascii c in
  Nat.eqb n 32 || (Nat.leb 9 n && Nat.leb n 13).

Fixpoint ltrim (s : string) : string :=
  match s with
  | EmptyString => EmptyString
  | String c s' => if is_space c then ltrim s' else s
  end.

Fixpoint rtrim (s : string) : string :=
  match s with
  | EmptyString => EmptyString
  | String c s' =>
      match rtrim s' with
      | EmptyString => if is_space c then EmptyString else String c EmptyString
      | r => String c r
      end
  end.

(** [String.prototype.trim], and validator.js [trim] without a character
    set: [rtrim(ltrim(str))]. *)
Definition trim (s : string) : string := rtrim (ltrim s).

Definition lower_ascii (c : ascii) : ascii :=
  let n := nat_of_ascii c in
  if Nat.leb 65 n && Nat.leb n 90 then ascii_of_nat (n + 32) else c.

Fixpoint toLowerCase (s : string) : string :=
  match s with
  | EmptyString => EmptyString
  | String c s' => String (lower_ascii c) (toLowerCase s')
  end.

Definition startsWith (s p : string) : bool := String.prefix p s.

(** [s.split(' ')]: the pieces between single spaces, empty pieces kept. *)
Fixpoint split_space (s : string) : list string :=
  match s with
  | EmptyString => [EmptyString]
  | String c s' =>
      if Ascii.eqb c " "%char then EmptyString :: split_space s'
      else match split_space s' with
           | [] => [String c EmptyString]
           | w :: ws => String c w :: ws
           end
  end.

(** Truthiness of a string-or-undefined value: [undefined], [null] and the
    empty string are falsy. *)
Definition truthy (v : option string) : bool :=
  match v with
  | None => false
  | Some s => negb (String.eqb s "")
  end.

(** [v || null] on a string-or-undefined value. *)
Definition or_null (v : option string) : option string :=
  if truthy v then v else None.

(** [n || 0] on a number-or-undefined value: [undefined] and [0] are
    falsy. *)
Definition or_zero (n : option Z) : Z :=
  match n with
  | Some z => if Z.eqb z 0 then 0%Z else z
  | None => 0%Z
  end.

(** [s || fallback] on a string. *)
Definition or_string (s fallback : string) : string :=
  if String.eqb s "" then fallback else s.

(** [tbl[key]] on an object literal with string keys; [None] is
    [undefined]. *)
Fixpoint index {A : Type} (tbl : list (string * A)) (key : string) : option A :=
  match tbl with
  | [] => None
  | (k, v) :: tbl' => if String.eqb k key then Some v else index tbl' key
  end.

(** [arr.includes(x)] on an array of strings. *)
Definition includes (arr : list string) (x : string) : bool :=
  existsb (String.eqb x) arr.

(** [n < e] where [e] may be [undefined]: a comparison with [undefined]
    is false. *)
Definition lt_undef (n : nat) (e : option nat) : bool :=
  match e with
  | Some k => Nat.ltb n k
  | None => false
  end.

(** Decimal rendering of a number in a template literal. *)
Definition show_nat (n : nat) : string := NilEmpty.string_of_uint (Nat.to_uint n).

(** Thrown errors: [error.name], [error.code], [error.message]. *)
Record Exn := mkExn { name : string; code : option Z; message : string }.

Inductive result (A : Type) : Type :=
| Ok (a : A)
| Throw (e : Exn).
Arguments Ok {A} a.
Arguments Throw {A} e.

Definition bind {A B : Type} (r : result A) (k : A -> result B) : result B :=
  match r with
  | Ok a => k a
  | Throw e => Throw e
  end.

End JS.

Notation "x <- r ;; k" := (JS.bind r (fun x => k))
(at level 61, r at next level, right associativity).

(* ====================================================================== *)
(** ** express-validator: validation chains *)
(* ====================================================================== *)

Module Validator.

(** One item of a chain, in the order the builder calls were made:
    [.trim()] and [.normalizeEmail()] are sanitizations, [.notEmpty()],
    [.isIn(..)], [.isLength(..)], [.isEmail()] are validations carrying the
    text of their [.withMessage(..)]. *)
Inductive ContextItem : Type :=
| Sanitization (sanitizer : string -> string)
| Validation (validator : string -> bool) (message : string).

(** A chain built by [body(field)]; [optional] records
    [.optional({ nullable: true, checkFalsy: true })]. *)
Record ValidationChain : Type := mkChain {
  optional : bool;
  stack : list ContextItem
}.

(** The library's [toString]: [undefined] and [null] read as the empty
    string. *)
Definition toString (v : option string) : string :=
  match v with
  | Some s => s
  | None => ""
  end.

(** The items run in order on the current value. A validation that rejects
    the value records its message and the run continues with the next item:
    no chain of the routes calls [.bail()]. *)
Fixpoint run_stack (items : list ContextItem) (value : string) : string * list string :=
  match items with
  | [] => (value, [])
  | Sanitization f :: rest => run_stack rest (f value)
  | Validation p msg :: rest =>
      let (v, errs) := run_stack rest value in
      (v, if p value then errs else msg :: errs)
  end.

(** Running a chain on one field instance: the sanitized value written back
    to the request, and the messages of the failed validations. An optional
    chain does nothing on a falsy value. *)
Definition run (c : ValidationChain) (field : option string) : option string * list string :=
  if optional c && negb (JS.truthy field) then (field, [])
  else let (v, errs) := run_stack (stack c) (toString field) in (Some v, errs).

(** [rejects items v m]: some validation of [items], with message [m],
    returns false on the value it is given, that is [v] as sanitized by the
    items before that validation. *)
Inductive rejects : list ContextItem -> string -> string -> Prop :=
| rejects_here (p : string -> bool) (msg : string) (rest : list ContextItem) (v : string) :
    p v = false -> rejects (Validation p msg :: rest) v msg
| rejects_after_validation (p : string -> bool) (msg : string) (rest : list ContextItem)
    (v m : string) :
    rejects rest v m -> rejects (Validation p msg :: rest) v m
| rejects_after_sanitization (f : string -> string) (rest : list ContextItem) (v m : string) :
    rejects rest (f v) m -> rejects (Sanitization f :: rest) v m.

(** A field fails its chain with message [m]: the chain is not skipped and
    one of its validations rejects. *)
Definition fails (c : ValidationChain) (field : option string) (m : string) : Prop :=
  optional c && negb (JS.truthy field) = false /\ rejects (stack c) (toString field) m.

Definition notEmpty (s : string) : bool := negb (String.eqb s "").

Definition isIn (values : list string) (s : string) : bool := JS.includes values s.

(** [isLength({ min, max })]; an omitted [min] is 0, an omitted [max] is no
    bound. *)
Definition isLength (min : nat) (max : option nat) (s : string) : bool :=
  Nat.leb min (String.length s) &&
  match max with
  | Some m => Nat.leb (String.length s) m
  | None => true
  end.

(** [isArray({ min, max })] on the raw field; [None] is a field that is
    absent or not an array. *)
Definition isArray {A : Type} (min max : nat) (v : option (list A)) : bool :=
  match v with
  | Some l => Nat.leb min (List.length l) && Nat.leb (List.length l) max
  | None => false
  end.

End Validator.

(* ====================================================================== *)
(** ** jsonwebtoken: signed, time-limited tokens *)
(* ====================================================================== *)

Module Jwt.

(** The claims of a token: the [id] put there by [generateToken], and the
    registered claims [iat] and [exp], in seconds since the epoch. *)
Record Payload : Type := mkPayload {
  id : nat;
  iat : Z;
  exp : option Z
}.

(** A token is modelled symbolically: either a string that is no JSON Web
    Token at all, or claims together with the key that produced the
    signature. The signature verifies under exactly that key. *)
Inductive Token : Type :=
| Malformed
| Signed (key : string) (payload : Payload).

Definition JsonWebTokenError (msg : string) : JS.Exn :=
  JS.mkExn "JsonWebTokenError" None msg.

Definition TokenExpiredError : JS.Exn :=
  JS.mkExn "TokenExpiredError" None "jwt expired".

(** [Math.floor(Date.now() / 1000)] for a clock in milliseconds. *)
Definition clockTimestamp (now : Z) : Z := (now / 1000)%Z.

(** [jwt.sign({ id }, secret, { expiresIn })] with [expiresIn] in seconds:
    [iat] is the clock and [exp = iat + expiresIn]. An empty secret is
    refused. *)
Definition sign (adminId : nat) (secret : string) (expiresIn : Z) (now : Z) : JS.result Token :=
  if String.eqb secret "" then
    JS.Throw (JS.mkExn "Error" None "secretOrPrivateKey must have a value")
  else
    let t := clockTimestamp now in
    JS.Ok (Signed secret (mkPayload adminId t (Some (t + expiresIn)%Z))).

(** [jwt.verify(token, secret)]: a malformed token, a missing secret and a
    signature made with another key throw [JsonWebTokenError]; a token whose
    [exp] the clock has reached throws [TokenExpiredError]; otherwise the
    claims are returned. *)
Definition verify (token : Token) (secret : string) (now : Z) : JS.result Payload :=
  match token with
  | Malformed => JS.Throw (JsonWebTokenError "jwt malformed")
  | Signed key payload =>
      if String.eqb secret "" then
        JS.Throw (JsonWebTokenError "secret or public key must be provided")
      else if negb (String.eqb key secret) then
        JS.Throw (JsonWebTokenError "invalid signature")
      else
        match exp payload with
        | Some e =>
            if (e <=? clockTimestamp now)%Z then JS.Throw TokenExpiredError
            else JS.Ok payload
        | None => JS.Ok payload
        end
  end.

(** The time span ['7d'] in seconds. *)
Definition seven_days : Z := (7 * 24 * 60 * 60)%Z.

(** [n] days in milliseconds, the unit of the clock. *)
Definition days (n : Z) : Z := (n * (24 * 60 * 60 * 1000))%Z.

End Jwt.

(* ====================================================================== *)
(** ** Mongoose schema helpers shared by the models *)
(* ====================================================================== *)

Module Schema.

Definition opt_eqb (a b : option string) : bool :=
  match a, b with
  | Some x, Some y => String.eqb x y
  | None, None => true
  | _, _ => false
  end.

(** [required: [true, msg]] on a String path: [undefined], [null] and the
    empty string fail. *)
Definition required (msg : string) (v : option string) : list string :=
  if JS.truthy v then [] else [msg].

(** [enum] on a String path; an absent value is left to [required]. *)
Definition enum (values : list string) (msg : string) (v : option string) : list string :=
  match v with
  | Some s => if JS.includes values s then [] else [msg]
  | None => []
  end.

Definition maxlength (n : nat) (msg : string) (v : option string) : list string :=
  match v with
  | Some s => if Nat.leb (String.length s) n then [] else [msg]
  | None => []
  end.

Definition minlength (n : nat) (msg : string) (v : option string) : list string :=
  match v with
  | Some s => if Nat.leb n (String.length s) then [] else [msg]
  | None => []
  end.

(** The error [save()] rejects with when validators fail. *)
Definition ValidationError (model : string) (msgs : list string) : JS.Exn :=
  JS.mkExn "ValidationError" None (model ++ " validation failed: " ++ String.concat ", " msgs).

(** The error of the driver when a unique index refuses a write. *)
Definition duplicate_key (index : string) : JS.Exn :=
  JS.mkExn "MongoServerError" (Some 11000%Z) ("E11000 duplicate key error index: " ++ index).

End Schema.

(* ====================================================================== *)
(** ** models/Registration.js *)
(* ====================================================================== *)

Module Registration.

(** A player object, as it arrives in [req.body.players] and as the
    sub-schema stores it. *)
Record Player : Type := mkPlayer {
  inGameName : option string;
  inGameId : option string;
  phone : option string;
  email : option string
}.

(** The paths of the schema. [None] is a path that is [undefined] or
    [null]. This is the object given to [new Registration({...})] and,
    after casting, the content of a stored document. *)
Record Fields : Type := mkFields {
  game : option string;
  mode : option string;
  teamName : option string;
  players : list Player;
  transactionId : option string;
  entryFee : option Z;
  status : option string
}.

Record Doc : Type := mkDoc {
  _id : nat;
  fields : Fields
}.

(** Setters of [playerSchema]: [trim] on the three required paths, [trim]
    and [lowercase] on [email]. *)
Definition cast_player (p : Player) : Player :=
  mkPlayer (option_map JS.trim (inGameName p))
           (option_map JS.trim (inGameId p))
           (option_map JS.trim (phone p))
           (option_map (fun s => JS.toLowerCase (JS.trim s)) (email p)).

(** Setters and defaults of [registrationSchema]. *)
Definition cast (i : Fields) : Fields :=
  mkFields (game i)
           (mode i)
           (option_map JS.trim (teamName i))
           (map cast_player (players i))
           (option_map JS.trim (transactionId i))
           (entryFee i)
           (match status i with
            | None => Some "pending"
            | Some s => Some s
            end).

Definition validate_player (p : Player) : list string :=
  Schema.required "In-game name is required" (inGameName p) ++
  Schema.maxlength 50 "In-game name cannot exceed 50 characters" (inGameName p) ++
  Schema.required "In-game ID is required" (inGameId p) ++
  Schema.maxlength 30 "In-game ID cannot exceed 30 characters" (inGameId p) ++
  Schema.required "Phone number is required" (phone p).

(** The validators declared in the schema, on the cast document. *)
Definition validate (this : Fields) : list string :=
  Schema.required "Game is required" (game this) ++
  Schema.enum ["pubg"; "freefire"; "cod"] "Game must be one of: pubg, freefire, cod" (game this) ++
  Schema.required "Mode is required" (mode this) ++
  Schema.enum ["solo"; "duo"; "squad"] "Mode must be one of: solo, duo, squad" (mode this) ++
  Schema.maxlength 50 "Team name cannot exceed 50 characters" (teamName this) ++
  (if Nat.leb 1 (List.length (players this)) && Nat.leb (List.length (players this)) 5
   then [] else ["Players array must have 1–5 entries"]) ++
  flat_map validate_player (players this) ++
  Schema.required "Transaction ID is required" (transactionId this) ++
  match entryFee this with
  | None => ["Entry fee is required"]
  | Some fee => if (5 <=? fee)%Z then [] else ["Entry fee must be at least ₹5"]
  end ++
  Schema.enum ["pending"; "approved"; "rejected"] "status is not a valid enum value" (status this).

(** [const expectedPlayers = { solo: 1, duo: 2, squad: 4 }] of the hook. *)
Definition expectedPlayers : list (string * nat) :=
  [("solo", 1); ("duo", 2); ("squad", 4)].

Definition is_team_mode (m : option string) : bool :=
  Schema.opt_eqb m (Some "duo") || Schema.opt_eqb m (Some "squad").

(** [registrationSchema.pre('save', ...)]. *)
Definition pre_save (this : Fields) : JS.result unit :=
  let expected :=
    match mode this with
    | Some m => JS.index expectedPlayers m
    | None => None
    end in
  if JS.lt_undef (List.length (players this)) expected then
    JS.Throw (JS.mkExn "Error" None
      (Validator.toString (mode this) ++ " mode requires at least " ++
       match expected with Some e => JS.show_nat e | None => "undefined" end ++ " player(s)"))
  else if is_team_mode (mode this) && negb (JS.truthy (teamName this)) then
    JS.Throw (JS.mkExn "Error" None "Team name is required for duo/squad mode")
  else JS.Ok tt.

(** [Registration.findOne({ transactionId })]; the filter value goes through
    the path's [trim] setter. *)
Definition findOne_transactionId (coll : list Doc) (tid : option string) : option Doc :=
  find (fun d => Schema.opt_eqb (transactionId (fields d)) (option_map JS.trim tid)) coll.

(** Some document of the collection carries the transaction identifier
    [tid]. *)
Definition has_transactionId (coll : list Doc) (tid : option string) : bool :=
  existsb (fun d => Schema.opt_eqb (transactionId (fields d)) tid) coll.

(** The keys of the unique index. *)
Definition transactionIds (coll : list Doc) : list (option string) :=
  map (fun d => transactionId (fields d)) coll.

(** The write of a new document: the unique index on [transactionId] is
    consulted by the database itself. *)
Definition insertOne (coll : list Doc) (d : Doc) : JS.result (list Doc) :=
  if has_transactionId coll (transactionId (fields d))
  then JS.Throw (Schema.duplicate_key "transactionId_1")
  else JS.Ok (d :: coll).

(** [new Registration(i).save()] on a new document with identifier [fresh]:
    casting, the schema validators, the pre-save hook, then the write. *)
Definition save (coll : list Doc) (fresh : nat) (i : Fields) : JS.result (list Doc * Doc) :=
  let this := cast i in
  match validate this with
  | (_ :: _) as msgs => JS.Throw (Schema.ValidationError "Registration" msgs)
  | [] =>
      _ <- pre_save this ;;
      coll' <- insertOne coll (mkDoc fresh this) ;;
      JS.Ok (coll', mkDoc fresh this)
  end.

Definition set_status (s : string) (d : Doc) : Doc :=
  let f := fields d in
  mkDoc (_id d)
        (mkFields (game f) (mode f) (teamName f) (players f) (transactionId f) (entryFee f) (Some s)).

(** [Registration.findByIdAndUpdate(id, { status }, { new: true,
    runValidators: true })]: the first document with that identifier gets
    the new status and is returned; save hooks do not run on this path. *)
Fixpoint findByIdAndUpdate (coll : list Doc) (id : nat) (s : string) : list Doc * option Doc :=
  match coll with
  | [] => ([], None)
  | d :: rest =>
      if Nat.eqb (_id d) id then (set_status s d :: rest, Some (set_status s d))
      else let (rest', r) := findByIdAndUpdate rest id s in (d :: rest', r)
  end.

(** [Registration.countDocuments({ status })], [({ game })] and [()]. *)
Definition count_status (coll : list Doc) (s : string) : nat :=
  List.length (filter (fun d => Schema.opt_eqb (status (fields d)) (Some s)) coll).

Definition count_game (coll : list Doc) (g : string) : nat :=
  List.length (filter (fun d => Schema.opt_eqb (game (fields d)) (Some g)) coll).

(** [Registration.find({ status }, 'entryFee')]. *)
Definition find_status (coll : list Doc) (s : string) : list Doc :=
  filter (fun d => Schema.opt_eqb (status (fields d)) (Some s)) coll.

End Registration.

(* ====================================================================== *)
(** ** models/Contact.js *)
(* ====================================================================== *)

Module Contact.

Record Fields : Type := mkFields {
  name : option string;
  email : option string;
  phone : option string;
  subject : option string;
  message : option string;
  status : option string
}.

Record Doc : Type := mkDoc {
  _id : nat;
  fields : Fields
}.

Definition no_space (s : string) : bool :=
  forallb (fun c => negb (JS.is_space c)) (list_ascii_of_string s).

(** Some ["."] of [s] has a character after it. *)
Fixpoint dot_then_more (s : string) : bool :=
  match s with
  | EmptyString => false
  | String c r =>
      (Ascii.eqb c "."%char && negb (String.eqb r "")) || dot_then_more r
  end.

(** Some ["@"] of [s] is followed by one character or more, a ["."] and one
    character or more. *)
Fixpoint at_then_domain (s : string) : bool :=
  match s with
  | EmptyString => false
  | String c r =>
      (Ascii.eqb c "@"%char &&
       match r with
       | String _ r' => dot_then_more r'
       | EmptyString => false
       end) || at_then_domain r
  end.

(** [match: /^\S+@\S+\.\S+$/]. *)
Definition email_shape (s : string) : bool :=
  no_space s &&
  match s with
  | String _ r => at_then_domain r
  | EmptyString => false
  end.

Definition cast (i : Fields) : Fields :=
  mkFields (option_map JS.trim (name i))
           (option_map (fun s => JS.toLowerCase (JS.trim s)) (email i))
           (option_map JS.trim (phone i))
           (subject i)
           (option_map JS.trim (message i))
           (match status i with
            | None => Some "new"
            | Some s => Some s
            end).

Definition subjects : list string :=
  ["tournament"; "registration"; "payment"; "report"; "partnership"; "feedback"; "other"].

Definition validate (this : Fields) : list string :=
  Schema.required "Name is required" (name this) ++
  Schema.minlength 2 "Name must be at least 2 characters" (name this) ++
  Schema.maxlength 100 "Name cannot exceed 100 characters" (name this) ++
  Schema.required "Email is required" (email this) ++
  match email this with
  | Some e => if email_shape e then [] else ["Please provide a valid email"]
  | None => []
  end ++
  Schema.required "Subject is required" (subject this) ++
  Schema.enum subjects
    "Subject must be one of: tournament, registration, payment, report, partnership, feedback, other"
    (subject this) ++
  Schema.required "Message is required" (message this) ++
  Schema.minlength 10 "Message must be at least 10 characters" (message this) ++
  Schema.maxlength 2000 "Message cannot exceed 2000 characters" (message this) ++
  Schema.enum ["new"; "read"; "replied"] "status is not a valid enum value" (status this).

(** [new Contact(i).save()]: no hook and no unique index. *)
Definition save (coll : list Doc) (fresh : nat) (i : Fields) : JS.result (list Doc * Doc) :=
  let this := cast i in
  match validate this with
  | (_ :: _) as msgs => JS.Throw (Schema.ValidationError "Contact" msgs)
  | [] => JS.Ok (mkDoc fresh this :: coll, mkDoc fresh this)
  end.

Definition set_status (s : string) (d : Doc) : Doc :=
  let f := fields d in
  mkDoc (_id d) (mkFields (name f) (email f) (phone f) (subject f) (message f) (Some s)).

Fixpoint findByIdAndUpdate (coll : list Doc) (id : nat) (s : string) : list Doc * option Doc :=
  match coll with
  | [] => ([], None)
  | d :: rest =>
      if Nat.eqb (_id d) id then (set_status s d :: rest, Some (set_status s d))
      else let (rest', r) := findByIdAndUpdate rest id s in (d :: rest', r)
  end.

Fixpoint findByIdAndDelete (coll : list Doc) (id : nat) : list Doc * option Doc :=
  match coll with
  | [] => ([], None)
  | d :: rest =>
      if Nat.eqb (_id d) id then (rest, Some d)
      else let (rest', r) := findByIdAndDelete rest id in (d :: rest', r)
  end.

Definition count_status (coll : list Doc) (s : string) : nat :=
  List.length (filter (fun d => Schema.opt_eqb (status (fields d)) (Some s)) coll).

End Contact.

(* ====================================================================== *)
(** ** models/Admin.js *)
(* ====================================================================== *)

Module Admin.

(** A stored administrator; [password] holds the bcrypt hash. *)
Record Doc : Type := mkDoc {
  _id : nat;
  email : string;
  password : string;
  name : string;
  role : string;
  lastLogin : option Z
}.

(** [Admin.findOne({ email })]; the filter value goes through the path's
    [lowercase] and [trim] setters. *)
Definition findOne_email (coll : list Doc) (e : option string) : option Doc :=
  match e with
  | Some e => find (fun a => String.eqb (email a) (JS.toLowerCase (JS.trim e))) coll
  | None => None
  end.

Definition findById (coll : list Doc) (id : nat) : option Doc :=
  find (fun a => Nat.eqb (_id a) id) coll.

(** [admin.save()] on a loaded document whose [password] path is not
    modified: the hash is kept (the pre-save hook returns at once) and the
    stored document is replaced. *)
Fixpoint save (coll : list Doc) (a : Doc) : list Doc :=
  match coll with
  | [] => []
  | d :: rest => if Nat.eqb (_id d) (_id a) then a :: rest else d :: save rest a
  end.

(** The validators of [adminSchema], on the cast paths of a new document;
    [password] is still the plain text when they run. *)
Definition validate (email password name role : option string) : list string :=
  Schema.required "Email is required" email ++
  Schema.required "Password is required" password ++
  Schema.minlength 6 "Password must be at least 6 characters" password ++
  Schema.required "Name is required" name ++
  Schema.maxlength 100 "Name cannot exceed 100 characters" name ++
  Schema.enum ["admin"; "superadmin"] "role is not a valid enum value" role.

(** [new Admin({ email, password, name, role }).save()] with identifier
    [fresh]: setters and defaults, the validators, the pre-save hook that
    replaces the modified [password] by [bcrypt.hash(password, salt)], here
    [hash password], and the write, which the unique index on [email]
    refuses when the address is taken. *)
Definition create (hash : string -> string) (coll : list Doc) (fresh : nat)
  (email password name role : option string) : JS.result (list Doc * Doc) :=
  let email := option_map (fun s => JS.toLowerCase (JS.trim s)) email in
  let name := option_map JS.trim name in
  let role := match role with None => Some "admin" | Some r => Some r end in
  match validate email password name role with
  | (_ :: _) as msgs => JS.Throw (Schema.ValidationError "Admin" msgs)
  | [] =>
      let this :=
        mkDoc fresh (Validator.toString email) (hash (Validator.toString password))
              (Validator.toString name) (Validator.toString role) None in
      if existsb (fun a => String.eqb (Admin.email a) (Validator.toString email)) coll
      then JS.Throw (Schema.duplicate_key "email_1")
      else JS.Ok (this :: coll, this)
  end.

End Admin.

(* ====================================================================== *)
(** ** The persistent store and HTTP responses *)
(* ====================================================================== *)

Record Store : Type := mkStore {
  admins : list Admin.Doc;
  contacts : list Contact.Doc;
  registrations : list Registration.Doc;
  next_id : nat
}.

Module Http.

(** [data] of the 201 response of POST /api/v1/register. *)
Record Registered : Type := mkRegistered {
  registrationId : nat;
  game : option string;
  mode : option string;
  teamName : option string;
  playerCount : nat;
  entryFee : option Z;
  status : string
}.

Record AdminInfo : Type := mkAdminInfo {
  id : nat;
  name : string;
  email : string;
  role : string
}.

Record Stats : Type := mkStats {
  contacts_total : nat;
  contacts_new : nat;
  registrations_total : nat;
  registrations_pending : nat;
  registrations_approved : nat;
  byGame_pubg : nat;
  byGame_freefire : nat;
  byGame_cod : nat;
  revenue : Z
}.

Record Pagination : Type := mkPagination {
  page : nat;
  limit : nat;
  total : nat;
  pages : nat
}.

Inductive Data : Type :=
| NoData
| RegisteredData (r : Registered)
| LoginData (token : Jwt.Token) (admin : AdminInfo)
| MeData (admin : AdminInfo) (lastLogin : option Z)
| StatsData (s : Stats)
| ContactList (l : list Contact.Doc) (p : Pagination)
| ContactItem (c : Contact.Doc)
| RegistrationList (l : list Registration.Doc) (p : Pagination)
| RegistrationItem (r : Registration.Doc).

(** [res.status(code).json({ success, message, errors, data })]. *)
Record Response : Type := mkResponse {
  code : nat;
  success : bool;
  message : option string;
  errors : option (list string);
  data : Data
}.

Definition fail (c : nat) (msg : string) : Response :=
  mkResponse c false (Some msg) None NoData.

(** [data.revenue] of a response, when it has one. *)
Definition revenue_of (r : Response) : option Z :=
  match data r with
  | StatsData s => Some (revenue s)
  | _ => None
  end.

End Http.

(* ====================================================================== *)
(** ** routes/registerRoutes.js: POST /api/v1/register *)
(* ====================================================================== *)

Module RegisterRoute.

Import Validator.

(** Server-authoritative fee table. *)
Definition FEE_TABLE : list (string * Z) :=
  [("solo", 5%Z); ("duo", 10%Z); ("squad", 20%Z)].

Definition PLAYER_COUNT : list (string * nat) :=
  [("solo", 1); ("duo", 2); ("squad", 4)].

(** [req.body]. The handler reads [game], [mode], [teamName], [players]
    and [transactionId]; [entryFee] is a fee field a client may send along.
    [players = None] is a field that is absent or not an array. *)
Record Body : Type := mkBody {
  game : option string;
  mode : option string;
  teamName : option string;
  players : option (list Registration.Player);
  transactionId : option string;
  entryFee : option Z
}.

Definition game_chain : ValidationChain :=
  mkChain false
    [Sanitization JS.trim;
     Validation notEmpty "Game is required";
     Validation (isIn ["pubg"; "freefire"; "cod"]) "Invalid game selection"].

Definition mode_chain : ValidationChain :=
  mkChain false
    [Sanitization JS.trim;
     Validation notEmpty "Mode is required";
     Validation (isIn ["solo"; "duo"; "squad"]) "Invalid mode selection"].

Definition teamName_chain : ValidationChain :=
  mkChain true
    [Sanitization JS.trim;
     Validation (isLength 0 (Some 50)) "Team name cannot exceed 50 characters"].

Definition players_message : string := "Players array is required (1–5 players)".

Definition inGameName_chain : ValidationChain :=
  mkChain false
    [Sanitization JS.trim;
     Validation notEmpty "In-game name is required for all players"].

Definition inGameId_chain : ValidationChain :=
  mkChain false
    [Sanitization JS.trim;
     Validation notEmpty "In-game ID is required for all players"].

Definition phone_chain : ValidationChain :=
  mkChain false
    [Sanitization JS.trim;
     Validation notEmpty "Phone number is required for all players"].

Definition transactionId_chain : ValidationChain :=
  mkChain false
    [Sanitization JS.trim;
     Validation notEmpty "Transaction ID is required";
     Validation (isLength 5 None) "Transaction ID must be at least 5 characters"].

(** The array selected by the wildcard [players.*]: nothing when [players]
    is no array. *)
Definition roster (b : Body) : list Registration.Player :=
  match players b with
  | Some l => l
  | None => []
  end.

(** The messages of a wildcard chain [players.*.field], one run per player
    in roster order. *)
Definition wildcard_errors (c : ValidationChain)
  (field : Registration.Player -> option string) (ps : list Registration.Player) : list string :=
  flat_map (fun p => snd (run c (field p))) ps.

(** The sanitizers of the three wildcard chains write back into each
    player. *)
Definition sanitize_player (p : Registration.Player) : Registration.Player :=
  Registration.mkPlayer
    (fst (run inGameName_chain (Registration.inGameName p)))
    (fst (run inGameId_chain (Registration.inGameId p)))
    (fst (run phone_chain (Registration.phone p)))
    (Registration.email p).

(** What the chains of the route and the validators of the sub-schema
    together ask of one player: a name of 1 to 50 characters, an identifier
    of 1 to 30 characters and a phone number, blanks at both ends not
    counted. *)
Definition player_ok (p : Registration.Player) : bool :=
  match Registration.inGameName p, Registration.inGameId p, Registration.phone p with
  | Some n, Some i, Some ph =>
      isLength 1 (Some 50) (JS.trim n) &&
      isLength 1 (Some 30) (JS.trim i) &&
      isLength 1 None (JS.trim ph)
  | _, _, _ => false
  end.

(** A player whose fields carry no blanks at either end and whose e-mail
    address, if any, is in lower case. *)
Definition tidy (p : Registration.Player) : Prop :=
  option_map JS.trim (Registration.inGameName p) = Registration.inGameName p /\
  option_map JS.trim (Registration.inGameId p) = Registration.inGameId p /\
  option_map JS.trim (Registration.phone p) = Registration.phone p /\
  option_map (fun s => JS.toLowerCase (JS.trim s)) (Registration.email p) = Registration.email p.

(** The messages of all chains, in the order the chains are listed in the
    route: what [validationResult(req).array().map(err => err.msg)] holds. *)
Definition validation_errors (b : Body) : list string :=
  snd (run game_chain (game b)) ++
  snd (run mode_chain (mode b)) ++
  snd (run teamName_chain (teamName b)) ++
  (if isArray 1 5 (players b) then [] else [players_message]) ++
  wildcard_errors inGameName_chain Registration.inGameName (roster b) ++
  wildcard_errors inGameId_chain Registration.inGameId (roster b) ++
  wildcard_errors phone_chain Registration.phone (roster b) ++
  snd (run transactionId_chain (transactionId b)).

(** [req.body] after the chains have run. *)
Definition sanitize (b : Body) : Body :=
  mkBody (fst (run game_chain (game b)))
         (fst (run mode_chain (mode b)))
         (fst (run teamName_chain (teamName b)))
         (option_map (map sanitize_player) (players b))
         (fst (run transactionId_chain (transactionId b)))
         (entryFee b).

(** Some field of the body fails one of its validations, with message
    [m]. *)
Definition field_failure (b : Body) (m : string) : Prop :=
  fails game_chain (game b) m \/
  fails mode_chain (mode b) m \/
  fails teamName_chain (teamName b) m \/
  (isArray 1 5 (players b) = false /\ m = players_message) \/
  (exists p : Registration.Player,
      In p (roster b) /\
      (fails inGameName_chain (Registration.inGameName p) m \/
       fails inGameId_chain (Registration.inGameId p) m \/
       fails phone_chain (Registration.phone p) m)) \/
  fails transactionId_chain (transactionId b) m.

Definition validation_failed (errors : list string) : Http.Response :=
  Http.mkResponse 400 false (Some "Validation failed. Please check your input.")
                  (Some errors) Http.NoData.

Definition duplicate_found : Http.Response :=
  Http.fail 409
    "This transaction ID has already been used. Each registration requires a unique payment.".

Definition too_few_players (m : option string) (expected : option nat) (given : nat) : Http.Response :=
  Http.fail 400
    (toString m ++ " mode requires at least " ++
     match expected with Some e => JS.show_nat e | None => "undefined" end ++
     " player(s). You provided " ++ JS.show_nat given ++ ".").

Definition team_name_required : Http.Response :=
  Http.fail 400 "Team name is required for duo and squad modes.".

Definition duplicate_key_caught : Http.Response :=
  Http.fail 409 "This transaction ID has already been used for another registration.".

Definition registered (doc : Registration.Doc) (i : Registration.Fields) : Http.Response :=
  Http.mkResponse 201 true
    (Some "Registration successful! You will receive match details via WhatsApp/call before the tournament.")
    None
    (Http.RegisteredData
       (Http.mkRegistered (Registration._id doc)
                          (Registration.game i)
                          (Registration.mode i)
                          (Registration.teamName i)
                          (List.length (Registration.players i))
                          (Registration.entryFee i)
                          "pending")).

(** The handler up to its second [await]: validation result, fee lookup,
    duplicate lookup on the registrations as they are now, roster and team
    name checks, and the object for [new Registration({...})]. An early
    [return res.status(..)] is [inl]. *)
Definition begin (regs : list Registration.Doc) (body : Body) : Http.Response + Registration.Fields :=
  let errors := validation_errors body in
  match errors with
  | _ :: _ => inl (validation_failed errors)
  | [] =>
      let b := sanitize body in
      let fee :=
        match mode b with
        | Some m => JS.index FEE_TABLE m
        | None => None
        end in
      match Registration.findOne_transactionId regs (transactionId b) with
      | Some _ => inl duplicate_found
      | None =>
          let expectedPlayers :=
            match mode b with
            | Some m => JS.index PLAYER_COUNT m
            | None => None
            end in
          if JS.lt_undef (List.length (roster b)) expectedPlayers then
            inl (too_few_players (mode b) expectedPlayers (List.length (roster b)))
          else if Registration.is_team_mode (mode b) && negb (JS.truthy (teamName b)) then
            inl team_name_required
          else
            inr (Registration.mkFields (game b) (mode b) (JS.or_null (teamName b))
                                       (roster b) (transactionId b) fee (Some "pending"))
      end
  end.

(** [await registration.save()] on the store as it is when the write
    arrives, the response, and the [catch] block. The confirmation e-mail is
    sent without being awaited and touches neither the store nor the
    response. *)
Definition commit (db : Store) (i : Registration.Fields) : Store * Http.Response :=
  match Registration.save (registrations db) (next_id db) i with
  | JS.Ok (regs, doc) =>
      (mkStore (admins db) (contacts db) regs (S (next_id db)), registered doc i)
  | JS.Throw error =>
      (db,
       match JS.code error with
       | Some 11000%Z => duplicate_key_caught
       | _ => Http.fail 500 ("Registration failed: " ++ JS.or_string (JS.message error) "Unknown error")
       end)
  end.

(** The handler when other requests may have run between its two awaits:
    the lookup saw the registrations [seen], the write arrives at [db]. *)
Definition interleaved (seen : list Registration.Doc) (db : Store) (body : Body) : Store * Http.Response :=
  match begin seen body with
  | inl response => (db, response)
  | inr i => commit db i
  end.

(** The whole handler when no other request runs between its awaits. *)
Definition handler (db : Store) (body : Body) : Store * Http.Response :=
  interleaved (registrations db) db body.

(** The same body with another client-supplied fee field. *)
Definition with_entryFee (fee : option Z) (b : Body) : Body :=
  mkBody (game b) (mode b) (teamName b) (players b) (transactionId b) fee.

End RegisterRoute.

(* ====================================================================== *)
(** ** The Fee & Roster Policy, as the specification tabulates it *)
(* ====================================================================== *)

Module Policy.

Inductive Mode : Type := solo | duo | squad.

Definition mode_name (m : Mode) : string :=
  match m with
  | solo => "solo"
  | duo => "duo"
  | squad => "squad"
  end.

Definition entryFeeFor (m : Mode) : Z :=
  match m with
  | solo => 5%Z
  | duo => 10%Z
  | squad => 20%Z
  end.

Definition requiredPlayerCountFor (m : Mode) : nat :=
  match m with
  | solo => 1
  | duo => 2
  | squad => 4
  end.

Definition teamNameRequired (m : Mode) : bool :=
  match m with
  | solo => false
  | duo => true
  | squad => true
  end.

(** The roster rule of a persisted registration: its mode is one of the
    three, its roster has at least the required number of players, and a
    mode that requires a team name has a non-empty one. *)
Definition roster_invariant (d : Registration.Doc) : Prop :=
  exists m : Mode,
    Registration.mode (Registration.fields d) = Some (mode_name m) /\
    requiredPlayerCountFor m <= List.length (Registration.players (Registration.fields d)) /\
    (teamNameRequired m = true ->
     exists tn : string,
       Registration.teamName (Registration.fields d) = Some tn /\ tn <> "").

(** Revenue as the specification words it: the sum of [entryFee] over the
    registrations whose status is [approved]; any other registration counts
    for zero. *)
Definition approved_revenue (regs : list Registration.Doc) : Z :=
  fold_right
    (fun r acc =>
       ((if Schema.opt_eqb (Registration.status (Registration.fields r)) (Some "approved")
         then match Registration.entryFee (Registration.fields r) with
              | Some fee => fee
              | None => 0
              end
         else 0) + acc)%Z)
    0%Z regs.

End Policy.

(** The document that a registration request in order leaves in the store:
    trimmed game, mode and transaction identifier, the team name when there
    is one, every player through the setters of the sub-schema, the fee of
    the mode and the status [pending]. *)
Definition expected_fields (m : Policy.Mode) (g t : string) (teamName : option string)
  (ps : list Registration.Player) : Registration.Fields :=
  Registration.mkFields (Some (JS.trim g)) (Some (Policy.mode_name m))
    (JS.or_null (option_map JS.trim teamName)) (map Registration.cast_player ps)
    (Some (JS.trim t)) (Some (Policy.entryFeeFor m)) (Some "pending").

(* ====================================================================== *)
(** ** Request shapes of the contact and admin routes *)
(* ====================================================================== *)

Module ContactRoute.

Record Body : Type := mkBody {
  name : option string;
  email : option string;
  phone : option string;
  subject : option string;
  message : option string
}.

End ContactRoute.

Module AdminRoutes.

Record LoginBody : Type := mkLoginBody {
  email : option string;
  password : option string
}.

(** [req.query] of the two list routes. [page] and [limit], when present,
    are positive decimal numerals, so [parseInt] is the identity on them. *)
Record ListQuery : Type := mkListQuery {
  game : option string;
  mode : option string;
  status : option string;
  page : option positive;
  limit : option positive
}.

(** The token-gated operations; [id] is [req.params.id], a well-formed
    object identifier, and [status] is [req.body.status]. *)
Inductive Operation : Type :=
| GetMe
| GetStats
| GetContacts (q : ListQuery)
| PatchContact (id : nat) (status : option string)
| DeleteContact (id : nat)
| GetRegistrations (q : ListQuery)
| PatchRegistration (id : nat) (status : option string).

End AdminRoutes.

(** Everything a client can send. *)
Inductive Request : Type :=
| PostRegister (body : RegisterRoute.Body)
| PostContact (body : ContactRoute.Body)
| PostLogin (body : AdminRoutes.LoginBody)
| AdminRequest (authorization : option string) (op : AdminRoutes.Operation).

(* ====================================================================== *)
(** ** server.js: the sanitizer of request bodies *)
(* ====================================================================== *)

Module Json.

(** A request body as [express.json()] parses it. An object is the list of
    its members in the order of [Object.keys]; the payload of a number
    plays no part here. *)
#[warnings="-register-all"]
Inductive Value : Type :=
| JNull
| JBool (b : bool)
| JNumber (n : Z)
| JString (s : string)
| JArray (items : list Value)
| JObject (members : list (string * Value)).

(** [sanitizeObject(obj)]: a member whose key starts with a dollar sign is
    deleted, any other member is sanitized in turn when it is an object or
    an array (the keys of an array are its indices, none of which starts
    with a dollar sign); a scalar and [null] are returned as they are. The
    function works in place and returns its argument: the result here is
    the value after the call. *)
Fixpoint sanitizeObject (obj : Value) : Value :=
  match obj with
  | JArray items => JArray (map sanitizeObject items)
  | JObject members =>
      JObject
        ((fix over (ms : list (string * Value)) : list (string * Value) :=
            match ms with
            | [] => []
            | (key, v) :: ms' =>
                if JS.startsWith key "$" then over ms'
                else (key, sanitizeObject v) :: over ms'
            end) members)
  | _ => obj
  end.

(** A key that is no operator of the query language. *)
Definition not_operator (key : string) : bool := negb (JS.startsWith key "$").

(** The keys of every object inside a value, at any depth. *)
Fixpoint keys (v : Value) : list string :=
  match v with
  | JArray items => flat_map keys items
  | JObject members =>
      (fix over (ms : list (string * Value)) : list string :=
         match ms with
         | [] => []
         | (key, v) :: ms' => key :: keys v ++ over ms'
         end) members
  | _ => []
  end.

End Json.

(* ====================================================================== *)
(** ** The browser side: js/main.js and js/register.js *)
(* ====================================================================== *)

Module Browser.

(** *** js/main.js: the validation helpers *)

(** The character class [[^\s@]]. *)
Definition not_space_or_at (c : ascii) : bool :=
  negb (JS.is_space c) && negb (Ascii.eqb c "@"%char).

Definition all_of (p : ascii -> bool) (s : string) : bool :=
  forallb p (list_ascii_of_string s).

(** The regular expression of [isValidEmail], read from its end:
    [[^\s@]+$], then [[^\s@]*\.[^\s@]+$], then [[^\s@]*@[^\s@]+\.[^\s@]+$]. *)
Definition email_last_part (s : string) : bool :=
  negb (String.eqb s "") && all_of not_space_or_at s.

Fixpoint email_upto_dot (s : string) : bool :=
  match s with
  | EmptyString => false
  | String c r =>
      (Ascii.eqb c "."%char && email_last_part r) ||
      (not_space_or_at c && email_upto_dot r)
  end.

Fixpoint email_upto_at (s : string) : bool :=
  match s with
  | EmptyString => false
  | String c r =>
      (Ascii.eqb c "@"%char &&
       match r with
       | String d r' => not_space_or_at d && email_upto_dot r'
       | EmptyString => false
       end) ||
      (not_space_or_at c && email_upto_at r)
  end.

(** [/^[^\s@]+@[^\s@]+\.[^\s@]+$/.test(email)]. *)
Definition isValidEmail (email : string) : bool :=
  match email with
  | String c r => not_space_or_at c && email_upto_at r
  | EmptyString => false
  end.






(** *** js/register.js: the registration form *)

Record ModeInfo : Type := mkModeInfo {
  players : nat;
  fee : string;
  feeNum : Z;
  showTeam : bool
}.

Definition modeConfig : list (string * ModeInfo) :=
  [("solo", mkModeInfo 1 "₹5" 5 false);
   ("duo", mkModeInfo 2 "₹10" 10 true);
   ("squad", mkModeInfo 4 "₹20" 20 true)].

(** The names that an object literal inherits from [Object.prototype]:
    [modeConfig[name]] is then the inherited member, which is truthy and
    has none of the fields of a mode. *)
Definition Object_prototype : list string :=
  ["constructor"; "hasOwnProperty"; "isPrototypeOf"; "propertyIsEnumerable";
   "toLocaleString"; "toString"; "valueOf"; "__proto__";
   "__defineGetter__"; "__defineSetter__"; "__lookupGetter__"; "__lookupSetter__"].

(** [modeConfig[mode] || modeConfig.solo]; [None] is an inherited member,
    every field of which reads as [undefined]. *)
Definition modeInfo (mode : string) : option ModeInfo :=
  match JS.index modeConfig mode with
  | Some info => Some info
  | None =>
      if JS.includes Object_prototype mode then None
      else JS.index modeConfig "solo"
  end.

(** [params.get(name) || fallback]. *)
Definition param (v : option string) (fallback : string) : string :=
  JS.or_string (Validator.toString v) fallback.

(** The form as the script reads it: the [value] of the input element with
    a given [id], [None] when the page has no such element. *)
Definition Form : Type := string -> option string.

(** [document.getElementById(id)?.value.trim()]. *)
Definition trimmed (form : Form) (id : string) : option string :=
  option_map JS.trim (form id).

Definition player (form : Form) (i : nat) : Registration.Player :=
  Registration.mkPlayer
    (trimmed form ("p" ++ JS.show_nat i ++ "Name")%string)
    (trimmed form ("p" ++ JS.show_nat i ++ "Id")%string)
    (trimmed form ("p" ++ JS.show_nat i ++ "Phone")%string)
    (trimmed form ("p" ++ JS.show_nat i ++ "Email")%string).

(** The number of rounds of [for (let i = 1; i <= modeInfo.players; i++)];
    a comparison with [undefined] is false. *)
Definition player_sections (info : option ModeInfo) : nat :=
  match info with
  | Some i => players i
  | None => 0
  end.

Definition team_section (info : option ModeInfo) : bool :=
  match info with
  | Some i => showTeam i
  | None => false
  end.

(** The object [data] that the submit handler posts once the checks of the
    form have passed, for the page opened with the URL parameters [game]
    and [mode]. The element [transactionId] is read without [?.]: on a page
    without it the handler throws and nothing is posted, [None]. *)
Definition registration_data (game mode : option string) (form : Form) : option RegisterRoute.Body :=
  let game := param game "pubg" in
  let mode := param mode "solo" in
  let info := modeInfo mode in
  let players := map (player form) (seq 1 (player_sections info)) in
  match form "transactionId" with
  | Some t =>
      Some (RegisterRoute.mkBody
              (Some game) (Some mode)
              (if team_section info then trimmed form "teamName" else None)
              (Some players) (Some (JS.trim t)) None)
  | None => None
  end.



End Browser.

(* ====================================================================== *)
(** ** scripts/seedAdmin.js *)
(* ====================================================================== *)

Module Seed.

Definition ADMIN_EMAIL : string := "ishukriitpatna@gmail.com".
Definition ADMIN_PASSWORD : string := "ISHUkr75@".
Definition ADMIN_NAME : string := "GULLYESPORTS Admin".

(** [seedAdmin()] on a connected database: the store it leaves and the exit
    code of the process. *)
Definition seedAdmin (hash : string -> string) (db : Store) : Store * nat :=
  match Admin.findOne_email (admins db) (Some ADMIN_EMAIL) with
  | Some _ => (db, 0)
  | None =>
      match Admin.create hash (admins db) (next_id db)
              (Some ADMIN_EMAIL) (Some ADMIN_PASSWORD) (Some ADMIN_NAME) (Some "superadmin") with
      | JS.Ok (coll, _) =>
          (mkStore coll (contacts db) (registrations db) (S (next_id db)), 0)
      | JS.Throw _ => (db, 1)
      end
  end.

End Seed.

(* ====================================================================== *)
(** ** Views of queries, responses and documents used in the statements *)
(* ====================================================================== *)

Module Listing.

(** The same filters for page [p]. *)
Definition at_page (q : AdminRoutes.ListQuery) (p : positive) : AdminRoutes.ListQuery :=
  AdminRoutes.mkListQuery (AdminRoutes.game q) (AdminRoutes.mode q) (AdminRoutes.status q)
                          (Some p) (AdminRoutes.limit q).

(** The same filters, asking for a first page that holds more than [n]
    documents. *)
Definition everything (q : AdminRoutes.ListQuery) (n : nat) : AdminRoutes.ListQuery :=
  AdminRoutes.mkListQuery (AdminRoutes.game q) (AdminRoutes.mode q) (AdminRoutes.status q)
                          (Some 1%positive) (Some (Pos.of_succ_nat n)).

(** [data] and [pagination] of a list response. *)
Definition registrations_of (r : Http.Response) : list Registration.Doc :=
  match Http.data r with
  | Http.RegistrationList l _ => l
  | _ => []
  end.

Definition contacts_of (r : Http.Response) : list Contact.Doc :=
  match Http.data r with
  | Http.ContactList l _ => l
  | _ => []
  end.

Definition pagination_of (r : Http.Response) : Http.Pagination :=
  match Http.data r with
  | Http.RegistrationList _ p => p
  | Http.ContactList _ p => p
  | _ => Http.mkPagination 0 0 0 0
  end.


End Listing.

Module View.

(** A registration with its status left out: what no route ever changes. *)
Definition but_status (d : Registration.Doc) : Registration.Doc :=
  let f := Registration.fields d in
  Registration.mkDoc (Registration._id d)
    (Registration.mkFields (Registration.game f) (Registration.mode f) (Registration.teamName f)
                           (Registration.players f) (Registration.transactionId f)
                           (Registration.entryFee f) None).

(** An administrator with the time of the last login left out. *)
Definition account (a : Admin.Doc) : Admin.Doc :=
  Admin.mkDoc (Admin._id a) (Admin.email a) (Admin.password a) (Admin.name a) (Admin.role a) None.

(** A contact message with its status left out. *)
Definition message_but_status (c : Contact.Doc) : Contact.Doc :=
  let f := Contact.fields c in
  Contact.mkDoc (Contact._id c)
    (Contact.mkFields (Contact.name f) (Contact.email f) (Contact.phone f) (Contact.subject f)
                      (Contact.message f) None).

(** A stored registration that the validators of the schema accept as it
    stands and that has a status. *)
Definition schema_valid (d : Registration.Doc) : Prop :=
  Registration.validate (Registration.fields d) = [] /\
  Registration.status (Registration.fields d) <> None.


(** The document with identifier [id] that [findById] and its variants
    act on: the first one in the collection. *)
Definition registration_by_id (coll : list Registration.Doc) (id : nat) : option Registration.Doc :=
  find (fun d => Nat.eqb (Registration._id d) id) coll.

Definition contact_by_id (coll : list Contact.Doc) (id : nat) : option Contact.Doc :=
  find (fun c => Nat.eqb (Contact._id c) id) coll.

End View.

(* ====================================================================== *)
(** ** Sample data *)
(* ====================================================================== *)

Module Sample.

Definition lead : Registration.Player :=
  Registration.mkPlayer (Some "A") (Some "1") (Some "9876543210") None.

Definition mate : Registration.Player :=
  Registration.mkPlayer (Some "B") (Some "2") (Some "9876543211") None.

(** A player whose fields carry blanks and an upper-case address. *)
Definition untidy : Registration.Player :=
  Registration.mkPlayer (Some " C ") (Some "3") (Some "9876543212") (Some "C@Mail.IN").

(** The end-to-end example of the specification. *)
Definition duo_body : RegisterRoute.Body :=
  RegisterRoute.mkBody (Some "pubg") (Some "duo") (Some "Alpha") (Some [lead; mate])
                       (Some "UPI000111222") None.

(** The same payment, a duo roster of one and no team name. *)
Definition short_duo_body : RegisterRoute.Body :=
  RegisterRoute.mkBody (Some "pubg") (Some "duo") None (Some [lead])
                       (Some "UPI000111222") None.

(** A solo registration that sends two players and a fee of its own. *)
Definition solo_body : RegisterRoute.Body :=
  RegisterRoute.mkBody (Some "freefire") (Some "solo") None (Some [lead; mate])
                       (Some "UPI000333444") (Some 1%Z).

Definition solo_empty_body : RegisterRoute.Body :=
  RegisterRoute.mkBody (Some "freefire") (Some "solo") None (Some [])
                       (Some "UPI000333444") None.

(** Three invalid fields at once. *)
Definition invalid_body : RegisterRoute.Body :=
  RegisterRoute.mkBody (Some "chess") (Some "solo") None (Some [lead]) (Some "abc") None.

Definition invalid_contact : ContactRoute.Body :=
  ContactRoute.mkBody (Some "J") (Some "john@example.com") None (Some "tournament") (Some "short").

Definition root : Admin.Doc :=
  Admin.mkDoc 7 "admin@example.com" "$2a$12$hash" "Root" "superadmin" None.

Definition empty : Store := mkStore [root] [] [] 100.

Definition secret : string := "s3cret".

(** Stand-ins for the libraries: every address is an e-mail address,
    normalization changes nothing, the only password is ["letmein"], and
    the two strings name the token signed for [root] at clock 0 and a
    forged one. *)
Definition isEmail (s : string) : bool := true.

Definition normalizeEmail (s : string) : string := s.

Definition bcrypt_compare (candidate hash : string) : bool := String.eqb candidate "letmein".

Definition root_token : Jwt.Token :=
  Jwt.Signed secret (Jwt.mkPayload 7 0%Z (Some Jwt.seven_days)).

Definition jwt_decode (s : string) : Jwt.Token :=
  if String.eqb s "root.token" then root_token else Jwt.Malformed.

Definition approved (fee : Z) (id : nat) : Registration.Doc :=
  Registration.mkDoc id
    (Registration.mkFields (Some "pubg") (Some "solo") None [lead] (Some ("UPI-" ++ JS.show_nat id)%string)
                           (Some fee) (Some "approved")).

Definition pending (fee : Z) (id : nat) : Registration.Doc :=
  Registration.mkDoc id
    (Registration.mkFields (Some "cod") (Some "solo") None [lead] (Some ("UPI-" ++ JS.show_nat id)%string)
                           (Some fee) (Some "pending")).

(** A solo registration whose player has an in-game name of 51
    characters. *)
Definition long_name_body : RegisterRoute.Body :=
  RegisterRoute.mkBody (Some "pubg") (Some "solo") None
    (Some [Registration.mkPlayer
             (Some "ABCDEFGHIJKLMNOPQRSTUVWXYZABCDEFGHIJKLMNOPQRSTUVWXYZ")
             (Some "1") (Some "9876543210") None])
    (Some "UPI000555666") None.

Definition rejected (fee : Z) (id : nat) : Registration.Doc :=
  Registration.mkDoc id
    (Registration.mkFields (Some "cod") (Some "solo") None [lead] (Some ("UPI-" ++ JS.show_nat id)%string)
                           (Some fee) (Some "rejected")).

(** A store with one pending, one rejected and two approved registrations. *)
Definition busy : Store :=
  mkStore [root] [] [pending 50 4; approved 20 3; rejected 10 2; approved 5 1] 100.

Definition unknown_login : AdminRoutes.LoginBody :=
  AdminRoutes.mkLoginBody (Some "nobody@example.com") (Some "letmein").

Definition wrong_password_login : AdminRoutes.LoginBody :=
  AdminRoutes.mkLoginBody (Some " Admin@Example.com") (Some "guess").

Definition good_login : AdminRoutes.LoginBody :=
  AdminRoutes.mkLoginBody (Some "admin@example.com") (Some "letmein").

(** A squad of five: one player more than the mode requires. *)
Definition fifth (n : string) : Registration.Player :=
  Registration.mkPlayer (Some n) (Some "9") (Some "9876543219") None.

Definition squad_body : RegisterRoute.Body :=
  RegisterRoute.mkBody (Some " cod ") (Some "squad") (Some " Omega ")
                       (Some [lead; mate; fifth "C"; fifth "D"; fifth "E"])
                       (Some "UPI000777888") None.

(** The store after the duo registration. *)
Definition after_duo : Store := fst (RegisterRoute.handler empty duo_body).

Definition valid_contact : ContactRoute.Body :=
  ContactRoute.mkBody (Some " John ") (Some "John@Example.com") None (Some "payment")
                      (Some "Where is my payout?").


Definition note (id : nat) (status : string) : Contact.Doc :=
  Contact.mkDoc id
    (Contact.mkFields (Some "John") (Some "john@example.com") None (Some "payment")
                      (Some "Where is my payout?") (Some status)).

(** A store with three messages and the registrations of [busy]. *)
Definition inbox : Store :=
  mkStore [root] [note 13 "new"; note 12 "read"; note 11 "new"] (registrations busy) 100.

Definition root_header : option string := Some "Bearer root.token".

(** Three registrations to a page. *)
Definition by_three : AdminRoutes.ListQuery :=
  AdminRoutes.mkListQuery None None None None (Some 3%positive).

(** Approved registrations only, with a game filter that is no game. *)
Definition approved_only : AdminRoutes.ListQuery :=
  AdminRoutes.mkListQuery (Some "chess") None (Some "approved") None None.

(** A body that carries query operators. *)
Definition injection : Json.Value :=
  Json.JObject
    [("email", Json.JObject [("$gt", Json.JString "")]);
     ("$where", Json.JString "1");
     ("players", Json.JArray [Json.JObject [("$ne", Json.JNull); ("phone", Json.JNumber 1)]])].

Definition clean_body : Json.Value :=
  Json.JObject [("email", Json.JString "a@b.c"); ("players", Json.JArray [Json.JNull])].

(** The registration form filled in for a duo. *)
Definition duo_form : Browser.Form :=
  fun id =>
    if String.eqb id "transactionId" then Some " UPI000111222 "
    else if String.eqb id "teamName" then Some "Alpha"
    else if String.eqb id "p1Name" then Some "A"
    else if String.eqb id "p1Id" then Some "1"
    else if String.eqb id "p1Phone" then Some "9876543210"
    else if String.eqb id "p2Name" then Some "B"
    else if String.eqb id "p2Id" then Some "2"
    else if String.eqb id "p2Phone" then Some "9876543211"
    else if String.eqb id "p1Email" then Some ""
    else if String.eqb id "p2Email" then Some ""
    else None.


(** Stand-ins for bcrypt in the seed script: the hash of a password is the
    password behind a prefix. *)
Definition bcrypt_hash (password : string) : string := ("$2a$12$" ++ password)%string.

Definition bcrypt_compare_hash (candidate hash : string) : bool :=
  String.eqb hash (bcrypt_hash candidate).

End Sample.

(* ====================================================================== *)
(** ** The server *)
(* ====================================================================== *)

Section Server.

(** validator.js, bcryptjs and the compact serialization of a token are
    libraries outside the repository. *)
Variable isEmail : string -> bool.
Variable normalizeEmail : string -> string.
Variable bcrypt_compare : string -> string -> bool.
Variable jwt_decode : string -> Jwt.Token.

(** [process.env.JWT_SECRET]. *)
Variable JWT_SECRET : string.

(** *** routes/contactRoutes.js: POST /api/v1/contact *)

Definition contact_name_chain : Validator.ValidationChain :=
  Validator.mkChain false
    [Validator.Sanitization JS.trim;
     Validator.Validation Validator.notEmpty "Name is required";
     Validator.Validation (Validator.isLength 2 (Some 100)) "Name must be 2–100 characters"].

Definition contact_email_chain : Validator.ValidationChain :=
  Validator.mkChain false
    [Validator.Sanitization JS.trim;
     Validator.Validation Validator.notEmpty "Email is required";
     Validator.Validation isEmail "Invalid email format";
     Validator.Sanitization normalizeEmail].

Definition contact_phone_chain : Validator.ValidationChain :=
  Validator.mkChain true [Validator.Sanitization JS.trim].

Definition contact_subject_chain : Validator.ValidationChain :=
  Validator.mkChain false
    [Validator.Sanitization JS.trim;
     Validator.Validation Validator.notEmpty "Subject is required";
     Validator.Validation (Validator.isIn Contact.subjects) "Invalid subject category"].

Definition contact_message_chain : Validator.ValidationChain :=
  Validator.mkChain false
    [Validator.Sanitization JS.trim;
     Validator.Validation Validator.notEmpty "Message is required";
     Validator.Validation (Validator.isLength 10 (Some 2000)) "Message must be 10–2000 characters"].

Definition contact_validation_errors (b : ContactRoute.Body) : list string :=
  snd (Validator.run contact_name_chain (ContactRoute.name b)) ++
  snd (Validator.run contact_email_chain (ContactRoute.email b)) ++
  snd (Validator.run contact_phone_chain (ContactRoute.phone b)) ++
  snd (Validator.run contact_subject_chain (ContactRoute.subject b)) ++
  snd (Validator.run contact_message_chain (ContactRoute.message b)).

Definition contact_sanitize (b : ContactRoute.Body) : ContactRoute.Body :=
  ContactRoute.mkBody
    (fst (Validator.run contact_name_chain (ContactRoute.name b)))
    (fst (Validator.run contact_email_chain (ContactRoute.email b)))
    (fst (Validator.run contact_phone_chain (ContactRoute.phone b)))
    (fst (Validator.run contact_subject_chain (ContactRoute.subject b)))
    (fst (Validator.run contact_message_chain (ContactRoute.message b))).

(** Some field of a contact body fails one of its validations, with
    message [m]. *)
Definition contact_field_failure (b : ContactRoute.Body) (m : string) : Prop :=
  Validator.fails contact_name_chain (ContactRoute.name b) m \/
  Validator.fails contact_email_chain (ContactRoute.email b) m \/
  Validator.fails contact_phone_chain (ContactRoute.phone b) m \/
  Validator.fails contact_subject_chain (ContactRoute.subject b) m \/
  Validator.fails contact_message_chain (ContactRoute.message b) m.

(** The handler; the notification e-mail is sent without being awaited. *)
Definition contact_handler (db : Store) (body : ContactRoute.Body) : Store * Http.Response :=
  let errors := contact_validation_errors body in
  match errors with
  | _ :: _ => (db, RegisterRoute.validation_failed errors)
  | [] =>
      let b := contact_sanitize body in
      match Contact.save (contacts db) (next_id db)
              (Contact.mkFields (ContactRoute.name b) (ContactRoute.email b)
                                (JS.or_null (ContactRoute.phone b))
                                (ContactRoute.subject b) (ContactRoute.message b) None) with
      | JS.Ok (coll, _) =>
          (mkStore (admins db) coll (registrations db) (S (next_id db)),
           Http.mkResponse 201 true
             (Some "Your message has been sent successfully! We will get back to you soon.")
             None Http.NoData)
      | JS.Throw _ =>
          (db, Http.fail 500 "Failed to send message. Please try again later.")
      end
  end.

(** *** routes/adminRoutes.js: login *)

(** [jwt.sign({ id: adminId }, process.env.JWT_SECRET, { expiresIn: '7d' })]
    at clock [now] (milliseconds). *)
Definition generateToken (now : Z) (adminId : nat) : JS.result Jwt.Token :=
  Jwt.sign adminId JWT_SECRET Jwt.seven_days now.

Definition login_email_chain : Validator.ValidationChain :=
  Validator.mkChain false
    [Validator.Sanitization JS.trim;
     Validator.Validation Validator.notEmpty "Email is required";
     Validator.Validation isEmail "Invalid email"].

Definition login_password_chain : Validator.ValidationChain :=
  Validator.mkChain false
    [Validator.Validation Validator.notEmpty "Password is required"].

Definition login_validation_errors (b : AdminRoutes.LoginBody) : list string :=
  snd (Validator.run login_email_chain (AdminRoutes.email b)) ++
  snd (Validator.run login_password_chain (AdminRoutes.password b)).

Definition invalid_credentials : Http.Response :=
  Http.fail 401 "Invalid email or password.".

(** [admin.comparePassword(candidate)]. *)
Definition comparePassword (admin : Admin.Doc) (candidate : string) : bool :=
  bcrypt_compare candidate (Admin.password admin).

Definition login_handler (now : Z) (db : Store) (body : AdminRoutes.LoginBody) : Store * Http.Response :=
  match login_validation_errors body with
  | first :: _ => (db, Http.fail 400 first)
  | [] =>
      let email := fst (Validator.run login_email_chain (AdminRoutes.email body)) in
      let password := fst (Validator.run login_password_chain (AdminRoutes.password body)) in
      match Admin.findOne_email (admins db) email with
      | None => (db, invalid_credentials)
      | Some admin =>
          if negb (comparePassword admin (Validator.toString password)) then
            (db, invalid_credentials)
          else
            let admin' :=
              Admin.mkDoc (Admin._id admin) (Admin.email admin) (Admin.password admin)
                          (Admin.name admin) (Admin.role admin) (Some now) in
            let db' :=
              mkStore (Admin.save (admins db) admin') (contacts db) (registrations db) (next_id db) in
            match generateToken now (Admin._id admin) with
            | JS.Ok token =>
                (db',
                 Http.mkResponse 200 true (Some "Login successful") None
                   (Http.LoginData token
                      (Http.mkAdminInfo (Admin._id admin) (Admin.name admin)
                                        (Admin.email admin) (Admin.role admin))))
            | JS.Throw _ => (db', Http.fail 500 "Login failed. Please try again.")
            end
      end
  end.

(** *** middleware/authMiddleware.js *)

(** The token taken from [req.headers.authorization]. *)
Definition bearer_token (authorization : option string) : option string :=
  match authorization with
  | Some h =>
      if JS.truthy (Some h) && JS.startsWith h "Bearer"
      then nth_error (JS.split_space h) 1
      else None
  | None => None
  end.

(** [protect]: [inl] is the response sent by the middleware itself, [inr]
    the administrator attached to the request when [next()] is called. *)
Definition protect (now : Z) (db : Store) (authorization : option string) : Http.Response + Admin.Doc :=
  let token := bearer_token authorization in
  if negb (JS.truthy token) then
    inl (Http.fail 401 "Not authorized. Please login.")
  else
    match Jwt.verify (jwt_decode (Validator.toString token)) JWT_SECRET now with
    | JS.Throw error =>
        if String.eqb (JS.name error) "JsonWebTokenError" then
          inl (Http.fail 401 "Invalid token. Please login again.")
        else if String.eqb (JS.name error) "TokenExpiredError" then
          inl (Http.fail 401 "Token expired. Please login again.")
        else inl (Http.fail 500 "Authentication failed.")
    | JS.Ok decoded =>
        match Admin.findById (admins db) (Jwt.id decoded) with
        | None => inl (Http.fail 401 "Admin account not found.")
        | Some admin => inr admin
        end
    end.

(** The four ways a request fails to authenticate: no token in the header;
    a token that is malformed or signed with another key; a token of this
    server whose expiry the clock has reached; a token that verifies but
    whose administrator is not in the store. *)
Inductive Unauthorized (now : Z) (db : Store) (authorization : option string) : Prop :=
| token_missing :
    JS.truthy (bearer_token authorization) = false ->
    Unauthorized now db authorization
| token_invalid (t : string) :
    bearer_token authorization = Some t -> t <> "" ->
    (jwt_decode t = Jwt.Malformed \/
     exists key payload, jwt_decode t = Jwt.Signed key payload /\ key <> JWT_SECRET) ->
    Unauthorized now db authorization
| token_expired (t : string) (payload : Jwt.Payload) (e : Z) :
    bearer_token authorization = Some t -> t <> "" ->
    jwt_decode t = Jwt.Signed JWT_SECRET payload ->
    Jwt.exp payload = Some e -> (e <= Jwt.clockTimestamp now)%Z ->
    Unauthorized now db authorization
| account_missing (t : string) (payload : Jwt.Payload) :
    bearer_token authorization = Some t -> t <> "" ->
    Jwt.verify (jwt_decode t) JWT_SECRET now = JS.Ok payload ->
    Admin.findById (admins db) (Jwt.id payload) = None ->
    Unauthorized now db authorization.

(** *** routes/adminRoutes.js: the token-gated handlers *)

Definition me_handler (admin : Admin.Doc) : Http.Response :=
  Http.mkResponse 200 true None None
    (Http.MeData
       (Http.mkAdminInfo (Admin._id admin) (Admin.name admin) (Admin.email admin) (Admin.role admin))
       (Admin.lastLogin admin)).

(** [approvedRegs.reduce((sum, r) => sum + (r.entryFee || 0), 0)]. *)
Definition totalRevenue (approvedRegs : list Registration.Doc) : Z :=
  fold_left (fun sum r => (sum + JS.or_zero (Registration.entryFee (Registration.fields r)))%Z)
            approvedRegs 0%Z.

Definition stats_handler (db : Store) : Http.Response :=
  let approvedRegs := Registration.find_status (registrations db) "approved" in
  Http.mkResponse 200 true None None
    (Http.StatsData
       (Http.mkStats
          (List.length (contacts db))
          (Contact.count_status (contacts db) "new")
          (List.length (registrations db))
          (Registration.count_status (registrations db) "pending")
          (Registration.count_status (registrations db) "approved")
          (Registration.count_game (registrations db) "pubg")
          (Registration.count_game (registrations db) "freefire")
          (Registration.count_game (registrations db) "cod")
          (totalRevenue approvedRegs))).

(** A filter entry [if (v && allowed.includes(v)) filter.path = v]: a value
    that is absent or not allowed filters nothing. *)
Definition filter_by (allowed : list string) (v : option string) (stored : option string) : bool :=
  match v with
  | Some s => if JS.truthy v && JS.includes allowed s then Schema.opt_eqb stored v else true
  | None => true
  end.

Definition page_of (q : AdminRoutes.ListQuery) : nat :=
  match AdminRoutes.page q with
  | Some p => Pos.to_nat p
  | None => 1
  end.

Definition limit_of (q : AdminRoutes.ListQuery) : nat :=
  match AdminRoutes.limit q with
  | Some l => Pos.to_nat l
  | None => 20
  end.

(** [.sort({ createdAt: -1 }).skip(skip).limit(limit)] on a collection kept
    newest first. *)
Definition paginate {A : Type} (q : AdminRoutes.ListQuery) (matching : list A) : list A :=
  firstn (limit_of q) (skipn ((page_of q - 1) * limit_of q) matching).

(** [Math.ceil(total / limit)]. *)
Definition pages_of (total limit : nat) : nat := (total + limit - 1) / limit.

Definition pagination (q : AdminRoutes.ListQuery) (total : nat) : Http.Pagination :=
  Http.mkPagination (page_of q) (limit_of q) total (pages_of total (limit_of q)).

Definition contacts_handler (db : Store) (q : AdminRoutes.ListQuery) : Http.Response :=
  let matching :=
    filter (fun c => filter_by ["new"; "read"; "replied"] (AdminRoutes.status q)
                               (Contact.status (Contact.fields c)))
           (contacts db) in
  Http.mkResponse 200 true None None
    (Http.ContactList (paginate q matching) (pagination q (List.length matching))).

Definition patch_contact_handler (db : Store) (id : nat) (status : option string) : Store * Http.Response :=
  match status with
  | Some s =>
      if JS.truthy status && JS.includes ["new"; "read"; "replied"] s then
        match Contact.findByIdAndUpdate (contacts db) id s with
        | (coll, Some contact) =>
            (mkStore (admins db) coll (registrations db) (next_id db),
             Http.mkResponse 200 true None None (Http.ContactItem contact))
        | (_, None) => (db, Http.fail 404 "Contact not found.")
        end
      else (db, Http.fail 400 "Status must be: new, read, or replied")
  | None => (db, Http.fail 400 "Status must be: new, read, or replied")
  end.

Definition delete_contact_handler (db : Store) (id : nat) : Store * Http.Response :=
  match Contact.findByIdAndDelete (contacts db) id with
  | (coll, Some _) =>
      (mkStore (admins db) coll (registrations db) (next_id db),
       Http.mkResponse 200 true (Some "Contact deleted.") None Http.NoData)
  | (_, None) => (db, Http.fail 404 "Contact not found.")
  end.

Definition registrations_handler (db : Store) (q : AdminRoutes.ListQuery) : Http.Response :=
  let matching :=
    filter (fun r =>
              filter_by ["pubg"; "freefire"; "cod"] (AdminRoutes.game q)
                        (Registration.game (Registration.fields r)) &&
              filter_by ["solo"; "duo"; "squad"] (AdminRoutes.mode q)
                        (Registration.mode (Registration.fields r)) &&
              filter_by ["pending"; "approved"; "rejected"] (AdminRoutes.status q)
                        (Registration.status (Registration.fields r)))
           (registrations db) in
  Http.mkResponse 200 true None None
    (Http.RegistrationList (paginate q matching) (pagination q (List.length matching))).

Definition patch_registration_handler (db : Store) (id : nat) (status : option string) : Store * Http.Response :=
  match status with
  | Some s =>
      if JS.truthy status && JS.includes ["pending"; "approved"; "rejected"] s then
        match Registration.findByIdAndUpdate (registrations db) id s with
        | (coll, Some registration) =>
            (mkStore (admins db) (contacts db) coll (next_id db),
             Http.mkResponse 200 true None None (Http.RegistrationItem registration))
        | (_, None) => (db, Http.fail 404 "Registration not found.")
        end
      else (db, Http.fail 400 "Status must be: pending, approved, or rejected")
  | None => (db, Http.fail 400 "Status must be: pending, approved, or rejected")
  end.

(** The handler that [next()] reaches, with [req.admin] set. *)
Definition admin_handler (admin : Admin.Doc) (db : Store) (op : AdminRoutes.Operation) : Store * Http.Response :=
  match op with
  | AdminRoutes.GetMe => (db, me_handler admin)
  | AdminRoutes.GetStats => (db, stats_handler db)
  | AdminRoutes.GetContacts q => (db, contacts_handler db q)
  | AdminRoutes.PatchContact id status => patch_contact_handler db id status
  | AdminRoutes.DeleteContact id => delete_contact_handler db id
  | AdminRoutes.GetRegistrations q => (db, registrations_handler db q)
  | AdminRoutes.PatchRegistration id status => patch_registration_handler db id status
  end.

(** [router.METHOD(path, protect, handler)]: the handler runs only when the
    middleware calls [next()]. *)
Definition admin_route (now : Z) (db : Store) (authorization : option string)
  (op : AdminRoutes.Operation) : Store * Http.Response :=
  match protect now db authorization with
  | inl response => (db, response)
  | inr admin => admin_handler admin db op
  end.

(** One request served from start to end at clock [now]. *)
Definition handle (now : Z) (db : Store) (req : Request) : Store * Http.Response :=
  match req with
  | PostRegister body => RegisterRoute.handler db body
  | PostContact body => contact_handler db body
  | PostLogin body => login_handler now db body
  | AdminRequest authorization op => admin_route now db authorization op
  end.

(** The ways the store changes: a request served in one piece; the write of
    a registration handler whose lookup saw an earlier state [seen] of the
    collection; and, beyond what the routes do, a [save()] of any
    registration object whatever. *)
Inductive step : Store -> Store -> Prop :=
| step_request (now : Z) (db : Store) (req : Request) :
    step db (fst (handle now db req))
| step_interleaved (seen : list Registration.Doc) (db : Store) (body : RegisterRoute.Body) :
    step db (fst (RegisterRoute.interleaved seen db body))
| step_save (db : Store) (i : Registration.Fields) :
    step db (fst (RegisterRoute.commit db i)).

Inductive reachable (db0 : Store) : Store -> Prop :=
| reachable_start : reachable db0 db0
| reachable_step (db db' : Store) : reachable db0 db -> step db db' -> reachable db0 db'.

(* ====================================================================== *)
(** ** Properties *)
(* ====================================================================== *)

(** A proof depends on the libraries and on the secret only as far as its
    statement mentions them. *)
Set Default Proof Using "Type".

(** [tauto] goes through the whole context; a proof that relies on it first
    puts aside the libraries that its statement does not mention. *)
Ltac libraries_aside :=
  try clear JWT_SECRET; try clear bcrypt_compare; try clear jwt_decode;
  try clear isEmail; try clear normalizeEmail.

(** *** Strings and tables *)

Lemma includes_In (arr : list string) (x : string) :
  JS.includes arr x = true <-> In x arr.
Proof.
  unfold JS.includes. rewrite existsb_exists. split.
  - intros [y [Hy Heq]]. apply String.eqb_eq in Heq. now subst.
  - intros H. exists x. split; [exact H | apply String.eqb_refl].
Qed.

Lemma opt_eqb_eq (a b : option string) : Schema.opt_eqb a b = true <-> a = b.
Proof.
  destruct a as [x|], b as [y|]; simpl; split; intros H; try congruence; try discriminate.
  - apply String.eqb_eq in H. now subst.
  - injection H as ->. apply String.eqb_refl.
Qed.

Lemma opt_eqb_refl (a : option string) : Schema.opt_eqb a a = true.
Proof. now apply opt_eqb_eq. Qed.

(** The fee table and the player-count table of the route, and the table of
    the pre-save hook, agree with the policy of the specification on each
    mode. *)
Lemma FEE_TABLE_policy (m : Policy.Mode) :
  JS.index RegisterRoute.FEE_TABLE (Policy.mode_name m) = Some (Policy.entryFeeFor m).
Proof. destruct m; reflexivity. Qed.

Lemma PLAYER_COUNT_policy (m : Policy.Mode) :
  JS.index RegisterRoute.PLAYER_COUNT (Policy.mode_name m) = Some (Policy.requiredPlayerCountFor m).
Proof. destruct m; reflexivity. Qed.

Lemma expectedPlayers_policy (m : Policy.Mode) :
  JS.index Registration.expectedPlayers (Policy.mode_name m) = Some (Policy.requiredPlayerCountFor m).
Proof. destruct m; reflexivity. Qed.

Lemma is_team_mode_policy (m : Policy.Mode) :
  Registration.is_team_mode (Some (Policy.mode_name m)) = Policy.teamNameRequired m.
Proof. destruct m; reflexivity. Qed.

Lemma mode_name_cases (s : string) :
  In s ["solo"; "duo"; "squad"] -> exists m, s = Policy.mode_name m.
Proof.
  simpl. intros [H | [H | [H | []]]]; subst.
  - now exists Policy.solo.
  - now exists Policy.duo.
  - now exists Policy.squad.
Qed.

Lemma rtrim_cons_nonspace (c : ascii) (s : string) :
  JS.is_space c = false -> JS.rtrim (String c s) = String c (JS.rtrim s).
Proof.
  intros Hc. simpl. destruct (JS.rtrim s); [now rewrite Hc | reflexivity].
Qed.

Lemma rtrim_unfold (c : ascii) (s : string) :
  JS.rtrim (String c s) =
  match JS.rtrim s with
  | EmptyString => if JS.is_space c then EmptyString else String c EmptyString
  | r => String c r
  end.
Proof. reflexivity. Qed.

Lemma rtrim_idempotent (s : string) : JS.rtrim (JS.rtrim s) = JS.rtrim s.
Proof.
  induction s as [| c s IH]; [reflexivity |].
  rewrite (rtrim_unfold c s). destruct (JS.rtrim s) as [| c' r] eqn:E.
  - destruct (JS.is_space c) eqn:Hc; [reflexivity |].
    rewrite rtrim_unfold. simpl. now rewrite Hc.
  - rewrite rtrim_unfold, IH. reflexivity.
Qed.

Lemma ltrim_head (s : string) :
  JS.ltrim s = "" \/ exists c r, JS.ltrim s = String c r /\ JS.is_space c = false.
Proof.
  induction s as [| c s IH]; [now left |].
  simpl. destruct (JS.is_space c) eqn:Hc; [exact IH |].
  right. now exists c, s.
Qed.

(** Trimming a trimmed string changes nothing: the schema's [trim] setter
    is the identity on what the route's [.trim()] left. *)
Lemma trim_idempotent (s : string) : JS.trim (JS.trim s) = JS.trim s.
Proof.
  unfold JS.trim. destruct (ltrim_head s) as [-> | (c & r & -> & Hc)]; [reflexivity |].
  rewrite (rtrim_cons_nonspace c r Hc). cbn [JS.ltrim]. rewrite Hc.
  rewrite (rtrim_cons_nonspace c (JS.rtrim r) Hc). now rewrite rtrim_idempotent.
Qed.

(** *** Validation chains *)
Lemma run_stack_rejects (items : list Validator.ContextItem) (v m : string) :
  In m (snd (Validator.run_stack items v)) <-> Validator.rejects items v m.
Proof.
  revert v. induction items as [| item rest IH]; intros v; simpl.
  - split; [intros [] | intros H; inversion H].
  - destruct item as [f | p msg].
    + rewrite IH. split.
      * intros H. now constructor.
      * intros H. now inversion H; subst.
    + destruct (Validator.run_stack rest v) as [v' errs] eqn:E. simpl.
      specialize (IH v). rewrite E in IH. simpl in IH.
      destruct (p v) eqn:Hp.
      * rewrite IH. split.
        -- intros H. now apply Validator.rejects_after_validation.
        -- intros H. inversion H; subst; [congruence | assumption].
      * simpl. rewrite IH. split.
        -- intros [<- | H]; [now apply Validator.rejects_here
                             | now apply Validator.rejects_after_validation].
        -- intros H. inversion H; subst; [now left | now right].
Qed.

Lemma run_fails (c : Validator.ValidationChain) (field : option string) (m : string) :
  In m (snd (Validator.run c field)) <-> Validator.fails c field m.
Proof.
  libraries_aside.
  unfold Validator.run, Validator.fails.
  destruct (Validator.optional c && negb (JS.truthy field)) eqn:E.
  - simpl. split; [intros [] | intros [H _]; discriminate].
  - destruct (Validator.run_stack (Validator.stack c) (Validator.toString field)) as [v errs] eqn:R.
    simpl. pose proof (run_stack_rejects (Validator.stack c) (Validator.toString field) m) as H.
    rewrite R in H. simpl in H. rewrite H. tauto.
Qed.

Lemma notEmpty_true (s : string) : Validator.notEmpty s = true <-> s <> "".
Proof.
  unfold Validator.notEmpty. rewrite negb_true_iff. split.
  - intros H ->. now rewrite String.eqb_refl in H.
  - intros H. apply String.eqb_neq. exact H.
Qed.

(** A chain [.trim().notEmpty().isIn(values)] with no error left: the field
    is a string whose trimmed value is one of [values]. *)
Lemma enum_chain_ok (values : list string) (msg1 msg2 : string) (field : option string) :
  snd (Validator.run
         (Validator.mkChain false
            [Validator.Sanitization JS.trim;
             Validator.Validation Validator.notEmpty msg1;
             Validator.Validation (Validator.isIn values) msg2]) field) = [] ->
  exists s : string,
    field = Some s /\ JS.trim s <> "" /\ In (JS.trim s) values /\
    fst (Validator.run
           (Validator.mkChain false
              [Validator.Sanitization JS.trim;
               Validator.Validation Validator.notEmpty msg1;
               Validator.Validation (Validator.isIn values) msg2]) field) = Some (JS.trim s).
Proof.
  unfold Validator.run, Validator.isIn; simpl.
  destruct (Validator.notEmpty (JS.trim (Validator.toString field))) eqn:Hne; [| discriminate].
  destruct (JS.includes values (JS.trim (Validator.toString field))) eqn:Hin; [| discriminate].
  intros _. apply includes_In in Hin. apply notEmpty_true in Hne.
  destruct field as [s |]; simpl in Hne, Hin |- *.
  - exists s. auto.
  - now elim Hne.
Qed.

Lemma mode_chain_ok (field : option string) :
  snd (Validator.run RegisterRoute.mode_chain field) = [] ->
  exists (m : Policy.Mode) (s : string),
    field = Some s /\ JS.trim s = Policy.mode_name m /\
    fst (Validator.run RegisterRoute.mode_chain field) = Some (Policy.mode_name m).
Proof.
  unfold RegisterRoute.mode_chain. intros H.
  destruct (enum_chain_ok _ _ _ _ H) as (s & -> & _ & Hin & Hfst).
  destruct (mode_name_cases _ Hin) as [m Hm].
  exists m, s. rewrite Hfst, Hm. auto.
Qed.

(** *** The registration handler, case by case *)

Lemma save_Ok_inv (coll coll' : list Registration.Doc) (fresh : nat)
  (i : Registration.Fields) (d : Registration.Doc) :
  Registration.save coll fresh i = JS.Ok (coll', d) ->
  d = Registration.mkDoc fresh (Registration.cast i) /\
  coll' = d :: coll /\
  Registration.validate (Registration.cast i) = [] /\
  Registration.pre_save (Registration.cast i) = JS.Ok tt /\
  Registration.has_transactionId coll (Registration.transactionId (Registration.cast i)) = false.
Proof.
  unfold Registration.save, Registration.insertOne.
  destruct (Registration.validate (Registration.cast i)) eqn:Hv; [| discriminate].
  destruct (Registration.pre_save (Registration.cast i)) as [[] | e] eqn:Hp;
    unfold JS.bind; cbn [Registration.fields]; [| discriminate].
  destruct (Registration.has_transactionId coll _) eqn:Hx; [discriminate |].
  intros H. injection H as <- <-. auto.
Qed.

Lemma save_Ok_intro (coll : list Registration.Doc) (fresh : nat) (i : Registration.Fields) :
  Registration.validate (Registration.cast i) = [] ->
  Registration.pre_save (Registration.cast i) = JS.Ok tt ->
  Registration.has_transactionId coll (Registration.transactionId (Registration.cast i)) = false ->
  Registration.save coll fresh i =
  JS.Ok (Registration.mkDoc fresh (Registration.cast i) :: coll,
         Registration.mkDoc fresh (Registration.cast i)).
Proof.
  intros Hv Hp Hx. unfold Registration.save, Registration.insertOne.
  rewrite Hv, Hp. unfold JS.bind. cbn [Registration.fields]. now rewrite Hx.
Qed.

Lemma caught_code_cases (e : JS.Exn) :
  match JS.code e with
  | Some 11000%Z => RegisterRoute.duplicate_key_caught
  | _ => Http.fail 500 ("Registration failed: " ++ JS.or_string (JS.message e) "Unknown error")
  end =
  if match JS.code e with Some c => Z.eqb c 11000 | None => false end
  then RegisterRoute.duplicate_key_caught
  else Http.fail 500 ("Registration failed: " ++ JS.or_string (JS.message e) "Unknown error").
Proof.
  destruct (JS.code e) as [c |]; [| reflexivity].
  destruct (Z.eqb c 11000) eqn:E.
  - apply Z.eqb_eq in E. now subst.
  - destruct c as [| p | p]; try reflexivity.
    repeat (destruct p as [p | p |]; try reflexivity). discriminate.
Qed.

Lemma commit_cases (db : Store) (i : Registration.Fields) :
  (exists d, Registration.save (registrations db) (next_id db) i = JS.Ok (d :: registrations db, d) /\
             RegisterRoute.commit db i =
             (mkStore (admins db) (contacts db) (d :: registrations db) (S (next_id db)),
              RegisterRoute.registered d i)) \/
  (exists r, RegisterRoute.commit db i = (db, r) /\ (Http.code r = 409 \/ Http.code r = 500)).
Proof.
  unfold RegisterRoute.commit.
  destruct (Registration.save (registrations db) (next_id db) i) as [[regs d] | e] eqn:Hs.
  - left. destruct (save_Ok_inv _ _ _ _ _ Hs) as (_ & -> & _). exists d. auto.
  - right. rewrite caught_code_cases.
    destruct (match JS.code e with Some c => Z.eqb c 11000 | None => false end);
      eexists; (split; [reflexivity |]); [now left | now right].
Qed.

Lemma validation_errors_nil (b : RegisterRoute.Body) :
  RegisterRoute.validation_errors b = [] ->
  snd (Validator.run RegisterRoute.game_chain (RegisterRoute.game b)) = [] /\
  snd (Validator.run RegisterRoute.mode_chain (RegisterRoute.mode b)) = [] /\
  snd (Validator.run RegisterRoute.teamName_chain (RegisterRoute.teamName b)) = [] /\
  Validator.isArray 1 5 (RegisterRoute.players b) = true /\
  RegisterRoute.wildcard_errors RegisterRoute.inGameName_chain Registration.inGameName
    (RegisterRoute.roster b) = [] /\
  RegisterRoute.wildcard_errors RegisterRoute.inGameId_chain Registration.inGameId
    (RegisterRoute.roster b) = [] /\
  RegisterRoute.wildcard_errors RegisterRoute.phone_chain Registration.phone
    (RegisterRoute.roster b) = [] /\
  snd (Validator.run RegisterRoute.transactionId_chain (RegisterRoute.transactionId b)) = [].
Proof.
  unfold RegisterRoute.validation_errors. intros H.
  repeat (apply app_eq_nil in H; destruct H as [? H]).
  repeat split; try assumption.
  destruct (Validator.isArray 1 5 (RegisterRoute.players b)); [reflexivity | discriminate].
Qed.

Lemma begin_inl_code (seen : list Registration.Doc) (body : RegisterRoute.Body) (r : Http.Response) :
  RegisterRoute.begin seen body = inl r -> Http.code r = 400 \/ Http.code r = 409.
Proof.
  unfold RegisterRoute.begin.
  destruct (RegisterRoute.validation_errors body); [| intros H; injection H as <-; now left].
  destruct (Registration.findOne_transactionId _ _); [intros H; injection H as <-; now right |].
  destruct (JS.lt_undef _ _); [intros H; injection H as <-; now left |].
  destruct (_ && _); [intros H; injection H as <-; now left | discriminate].
Qed.

Lemma begin_inr_inv (seen : list Registration.Doc) (body : RegisterRoute.Body)
  (i : Registration.Fields) :
  RegisterRoute.begin seen body = inr i ->
  let b := RegisterRoute.sanitize body in
  RegisterRoute.validation_errors body = [] /\
  Registration.findOne_transactionId seen (RegisterRoute.transactionId b) = None /\
  JS.lt_undef (List.length (RegisterRoute.roster b))
    (match RegisterRoute.mode b with
     | Some m => JS.index RegisterRoute.PLAYER_COUNT m
     | None => None
     end) = false /\
  Registration.is_team_mode (RegisterRoute.mode b) && negb (JS.truthy (RegisterRoute.teamName b)) = false /\
  i = Registration.mkFields (RegisterRoute.game b) (RegisterRoute.mode b)
        (JS.or_null (RegisterRoute.teamName b)) (RegisterRoute.roster b)
        (RegisterRoute.transactionId b)
        (match RegisterRoute.mode b with
         | Some m => JS.index RegisterRoute.FEE_TABLE m
         | None => None
         end)
        (Some "pending").
Proof.
  unfold RegisterRoute.begin.
  destruct (RegisterRoute.validation_errors body); [| discriminate].
  destruct (Registration.findOne_transactionId _ _); [discriminate |].
  destruct (JS.lt_undef _ _); [discriminate |].
  destruct (_ && _); [discriminate |].
  intros H. injection H as <-. simpl. auto.
Qed.

(** The handler never reads the fee field of the body. *)
Lemma begin_ignores_entryFee (seen : list Registration.Doc) (body : RegisterRoute.Body)
  (fee : option Z) :
  RegisterRoute.begin seen (RegisterRoute.with_entryFee fee body) = RegisterRoute.begin seen body.
Proof. reflexivity. Qed.

(** C1. A registration request that passes validation and is persisted has
    its mode among solo, duo and squad (once trimmed), and both the stored
    document and the 201 response carry the fee of the Fee & Roster Policy
    for that mode (5, 10, 20); replacing the fee field of the request body
    by any other value, or removing it, changes neither the resulting store
    nor the response. The lookup may have seen any state [seen] of the
    collection. *)
Theorem entryFee_is_policy_fee_of_mode :
  forall (seen : list Registration.Doc) (db db' : Store)
         (body : RegisterRoute.Body) (r : Http.Response),
    RegisterRoute.interleaved seen db body = (db', r) ->
    Http.code r = 201 ->
    (exists (m : Policy.Mode) (s : string) (doc : Registration.Doc) (echo : Http.Registered),
        RegisterRoute.mode body = Some s /\
        JS.trim s = Policy.mode_name m /\
        registrations db' = doc :: registrations db /\
        Registration.entryFee (Registration.fields doc) = Some (Policy.entryFeeFor m) /\
        Http.data r = Http.RegisteredData echo /\
        Http.entryFee echo = Some (Policy.entryFeeFor m)) /\
    (forall fee : option Z,
        RegisterRoute.interleaved seen db (RegisterRoute.with_entryFee fee body) = (db', r)).
Proof.
  intros seen db db' body r Hrun Hcode. split.
  - unfold RegisterRoute.interleaved in Hrun.
    destruct (RegisterRoute.begin seen body) as [r0 | i] eqn:Hb.
    + injection Hrun as <- <-. apply begin_inl_code in Hb. lia.
    + destruct (commit_cases db i) as [(d & Hs & Hc) | (r0 & Hc & Hr0)].
      * rewrite Hc in Hrun. injection Hrun as <- <-.
        apply begin_inr_inv in Hb. cbv zeta in Hb.
        destruct Hb as (Hv & _ & _ & _ & Hi).
        apply validation_errors_nil in Hv. destruct Hv as (_ & Hm & _).
        destruct (mode_chain_ok _ Hm) as (m & s & Hs0 & Htrim & Hfst).
        apply save_Ok_inv in Hs. destruct Hs as (Hd & _).
        assert (Hfee : Registration.entryFee i = Some (Policy.entryFeeFor m)).
        { rewrite Hi. cbn [Registration.entryFee RegisterRoute.sanitize RegisterRoute.mode].
          rewrite Hfst. apply FEE_TABLE_policy. }
        exists m, s, d, (Http.mkRegistered (Registration._id d) (Registration.game i)
                           (Registration.mode i) (Registration.teamName i)
                           (List.length (Registration.players i)) (Registration.entryFee i)
                           "pending").
        repeat split; try assumption; try reflexivity.
        rewrite Hd. exact Hfee.
      * rewrite Hc in Hrun. injection Hrun as <- <-. lia.
  - intros fee. unfold RegisterRoute.interleaved in Hrun |- *.
    now rewrite begin_ignores_entryFee.
Qed.

Lemma find_existsb {A : Type} (f : A -> bool) (l : list A) :
  find f l = None <-> existsb f l = false.
Proof.
  libraries_aside.
  induction l as [| a l IH]; simpl; [tauto |].
  destruct (f a); simpl; [split; discriminate | exact IH].
Qed.

Lemma findOne_has (seen : list Registration.Doc) (tid : option string) :
  Registration.findOne_transactionId seen tid = None <->
  Registration.has_transactionId seen (option_map JS.trim tid) = false.
Proof. apply find_existsb. Qed.

Lemma isLength_true (min : nat) (max : option nat) (s : string) :
  Validator.isLength min max s = true <->
  min <= String.length s /\
  match max with Some m => String.length s <= m | None => True end.
Proof.
  libraries_aside.
  unfold Validator.isLength. rewrite andb_true_iff, Nat.leb_le.
  destruct max as [m |]; [rewrite Nat.leb_le |]; tauto.
Qed.

(** A chain [.trim().notEmpty().isLength({ min, max })] with no error left. *)
Lemma length_chain_ok (min : nat) (max : option nat) (msg1 msg2 : string) (field : option string) :
  snd (Validator.run
         (Validator.mkChain false
            [Validator.Sanitization JS.trim;
             Validator.Validation Validator.notEmpty msg1;
             Validator.Validation (Validator.isLength min max) msg2]) field) = [] ->
  exists s : string,
    field = Some s /\ JS.trim s <> "" /\ Validator.isLength min max (JS.trim s) = true /\
    fst (Validator.run
           (Validator.mkChain false
              [Validator.Sanitization JS.trim;
               Validator.Validation Validator.notEmpty msg1;
               Validator.Validation (Validator.isLength min max) msg2]) field) = Some (JS.trim s).
Proof.
  unfold Validator.run; cbn [Validator.optional Validator.stack andb Validator.run_stack fst snd].
  destruct (Validator.notEmpty (JS.trim (Validator.toString field))) eqn:Hne; [| discriminate].
  destruct (Validator.isLength min max (JS.trim (Validator.toString field))) eqn:Hlen;
    [| discriminate].
  intros _. apply notEmpty_true in Hne. destruct field as [s |]; simpl in Hne, Hlen |- *.
  - exists s. auto.
  - now elim Hne.
Qed.

Lemma transactionId_chain_ok (field : option string) :
  snd (Validator.run RegisterRoute.transactionId_chain field) = [] ->
  exists s : string,
    field = Some s /\ 5 <= String.length (JS.trim s) /\
    fst (Validator.run RegisterRoute.transactionId_chain field) = Some (JS.trim s).
Proof.
  libraries_aside.
  unfold RegisterRoute.transactionId_chain. intros H.
  destruct (length_chain_ok _ _ _ _ _ H) as (s & -> & _ & Hlen & Hfst).
  apply isLength_true in Hlen. exists s. rewrite Hfst. tauto.
Qed.

Lemma roster_sanitize_length (b : RegisterRoute.Body) :
  List.length (RegisterRoute.roster (RegisterRoute.sanitize b)) =
  List.length (RegisterRoute.roster b).
Proof.
  unfold RegisterRoute.roster, RegisterRoute.sanitize; simpl.
  destruct (RegisterRoute.players b); simpl; [apply length_map | reflexivity].
Qed.

Lemma teamName_sanitized_truthy (field : option string) :
  JS.truthy (fst (Validator.run RegisterRoute.teamName_chain field)) =
  JS.truthy (option_map JS.trim field).
Proof.
  unfold Validator.run, RegisterRoute.teamName_chain; simpl.
  destruct field as [s |]; simpl; [| reflexivity].
  destruct (String.eqb s "") eqn:E; simpl.
  - apply String.eqb_eq in E. now subst.
  - destruct (Validator.isLength 0 (Some 50) (JS.trim s)); reflexivity.
Qed.

(** A request that passes validation and whose transaction identifier the
    lookup finds is answered by the 409 of the lookup, whatever else it
    holds. *)
Lemma lookup_hit (seen : list Registration.Doc) (body : RegisterRoute.Body) (t : string) :
  RegisterRoute.validation_errors body = [] ->
  RegisterRoute.transactionId body = Some t ->
  Registration.has_transactionId seen (Some (JS.trim t)) = true ->
  RegisterRoute.begin seen body = inl RegisterRoute.duplicate_found.
Proof.
  intros Hv Ht Hhas. unfold RegisterRoute.begin. rewrite Hv.
  apply validation_errors_nil in Hv. destruct Hv as (_ & _ & _ & _ & _ & _ & _ & Htid).
  destruct (transactionId_chain_ok _ Htid) as (s & Hs & _ & Hfst).
  rewrite Ht in Hs. injection Hs as <-.
  cbn [RegisterRoute.sanitize RegisterRoute.transactionId]. rewrite Hfst.
  destruct (Registration.findOne_transactionId seen (Some (JS.trim t))) eqn:Hf; [reflexivity |].
  apply findOne_has in Hf. simpl in Hf. rewrite trim_idempotent in Hf. congruence.
Qed.

(** What [begin] hands over has the transaction identifier of the body,
    trimmed, and the schema's setter leaves it as it is. *)
Lemma begin_inr_transactionId (seen : list Registration.Doc) (body : RegisterRoute.Body)
  (i : Registration.Fields) :
  RegisterRoute.begin seen body = inr i ->
  exists t, RegisterRoute.transactionId body = Some t /\
            Registration.transactionId (Registration.cast i) = Some (JS.trim t) /\
            Registration.has_transactionId seen (Some (JS.trim t)) = false.
Proof.
  intros Hb. apply begin_inr_inv in Hb. cbv zeta in Hb.
  destruct Hb as (Hv & Hf & _ & _ & ->).
  apply validation_errors_nil in Hv. destruct Hv as (_ & _ & _ & _ & _ & _ & _ & Htid).
  destruct (transactionId_chain_ok _ Htid) as (t & Ht & _ & Hfst).
  exists t. split; [exact Ht |].
  cbn [RegisterRoute.sanitize RegisterRoute.transactionId] in Hf |- *.
  rewrite Hfst in Hf. rewrite Hfst.
  split.
  - simpl. now rewrite trim_idempotent.
  - apply findOne_has in Hf. simpl in Hf. now rewrite trim_idempotent in Hf.
Qed.

(** A write whose transaction identifier is in the collection leaves the
    store as it is and is never answered by 201. *)
Lemma commit_taken (db : Store) (i : Registration.Fields) :
  Registration.has_transactionId (registrations db)
    (Registration.transactionId (Registration.cast i)) = true ->
  exists r, RegisterRoute.commit db i = (db, r) /\ (Http.code r = 409 \/ Http.code r = 500).
Proof.
  intros Hhas. destruct (commit_cases db i) as [(d & Hs & _) | H]; [| exact H].
  apply save_Ok_inv in Hs. destruct Hs as (_ & _ & _ & _ & Hfree). congruence.
Qed.

(** What [begin] lets through passes the pre-save hook of the model. *)
Lemma begin_inr_pre_save (seen : list Registration.Doc) (body : RegisterRoute.Body)
  (i : Registration.Fields) :
  RegisterRoute.begin seen body = inr i ->
  Registration.pre_save (Registration.cast i) = JS.Ok tt.
Proof.
  intros Hb. apply begin_inr_inv in Hb. cbv zeta in Hb.
  destruct Hb as (Hv & _ & Hlt & Hteam & ->).
  apply validation_errors_nil in Hv. destruct Hv as (_ & Hm & _).
  destruct (mode_chain_ok _ Hm) as (m & s & _ & _ & Hfst).
  cbn [RegisterRoute.sanitize RegisterRoute.mode RegisterRoute.teamName] in Hlt, Hteam.
  rewrite Hfst in Hlt, Hteam. rewrite PLAYER_COUNT_policy in Hlt.
  unfold Registration.pre_save.
  cbn [Registration.cast Registration.mode Registration.players Registration.teamName
       RegisterRoute.sanitize RegisterRoute.mode RegisterRoute.teamName].
  rewrite Hfst, expectedPlayers_policy, length_map. rewrite Hlt.
  rewrite is_team_mode_policy in Hteam. rewrite is_team_mode_policy.
  destruct (Policy.teamNameRequired m); [| reflexivity].
  simpl in Hteam. apply negb_false_iff in Hteam.
  unfold JS.or_null. rewrite Hteam.
  rewrite teamName_sanitized_truthy in Hteam.
  destruct (RegisterRoute.teamName body) as [tn |]; [| discriminate].
  unfold Validator.run, RegisterRoute.teamName_chain; simpl in Hteam |- *.
  destruct (String.eqb tn "") eqn:E.
  - apply String.eqb_eq in E. subst. discriminate.
  - simpl. destruct (Validator.isLength 0 (Some 50) (JS.trim tn)); simpl;
      rewrite trim_idempotent, Hteam; reflexivity.
Qed.

(** A write that passes the schema validators and the hook, and whose
    transaction identifier is in the collection, is refused by the unique
    index; the handler turns the refusal into its second 409. *)
Lemma unique_index_hit (db : Store) (i : Registration.Fields) :
  Registration.validate (Registration.cast i) = [] ->
  Registration.pre_save (Registration.cast i) = JS.Ok tt ->
  Registration.has_transactionId (registrations db)
    (Registration.transactionId (Registration.cast i)) = true ->
  RegisterRoute.commit db i = (db, RegisterRoute.duplicate_key_caught).
Proof.
  intros Hv Hp Hhas. unfold RegisterRoute.commit, Registration.save, Registration.insertOne.
  rewrite Hv, Hp. unfold JS.bind. cbn [Registration.fields]. now rewrite Hhas.
Qed.

(** A registration answered by 201 is in the store, under its trimmed
    transaction identifier. *)
Lemma accepted_has_transactionId (seen : list Registration.Doc) (db db' : Store)
  (body : RegisterRoute.Body) (r : Http.Response) :
  RegisterRoute.interleaved seen db body = (db', r) ->
  Http.code r = 201 ->
  exists t, RegisterRoute.transactionId body = Some t /\
            Registration.has_transactionId (registrations db') (Some (JS.trim t)) = true.
Proof.
  unfold RegisterRoute.interleaved. intros Hrun Hcode.
  destruct (RegisterRoute.begin seen body) as [r0 | i] eqn:Hb.
  - injection Hrun as <- <-. apply begin_inl_code in Hb. lia.
  - destruct (begin_inr_transactionId _ _ _ Hb) as (t & Ht & Hcast & _).
    exists t. split; [exact Ht |].
    destruct (commit_cases db i) as [(d & Hs & Hc) | (r0 & Hc & Hr0)];
      rewrite Hc in Hrun; injection Hrun as <- <-; [| lia].
    apply save_Ok_inv in Hs. destruct Hs as (-> & _).
    cbn [registrations]. unfold Registration.has_transactionId.
    cbn [existsb Registration.fields]. rewrite Hcast. now rewrite opt_eqb_refl.
Qed.

(** C2. Two registration submissions carry the same transaction identifier
    (up to surrounding blanks), the first was accepted and persisted, the
    second passes field validation, and the store [db2] at which the second
    is served still holds what the first left (it is that store or a later
    one). Served in one piece, the second is answered by the 409 of the
    lookup and the store is unchanged. Whatever state [seen2] its lookup
    saw, the second is not persisted; and when its lookup missed the first
    (the two ran concurrently) and its write passes the schema validators,
    the unique index refuses the write and the handler answers 409 as
    well. *)
Theorem second_use_of_transactionId_conflicts :
  forall (seen1 seen2 : list Registration.Doc) (db db1 db2 : Store)
         (body1 body2 : RegisterRoute.Body) (r1 : Http.Response),
    RegisterRoute.interleaved seen1 db body1 = (db1, r1) ->
    Http.code r1 = 201 ->
    option_map JS.trim (RegisterRoute.transactionId body2) =
    option_map JS.trim (RegisterRoute.transactionId body1) ->
    RegisterRoute.validation_errors body2 = [] ->
    (forall tid : option string,
        Registration.has_transactionId (registrations db1) tid = true ->
        Registration.has_transactionId (registrations db2) tid = true) ->
    RegisterRoute.handler db2 body2 = (db2, RegisterRoute.duplicate_found) /\
    fst (RegisterRoute.interleaved seen2 db2 body2) = db2 /\
    (forall i2 : Registration.Fields,
        RegisterRoute.begin seen2 body2 = inr i2 ->
        Registration.validate (Registration.cast i2) = [] ->
        RegisterRoute.interleaved seen2 db2 body2 = (db2, RegisterRoute.duplicate_key_caught)) /\
    Http.code RegisterRoute.duplicate_found = 409 /\
    Http.code RegisterRoute.duplicate_key_caught = 409.
Proof.
  intros seen1 seen2 db db1 db2 body1 body2 r1 Hrun Hcode Hsame Hvalid Hlater.
  destruct (accepted_has_transactionId _ _ _ _ _ Hrun Hcode) as (t1 & Ht1 & Hhas).
  rewrite Ht1 in Hsame.
  destruct (RegisterRoute.transactionId body2) as [t2 |] eqn:Ht2; [| discriminate].
  simpl in Hsame. injection Hsame as Hsame. rewrite <- Hsame in Hhas.
  apply Hlater in Hhas.
  repeat split.
  - unfold RegisterRoute.handler, RegisterRoute.interleaved.
    now rewrite (lookup_hit _ _ _ Hvalid Ht2 Hhas).
  - unfold RegisterRoute.interleaved.
    destruct (RegisterRoute.begin seen2 body2) as [r | i2] eqn:Hb; [reflexivity |].
    destruct (begin_inr_transactionId _ _ _ Hb) as (t & Ht & Hcast & _).
    rewrite Ht2 in Ht. injection Ht as <-.
    rewrite <- Hcast in Hhas. destruct (commit_taken _ _ Hhas) as (r & -> & _). reflexivity.
  - intros i2 Hb Hschema. unfold RegisterRoute.interleaved. rewrite Hb.
    destruct (begin_inr_transactionId _ _ _ Hb) as (t & Ht & Hcast & _).
    rewrite Ht2 in Ht. injection Ht as <-. rewrite <- Hcast in Hhas.
    apply unique_index_hit; [exact Hschema | | exact Hhas].
    exact (begin_inr_pre_save _ _ _ Hb).
Qed.

(** C4. The duplicate lookup comes before the roster and team-name checks.
    A request that passes field validation, whose transaction identifier the
    lookup finds in the collection, and whose roster is shorter than its
    mode requires (or whose mode needs a team name that is missing), is
    answered by the 409 of the lookup. The very same request, had the lookup
    found nothing, would have received the 400 of the roster check or of the
    team-name check. *)
Theorem duplicate_lookup_precedes_roster_checks :
  forall (seen : list Registration.Doc) (db : Store) (body : RegisterRoute.Body)
         (m : Policy.Mode) (s t : string),
    RegisterRoute.validation_errors body = [] ->
    RegisterRoute.mode body = Some s ->
    JS.trim s = Policy.mode_name m ->
    RegisterRoute.transactionId body = Some t ->
    Registration.has_transactionId seen (Some (JS.trim t)) = true ->
    (List.length (RegisterRoute.roster body) < Policy.requiredPlayerCountFor m \/
     (Policy.teamNameRequired m = true /\
      JS.truthy (option_map JS.trim (RegisterRoute.teamName body)) = false)) ->
    RegisterRoute.interleaved seen db body = (db, RegisterRoute.duplicate_found) /\
    Http.code RegisterRoute.duplicate_found = 409 /\
    (forall fresh : list Registration.Doc,
        Registration.has_transactionId fresh (Some (JS.trim t)) = false ->
        exists r : Http.Response,
          RegisterRoute.interleaved fresh db body = (db, r) /\
          Http.code r = 400 /\
          (r = RegisterRoute.too_few_players (Some (Policy.mode_name m))
                 (Some (Policy.requiredPlayerCountFor m))
                 (List.length (RegisterRoute.roster body)) \/
           r = RegisterRoute.team_name_required)).
Proof.
  intros seen db body m s t Hvalid Hmode Htrim Htid Hhas Hbad.
  split; [| split; [reflexivity |]].
  - unfold RegisterRoute.interleaved. now rewrite (lookup_hit _ _ _ Hvalid Htid Hhas).
  - intros fresh Hfresh. unfold RegisterRoute.interleaved, RegisterRoute.begin.
    rewrite Hvalid.
    pose proof (validation_errors_nil _ Hvalid) as (_ & Hm & _ & _ & _ & _ & _ & Ht).
    destruct (mode_chain_ok _ Hm) as (m' & s' & Hs' & Htrim' & Hfst).
    rewrite Hmode in Hs'. injection Hs' as <-.
    assert (m' = m) as ->.
    { rewrite Htrim in Htrim'. destruct m, m'; simpl in Htrim'; congruence. }
    destruct (transactionId_chain_ok _ Ht) as (t' & Ht' & _ & Hfst').
    rewrite Htid in Ht'. injection Ht' as <-.
    cbn [RegisterRoute.sanitize RegisterRoute.transactionId RegisterRoute.mode
         RegisterRoute.teamName].
    rewrite Hfst, Hfst'.
    assert (Hnone : Registration.findOne_transactionId fresh (Some (JS.trim t)) = None).
    { apply findOne_has. simpl. now rewrite trim_idempotent. }
    rewrite Hnone, PLAYER_COUNT_policy.
    fold (RegisterRoute.sanitize body). rewrite roster_sanitize_length.
    unfold JS.lt_undef.
    destruct (Nat.ltb (List.length (RegisterRoute.roster body))
                      (Policy.requiredPlayerCountFor m)) eqn:Hlt.
    + eexists. split; [reflexivity |]. split; [reflexivity | now left].
    + apply Nat.ltb_ge in Hlt. destruct Hbad as [Hshort | [Hreq Hmiss]]; [lia |].
      rewrite is_team_mode_policy, Hreq, teamName_sanitized_truthy, Hmiss. simpl.
      eexists. split; [reflexivity |]. split; [reflexivity | now right].
Qed.

(** *** Requests that are in order are accepted *)

Lemma length_pos_nonempty (s : string) : 1 <= String.length s -> s <> "".
Proof. intros H ->. simpl in H. lia. Qed.

Lemma truthy_Some (s : string) : JS.truthy (Some s) = true <-> s <> "".
Proof.
  simpl. rewrite negb_true_iff. split.
  - intros H ->. now rewrite String.eqb_refl in H.
  - intros H. now apply String.eqb_neq.
Qed.

Lemma enum_chain_pass (values : list string) (msg1 msg2 : string) (s : string) :
  In (JS.trim s) values -> JS.trim s <> "" ->
  Validator.run
    (Validator.mkChain false
       [Validator.Sanitization JS.trim;
        Validator.Validation Validator.notEmpty msg1;
        Validator.Validation (Validator.isIn values) msg2]) (Some s) = (Some (JS.trim s), []).
Proof.
  intros Hin Hne. unfold Validator.run, Validator.isIn.
  cbn [Validator.optional Validator.stack andb Validator.run_stack fst snd Validator.toString].
  apply notEmpty_true in Hne. apply includes_In in Hin. now rewrite Hne, Hin.
Qed.

Lemma length_chain_pass (min : nat) (max : option nat) (msg1 msg2 : string) (s : string) :
  Validator.isLength min max (JS.trim s) = true -> JS.trim s <> "" ->
  Validator.run
    (Validator.mkChain false
       [Validator.Sanitization JS.trim;
        Validator.Validation Validator.notEmpty msg1;
        Validator.Validation (Validator.isLength min max) msg2]) (Some s) = (Some (JS.trim s), []).
Proof.
  intros Hlen Hne. unfold Validator.run.
  cbn [Validator.optional Validator.stack andb Validator.run_stack fst snd Validator.toString].
  apply notEmpty_true in Hne. now rewrite Hne, Hlen.
Qed.

Lemma required_chain_pass (msg : string) (s : string) :
  JS.trim s <> "" ->
  Validator.run
    (Validator.mkChain false
       [Validator.Sanitization JS.trim;
        Validator.Validation Validator.notEmpty msg]) (Some s) = (Some (JS.trim s), []).
Proof.
  intros Hne. unfold Validator.run.
  cbn [Validator.optional Validator.stack andb Validator.run_stack fst snd Validator.toString].
  apply notEmpty_true in Hne. now rewrite Hne.
Qed.

Lemma teamName_chain_pass (field : option string) :
  (forall tn, field = Some tn -> String.length (JS.trim tn) <= 50) ->
  snd (Validator.run RegisterRoute.teamName_chain field) = [].
Proof.
  intros H. unfold Validator.run, RegisterRoute.teamName_chain.
  cbn [Validator.optional Validator.stack andb Validator.run_stack fst snd].
  destruct (negb (JS.truthy field)) eqn:E; [reflexivity |].
  destruct field as [tn |]; [| discriminate]. cbn [Validator.toString].
  assert (Hlen : Validator.isLength 0 (Some 50) (JS.trim tn) = true).
  { apply isLength_true. split; [lia | now apply H]. }
  cbn [Validator.run_stack]. now rewrite Hlen.
Qed.

Lemma player_ok_inv (p : Registration.Player) :
  RegisterRoute.player_ok p = true ->
  exists n i ph,
    p = Registration.mkPlayer (Some n) (Some i) (Some ph) (Registration.email p) /\
    1 <= String.length (JS.trim n) <= 50 /\
    1 <= String.length (JS.trim i) <= 30 /\
    1 <= String.length (JS.trim ph).
Proof.
  unfold RegisterRoute.player_ok. destruct p as [[n |] [i |] [ph |] e]; simpl; try discriminate.
  rewrite !andb_true_iff, !isLength_true. intros [[[? ?] [? ?]] [? _]].
  exists n, i, ph. repeat split; assumption.
Qed.

Lemma sanitize_player_ok (p : Registration.Player) :
  RegisterRoute.player_ok p = true ->
  RegisterRoute.sanitize_player p =
  Registration.mkPlayer (option_map JS.trim (Registration.inGameName p))
                        (option_map JS.trim (Registration.inGameId p))
                        (option_map JS.trim (Registration.phone p))
                        (Registration.email p) /\
  snd (Validator.run RegisterRoute.inGameName_chain (Registration.inGameName p)) = [] /\
  snd (Validator.run RegisterRoute.inGameId_chain (Registration.inGameId p)) = [] /\
  snd (Validator.run RegisterRoute.phone_chain (Registration.phone p)) = [].
Proof.
  intros H. destruct (player_ok_inv p H) as (n & i & ph & -> & Hn & Hi & Hph).
  unfold RegisterRoute.sanitize_player, RegisterRoute.inGameName_chain,
    RegisterRoute.inGameId_chain, RegisterRoute.phone_chain.
  cbn [Registration.inGameName Registration.inGameId Registration.phone Registration.email].
  rewrite !required_chain_pass by (apply length_pos_nonempty; lia).
  repeat split.
Qed.

Lemma wildcard_pass (ps : list Registration.Player) :
  forallb RegisterRoute.player_ok ps = true ->
  RegisterRoute.wildcard_errors RegisterRoute.inGameName_chain Registration.inGameName ps = [] /\
  RegisterRoute.wildcard_errors RegisterRoute.inGameId_chain Registration.inGameId ps = [] /\
  RegisterRoute.wildcard_errors RegisterRoute.phone_chain Registration.phone ps = [].
Proof.
  unfold RegisterRoute.wildcard_errors.
  induction ps as [| p ps IH]; cbn [flat_map forallb]; [auto |].
  rewrite andb_true_iff. intros [Hp Hps].
  destruct (sanitize_player_ok p Hp) as (_ & -> & -> & ->).
  cbn [app]. now apply IH.
Qed.

(** Sanitizers and setters together, on a player that is in order: trimmed
    fields and a lower-case address. *)
Lemma stored_player (p : Registration.Player) :
  RegisterRoute.player_ok p = true ->
  Registration.cast_player (RegisterRoute.sanitize_player p) = Registration.cast_player p.
Proof.
  intros H. destruct (sanitize_player_ok p H) as (-> & _).
  destruct (player_ok_inv p H) as (n & i & ph & -> & _).
  unfold Registration.cast_player; simpl. now rewrite !trim_idempotent.
Qed.

Lemma stored_player_valid (p : Registration.Player) :
  RegisterRoute.player_ok p = true ->
  Registration.validate_player (Registration.cast_player p) = [].
Proof.
  intros H. destruct (player_ok_inv p H) as (n & i & ph & -> & Hn & Hi & Hph).
  unfold Registration.validate_player, Registration.cast_player, Schema.required, Schema.maxlength.
  cbn [Registration.inGameName Registration.inGameId Registration.phone option_map].
  rewrite !(proj2 (truthy_Some _)) by (apply length_pos_nonempty; lia).
  rewrite !(proj2 (Nat.leb_le _ _)) by lia. reflexivity.
Qed.

Lemma tidy_stored (p : Registration.Player) :
  RegisterRoute.tidy p -> Registration.cast_player p = p.
Proof.
  intros (Hn & Hi & Hph & He). destruct p as [n i ph e]; simpl in Hn, Hi, Hph, He.
  unfold Registration.cast_player; simpl. congruence.
Qed.

Lemma mode_name_allowed (m : Policy.Mode) :
  In (Policy.mode_name m) ["solo"; "duo"; "squad"] /\ Policy.mode_name m <> "".
Proof. destruct m; simpl; split; auto; discriminate. Qed.

Lemma game_nonempty (g : string) : In g ["pubg"; "freefire"; "cod"] -> g <> "".
Proof. simpl. intros [<- | [<- | [<- | []]]]; discriminate. Qed.

Lemma teamName_stored (field : option string) :
  option_map JS.trim (JS.or_null (fst (Validator.run RegisterRoute.teamName_chain field))) =
  JS.or_null (option_map JS.trim field) /\
  JS.or_null (fst (Validator.run RegisterRoute.teamName_chain field)) =
  JS.or_null (option_map JS.trim field).
Proof.
  unfold JS.or_null. rewrite teamName_sanitized_truthy.
  destruct field as [tn |]; [| split; reflexivity].
  unfold Validator.run, RegisterRoute.teamName_chain.
  cbn [Validator.optional Validator.stack andb Validator.run_stack fst snd option_map].
  destruct (JS.truthy (Some (JS.trim tn))) eqn:E.
  - assert (Htn : JS.truthy (Some tn) = true).
    { apply truthy_Some. intros ->. discriminate. }
    rewrite Htn. cbn [negb Validator.toString].
    destruct (Validator.isLength 0 (Some 50) (JS.trim tn)); cbn [fst option_map];
      now rewrite trim_idempotent.
  - split; reflexivity.
Qed.

Lemma in_order_passes_validation (body : RegisterRoute.Body) (m : Policy.Mode)
  (s g t : string) (ps : list Registration.Player) :
  RegisterRoute.mode body = Some s -> JS.trim s = Policy.mode_name m ->
  RegisterRoute.players body = Some ps ->
  RegisterRoute.game body = Some g -> In (JS.trim g) ["pubg"; "freefire"; "cod"] ->
  RegisterRoute.transactionId body = Some t -> 5 <= String.length (JS.trim t) ->
  (forall tn, RegisterRoute.teamName body = Some tn -> String.length (JS.trim tn) <= 50) ->
  forallb RegisterRoute.player_ok ps = true ->
  1 <= List.length ps <= 5 ->
  RegisterRoute.validation_errors body = [] /\
  RegisterRoute.game (RegisterRoute.sanitize body) = Some (JS.trim g) /\
  RegisterRoute.mode (RegisterRoute.sanitize body) = Some (Policy.mode_name m) /\
  RegisterRoute.transactionId (RegisterRoute.sanitize body) = Some (JS.trim t) /\
  RegisterRoute.roster (RegisterRoute.sanitize body) = map RegisterRoute.sanitize_player ps.
Proof.
  intros Hs Hm Hps Hg Hgin Ht Htlen Htn Hok Hlen.
  destruct (mode_name_allowed m) as [Hmin Hmne]. rewrite <- Hm in Hmin, Hmne.
  pose proof (game_nonempty _ Hgin) as Hgne.
  assert (Htne : JS.trim t <> "") by (apply length_pos_nonempty; lia).
  assert (Htl : Validator.isLength 5 None (JS.trim t) = true) by (apply isLength_true; auto).
  destruct (wildcard_pass ps Hok) as (W1 & W2 & W3).
  unfold RegisterRoute.validation_errors, RegisterRoute.sanitize, RegisterRoute.roster.
  cbn [RegisterRoute.game RegisterRoute.mode RegisterRoute.transactionId RegisterRoute.players
       RegisterRoute.teamName].
  rewrite Hs, Hps, Hg, Ht.
  unfold RegisterRoute.game_chain, RegisterRoute.mode_chain, RegisterRoute.transactionId_chain.
  rewrite (enum_chain_pass _ _ _ g Hgin Hgne), (enum_chain_pass _ _ _ s Hmin Hmne),
    (length_chain_pass _ _ _ _ t Htl Htne).
  rewrite (teamName_chain_pass _ Htn), W1, W2, W3.
  cbn [fst snd app option_map]. rewrite Hm.
  assert (Harr : Validator.isArray 1 5 (Some ps) = true).
  { unfold Validator.isArray. apply andb_true_iff. split; apply Nat.leb_le; lia. }
  rewrite Harr. repeat split.
Qed.

Lemma stored_players_valid (ps : list Registration.Player) :
  forallb RegisterRoute.player_ok ps = true ->
  flat_map Registration.validate_player (map Registration.cast_player ps) = [].
Proof.
  induction ps as [| p ps IH]; cbn [flat_map forallb map]; [reflexivity |].
  rewrite andb_true_iff. intros [Hp Hps].
  now rewrite (stored_player_valid p Hp), IH.
Qed.

Lemma stored_players (ps : list Registration.Player) :
  forallb RegisterRoute.player_ok ps = true ->
  map Registration.cast_player (map RegisterRoute.sanitize_player ps) =
  map Registration.cast_player ps.
Proof.
  induction ps as [| p ps IH]; cbn [forallb map]; [reflexivity |].
  rewrite andb_true_iff. intros [Hp Hps].
  now rewrite (stored_player p Hp), IH.
Qed.

Lemma or_null_length (v : option string) (n : nat) :
  (forall s, v = Some s -> String.length s <= n) ->
  Schema.maxlength n "Team name cannot exceed 50 characters" (JS.or_null v) = [].
Proof.
  intros H. unfold JS.or_null, Schema.maxlength.
  destruct (JS.truthy v); [| reflexivity].
  destruct v as [s |]; [| reflexivity].
  now rewrite (proj2 (Nat.leb_le _ _) (H s eq_refl)).
Qed.

(** The schema validators accept the expected document. *)
Lemma expected_fields_valid (m : Policy.Mode) (g t : string) (teamName : option string)
  (ps : list Registration.Player) :
  In (JS.trim g) ["pubg"; "freefire"; "cod"] ->
  5 <= String.length (JS.trim t) ->
  (forall tn, teamName = Some tn -> String.length (JS.trim tn) <= 50) ->
  forallb RegisterRoute.player_ok ps = true ->
  1 <= List.length ps <= 5 ->
  Registration.validate (expected_fields m g t teamName ps) = [].
Proof.
  intros Hgin Htlen Htn Hok Hlen.
  unfold Registration.validate, expected_fields.
  cbn [Registration.game Registration.mode Registration.teamName Registration.players
       Registration.transactionId Registration.entryFee Registration.status].
  rewrite length_map, (stored_players_valid ps Hok).
  rewrite or_null_length.
  2:{ intros s0 Hs0. destruct teamName as [tn |]; [| discriminate].
      injection Hs0 as <-. now apply Htn. }
  unfold Schema.required, Schema.enum.
  rewrite !(proj2 (truthy_Some _)).
  2:{ apply length_pos_nonempty. lia. }
  2:{ apply mode_name_allowed. }
  2:{ now apply game_nonempty. }
  rewrite (proj2 (includes_In _ _) Hgin).
  rewrite (proj2 (includes_In _ _) (proj1 (mode_name_allowed m))).
  assert (Hn : Nat.leb 1 (List.length ps) && Nat.leb (List.length ps) 5 = true).
  { apply andb_true_iff. split; apply Nat.leb_le; lia. }
  rewrite Hn. destruct m; reflexivity.
Qed.

(** A registration request in order, with a transaction identifier that is
    new to both the lookup and the index, is persisted as the expected
    document and answered by 201. *)
Lemma in_order_accepted (seen : list Registration.Doc) (db : Store) (body : RegisterRoute.Body)
  (m : Policy.Mode) (s g t : string) (ps : list Registration.Player) :
  RegisterRoute.mode body = Some s -> JS.trim s = Policy.mode_name m ->
  RegisterRoute.players body = Some ps ->
  RegisterRoute.game body = Some g -> In (JS.trim g) ["pubg"; "freefire"; "cod"] ->
  RegisterRoute.transactionId body = Some t -> 5 <= String.length (JS.trim t) ->
  (forall tn, RegisterRoute.teamName body = Some tn -> String.length (JS.trim tn) <= 50) ->
  (Policy.teamNameRequired m = true ->
   JS.truthy (option_map JS.trim (RegisterRoute.teamName body)) = true) ->
  forallb RegisterRoute.player_ok ps = true ->
  Policy.requiredPlayerCountFor m <= List.length ps <= 5 ->
  Registration.has_transactionId seen (Some (JS.trim t)) = false ->
  Registration.has_transactionId (registrations db) (Some (JS.trim t)) = false ->
  let doc := Registration.mkDoc (next_id db)
               (expected_fields m g t (RegisterRoute.teamName body) ps) in
  RegisterRoute.interleaved seen db body =
  (mkStore (admins db) (contacts db) (doc :: registrations db) (S (next_id db)),
   Http.mkResponse 201 true
     (Some "Registration successful! You will receive match details via WhatsApp/call before the tournament.")
     None
     (Http.RegisteredData
        (Http.mkRegistered (next_id db) (Some (JS.trim g)) (Some (Policy.mode_name m))
           (JS.or_null (option_map JS.trim (RegisterRoute.teamName body)))
           (List.length ps) (Some (Policy.entryFeeFor m)) "pending"))).
Proof.
  intros Hs Hm Hps Hg Hgin Ht Htlen Htn Hteam Hok Hlen Hseen Hdb doc.
  assert (Hlen1 : 1 <= List.length ps <= 5) by (destruct m; simpl in Hlen; lia).
  destruct (in_order_passes_validation body m s g t ps Hs Hm Hps Hg Hgin Ht Htlen Htn Hok Hlen1)
    as (Hv & Sg & Sm & St & Sr).
  destruct (teamName_stored (RegisterRoute.teamName body)) as [Tcast Tnull].
  assert (Hbegin : RegisterRoute.begin seen body =
                   inr (Registration.mkFields (Some (JS.trim g)) (Some (Policy.mode_name m))
                          (JS.or_null (option_map JS.trim (RegisterRoute.teamName body)))
                          (map RegisterRoute.sanitize_player ps) (Some (JS.trim t))
                          (Some (Policy.entryFeeFor m)) (Some "pending"))).
  { unfold RegisterRoute.begin. rewrite Hv, Sg, Sm, St, Sr.
    assert (Hnone : Registration.findOne_transactionId seen (Some (JS.trim t)) = None).
    { apply findOne_has. simpl. now rewrite trim_idempotent. }
    rewrite Hnone, PLAYER_COUNT_policy, FEE_TABLE_policy, length_map.
    unfold JS.lt_undef. rewrite (proj2 (Nat.ltb_ge _ _)) by lia.
    rewrite is_team_mode_policy.
    cbn [RegisterRoute.sanitize RegisterRoute.teamName]. rewrite Tnull.
    rewrite teamName_sanitized_truthy.
    destruct (Policy.teamNameRequired m); [rewrite Hteam by reflexivity |]; reflexivity. }
  unfold RegisterRoute.interleaved. rewrite Hbegin.
  assert (Hcast : Registration.cast
                    (Registration.mkFields (Some (JS.trim g)) (Some (Policy.mode_name m))
                       (JS.or_null (option_map JS.trim (RegisterRoute.teamName body)))
                       (map RegisterRoute.sanitize_player ps) (Some (JS.trim t))
                       (Some (Policy.entryFeeFor m)) (Some "pending")) =
                  expected_fields m g t (RegisterRoute.teamName body) ps).
  { unfold Registration.cast, expected_fields.
    cbn [Registration.game Registration.mode Registration.teamName Registration.players
         Registration.transactionId Registration.entryFee Registration.status option_map].
    rewrite (stored_players ps Hok), trim_idempotent. f_equal.
    rewrite <- Tnull at 1. exact Tcast. }
  unfold RegisterRoute.commit.
  rewrite save_Ok_intro; rewrite ?Hcast.
  - unfold RegisterRoute.registered.
    cbn [Registration.players Registration._id Registration.game Registration.mode
         Registration.teamName Registration.entryFee].
    now rewrite length_map.
  - now apply expected_fields_valid.
  - rewrite <- Hcast. exact (begin_inr_pre_save _ _ _ Hbegin).
  - exact Hdb.
Qed.

(** A request whose [players] is an empty array fails validation, whatever
    else it holds and whatever the store. *)
Lemma empty_roster_rejected (seen : list Registration.Doc) (db : Store) (body : RegisterRoute.Body) :
  RegisterRoute.players body = Some [] ->
  RegisterRoute.interleaved seen db body =
  (db, RegisterRoute.validation_failed (RegisterRoute.validation_errors body)) /\
  In RegisterRoute.players_message (RegisterRoute.validation_errors body).
Proof.
  intros Hps.
  assert (Hin : In RegisterRoute.players_message (RegisterRoute.validation_errors body)).
  { unfold RegisterRoute.validation_errors. rewrite Hps.
    cbn [Validator.isArray List.length Nat.leb andb].
    rewrite !in_app_iff. right. right. right. left. now left. }
  split; [| exact Hin].
  unfold RegisterRoute.interleaved, RegisterRoute.begin.
  destruct (RegisterRoute.validation_errors body); [destruct Hin | reflexivity].
Qed.

Lemma tidy_players (ps : list Registration.Player) :
  Forall RegisterRoute.tidy ps -> map Registration.cast_player ps = ps.
Proof.
  induction 1 as [| p ps Hp _ IH]; simpl; [reflexivity |].
  now rewrite (tidy_stored p Hp), IH.
Qed.

(** C3. A solo registration that is otherwise in order (an allowed game, a
    transaction identifier of five characters or more that is not in use, a
    team name, if any, of at most 50 characters, well-formed players). With
    an empty roster it is rejected with 400. With 1 to 5 players it is
    accepted with 201: one player is enough, and with more than one every
    submitted player is persisted, in order and none dropped, after the
    setters of the sub-schema (trim, lower-case address), so unchanged when
    the players are tidy; the [playerCount] of the response is the submitted
    length. *)
Theorem solo_roster_lengths :
  forall (seen : list Registration.Doc) (db : Store) (body : RegisterRoute.Body)
         (s g t : string) (ps : list Registration.Player),
    RegisterRoute.mode body = Some s ->
    JS.trim s = "solo" ->
    RegisterRoute.players body = Some ps ->
    RegisterRoute.game body = Some g ->
    In (JS.trim g) ["pubg"; "freefire"; "cod"] ->
    RegisterRoute.transactionId body = Some t ->
    5 <= String.length (JS.trim t) ->
    (forall tn, RegisterRoute.teamName body = Some tn -> String.length (JS.trim tn) <= 50) ->
    forallb RegisterRoute.player_ok ps = true ->
    Registration.has_transactionId seen (Some (JS.trim t)) = false ->
    Registration.has_transactionId (registrations db) (Some (JS.trim t)) = false ->
    (List.length ps = 0 ->
     exists errors : list string,
       RegisterRoute.interleaved seen db body = (db, RegisterRoute.validation_failed errors) /\
       Http.code (RegisterRoute.validation_failed errors) = 400 /\
       In RegisterRoute.players_message errors) /\
    (1 <= List.length ps <= 5 ->
     exists (doc : Registration.Doc) (r : Http.Response) (echo : Http.Registered),
       RegisterRoute.interleaved seen db body =
       (mkStore (admins db) (contacts db) (doc :: registrations db) (S (next_id db)), r) /\
       Http.code r = 201 /\
       Http.data r = Http.RegisteredData echo /\
       Http.playerCount echo = List.length ps /\
       Registration.players (Registration.fields doc) = map Registration.cast_player ps /\
       List.length (Registration.players (Registration.fields doc)) = List.length ps /\
       (Forall RegisterRoute.tidy ps -> Registration.players (Registration.fields doc) = ps)).
Proof.
  intros seen db body s g t ps Hs Hsolo Hps Hg Hgin Ht Htlen Htn Hok Hseen Hdb. split.
  - intros Hzero. destruct ps; [| discriminate].
    destruct (empty_roster_rejected seen db body Hps) as [Hrun Hin].
    exists (RegisterRoute.validation_errors body). auto.
  - intros Hlen.
    pose proof (in_order_accepted seen db body Policy.solo s g t ps Hs Hsolo Hps Hg Hgin Ht
                  Htlen Htn) as Hacc.
    cbv zeta in Hacc. rewrite Hacc; try assumption.
    + do 3 eexists. split; [reflexivity |].
      cbn [Http.code Http.data Http.playerCount Registration.players Registration.fields
           expected_fields].
      repeat split.
      * apply length_map.
      * apply tidy_players.
    + discriminate.
Qed.

(** *** Login *)

Lemma login_email_sanitized (field : option string) :
  fst (Validator.run login_email_chain field) = Some (JS.trim (Validator.toString field)).
Proof.
  unfold Validator.run, login_email_chain. reflexivity.
Qed.

Lemma login_password_sanitized (field : option string) :
  fst (Validator.run login_password_chain field) = Some (Validator.toString field).
Proof.
  unfold Validator.run, login_password_chain. reflexivity.
Qed.

(** C5. Two login attempts in valid form that fail for different reasons,
    the first because no administrator has the e-mail address, the second
    because the password does not match the stored hash, receive the same
    response: 401 with the message "Invalid email or password.". Neither
    changes the store. *)
Theorem login_failures_indistinguishable :
  forall (now1 now2 : Z) (db1 db2 : Store) (b1 b2 : AdminRoutes.LoginBody)
         (e1 e2 pw : string) (admin : Admin.Doc),
    login_validation_errors b1 = [] ->
    login_validation_errors b2 = [] ->
    AdminRoutes.email b1 = Some e1 ->
    Admin.findOne_email (admins db1) (Some (JS.trim e1)) = None ->
    AdminRoutes.email b2 = Some e2 ->
    Admin.findOne_email (admins db2) (Some (JS.trim e2)) = Some admin ->
    AdminRoutes.password b2 = Some pw ->
    comparePassword admin pw = false ->
    login_handler now1 db1 b1 = (db1, invalid_credentials) /\
    login_handler now2 db2 b2 = (db2, invalid_credentials) /\
    Http.code invalid_credentials = 401 /\
    Http.message invalid_credentials = Some "Invalid email or password.".
Proof.
  intros now1 now2 db1 db2 b1 b2 e1 e2 pw admin Hv1 Hv2 He1 Hnone He2 Hsome Hpw Hcmp.
  repeat split.
  - unfold login_handler. rewrite Hv1, login_email_sanitized, He1.
    cbn [Validator.toString]. now rewrite Hnone.
  - unfold login_handler. rewrite Hv2, login_email_sanitized, login_password_sanitized, He2, Hpw.
    cbn [Validator.toString]. now rewrite Hsome, Hcmp.
Qed.

(** *** Tokens *)

Lemma clock_after_days (T n : Z) :
  Jwt.clockTimestamp (T + Jwt.days n) = (Jwt.clockTimestamp T + n * 86400)%Z.
Proof.
  unfold Jwt.clockTimestamp, Jwt.days.
  replace (T + n * (24 * 60 * 60 * 1000))%Z with (T + (n * 86400) * 1000)%Z by lia.
  apply Z.div_add. lia.
Qed.

Lemma verify_own_token (id : nat) (t0 now : Z) :
  JWT_SECRET <> "" ->
  Jwt.verify (Jwt.Signed JWT_SECRET (Jwt.mkPayload id t0 (Some (t0 + Jwt.seven_days)%Z)))
             JWT_SECRET now =
  if (t0 + Jwt.seven_days <=? Jwt.clockTimestamp now)%Z
  then JS.Throw Jwt.TokenExpiredError
  else JS.Ok (Jwt.mkPayload id t0 (Some (t0 + Jwt.seven_days)%Z)).
Proof.
  intros Hsecret. unfold Jwt.verify.
  rewrite (proj2 (String.eqb_neq _ _) Hsecret), String.eqb_refl. reflexivity.
Qed.

Lemma bearer_truthy (authorization : option string) (t : string) :
  bearer_token authorization = Some t -> t <> "" ->
  JS.truthy (bearer_token authorization) = true /\
  Validator.toString (bearer_token authorization) = t.
Proof.
  intros -> Ht. split; [now apply truthy_Some | reflexivity].
Qed.

(** C6. With a signing secret configured, a token issued at clock [T]
    carries [exp = iat + 7 days]; [jwt.verify] accepts it at [T + 6 days]
    and throws [TokenExpiredError] at [T + 8 days], and more generally
    accepts it exactly while the clock, in whole seconds, is below
    [iat + 604800]. A request that presents the token is let through by
    [protect] at [T + 6 days] (its administrator being in the store) and is
    answered 401 "Token expired. Please login again." at [T + 8 days]. *)
Theorem token_expires_after_seven_days :
  forall (T : Z) (adminId : nat),
    JWT_SECRET <> "" ->
    exists (token : Jwt.Token) (payload : Jwt.Payload),
      generateToken T adminId = JS.Ok token /\
      Jwt.id payload = adminId /\
      Jwt.iat payload = Jwt.clockTimestamp T /\
      Jwt.exp payload = Some (Jwt.iat payload + 7 * 24 * 60 * 60)%Z /\
      Jwt.verify token JWT_SECRET (T + Jwt.days 6) = JS.Ok payload /\
      Jwt.verify token JWT_SECRET (T + Jwt.days 8) = JS.Throw Jwt.TokenExpiredError /\
      (forall now : Z,
          Jwt.verify token JWT_SECRET now = JS.Ok payload <->
          (Jwt.clockTimestamp now < Jwt.iat payload + 604800)%Z) /\
      (forall (db : Store) (authorization : option string) (t : string),
          bearer_token authorization = Some t -> t <> "" -> jwt_decode t = token ->
          protect (T + Jwt.days 8) db authorization =
          inl (Http.fail 401 "Token expired. Please login again.") /\
          (forall admin : Admin.Doc,
              Admin.findById (admins db) adminId = Some admin ->
              protect (T + Jwt.days 6) db authorization = inr admin)).
Proof.
  intros T adminId Hsecret.
  set (t0 := Jwt.clockTimestamp T).
  exists (Jwt.Signed JWT_SECRET (Jwt.mkPayload adminId t0 (Some (t0 + Jwt.seven_days)%Z))),
         (Jwt.mkPayload adminId t0 (Some (t0 + Jwt.seven_days)%Z)).
  assert (H6 : Jwt.verify (Jwt.Signed JWT_SECRET
                             (Jwt.mkPayload adminId t0 (Some (t0 + Jwt.seven_days)%Z)))
                          JWT_SECRET (T + Jwt.days 6) =
               JS.Ok (Jwt.mkPayload adminId t0 (Some (t0 + Jwt.seven_days)%Z))).
  { rewrite verify_own_token by assumption. rewrite clock_after_days. fold t0.
    unfold Jwt.seven_days. rewrite (proj2 (Z.leb_gt _ _)) by lia. reflexivity. }
  assert (H8 : Jwt.verify (Jwt.Signed JWT_SECRET
                             (Jwt.mkPayload adminId t0 (Some (t0 + Jwt.seven_days)%Z)))
                          JWT_SECRET (T + Jwt.days 8) = JS.Throw Jwt.TokenExpiredError).
  { rewrite verify_own_token by assumption. rewrite clock_after_days. fold t0.
    unfold Jwt.seven_days. rewrite (proj2 (Z.leb_le _ _)) by lia. reflexivity. }
  repeat split.
  - unfold generateToken, Jwt.sign.
    now rewrite (proj2 (String.eqb_neq _ _) Hsecret).
  - exact H6.
  - exact H8.
  - rewrite verify_own_token by assumption. cbn [Jwt.iat]. unfold Jwt.seven_days.
    destruct (Z.leb_spec (t0 + 7 * 24 * 60 * 60) (Jwt.clockTimestamp now)); [discriminate | lia].
  - rewrite verify_own_token by assumption. cbn [Jwt.iat]. unfold Jwt.seven_days.
    intros Hlt. rewrite (proj2 (Z.leb_gt _ _)) by lia. reflexivity.
  - unfold protect. destruct (bearer_truthy _ _ H H0) as [-> ->].
    cbn [negb]. rewrite H1, H8. reflexivity.
  - intros admin Hadmin. unfold protect. destruct (bearer_truthy _ _ H H0) as [-> ->].
    cbn [negb]. rewrite H1, H6. cbn [Jwt.id]. now rewrite Hadmin.
Qed.

(** *** The token gate *)

(** [protect] consults the administrators and nothing else of the store. *)
Lemma protect_reads_admins_only (now : Z) (db db' : Store) (authorization : option string) :
  admins db' = admins db ->
  protect now db' authorization = protect now db authorization.
Proof. intros H. unfold protect. now rewrite H. Qed.

Lemma unauthorized_protect (now : Z) (db : Store) (authorization : option string) :
  Unauthorized now db authorization ->
  exists r : Http.Response, protect now db authorization = inl r /\ Http.code r = 401.
Proof.
  intros [Hmiss | t Ht Hne Hbad | t payload e Ht Hne Hdec Hexp Hle | t payload Ht Hne Hver Hnone];
    unfold protect.
  - rewrite Hmiss. eexists. split; reflexivity.
  - destruct (bearer_truthy _ _ Ht Hne) as [-> ->]. cbn [negb].
    destruct Hbad as [-> | (key & payload & -> & Hkey)]; cbn [Jwt.verify].
    + eexists. split; reflexivity.
    + destruct (String.eqb JWT_SECRET ""); [eexists; split; reflexivity |].
      rewrite (proj2 (String.eqb_neq _ _) Hkey). eexists. split; reflexivity.
  - destruct (bearer_truthy _ _ Ht Hne) as [-> ->]. cbn [negb].
    rewrite Hdec. cbn [Jwt.verify].
    destruct (String.eqb JWT_SECRET ""); [eexists; split; reflexivity |].
    rewrite String.eqb_refl, Hexp. cbn [negb].
    rewrite (proj2 (Z.leb_le _ _) Hle). eexists. split; reflexivity.
  - destruct (bearer_truthy _ _ Ht Hne) as [-> ->]. cbn [negb].
    rewrite Hver, Hnone. eexists. split; reflexivity.
Qed.

(** C9. A request to any of the admin operations (me, stats, list, update
    and delete contacts, list and update registrations) that fails to
    authenticate, its token being missing, invalid, expired or naming no
    administrator of the store, is answered 401 by the middleware and leaves
    the store as it is. The handler is never entered: the answer is the same
    for every operation and for every content of the contacts and
    registrations collections. *)
Theorem unauthorized_admin_request_touches_nothing :
  forall (now : Z) (db : Store) (authorization : option string) (op : AdminRoutes.Operation),
    Unauthorized now db authorization ->
    exists r : Http.Response,
      admin_route now db authorization op = (db, r) /\
      Http.code r = 401 /\
      (forall (db' : Store) (op' : AdminRoutes.Operation),
          admins db' = admins db ->
          admin_route now db' authorization op' = (db', r)).
Proof.
  intros now db authorization op Hun.
  destruct (unauthorized_protect now db authorization Hun) as (r & Hp & Hcode).
  exists r. unfold admin_route. rewrite Hp. repeat split; [exact Hcode |].
  intros db' op' Hadm. now rewrite (protect_reads_admins_only now db db' authorization Hadm), Hp.
Qed.

(** *** Statistics *)

Lemma or_zero_value (fee : option Z) :
  JS.or_zero fee = match fee with Some z => z | None => 0%Z end.
Proof.
  destruct fee as [z |]; [| reflexivity]. simpl.
  destruct (Z.eqb_spec z 0); congruence.
Qed.

Lemma totalRevenue_from (regs : list Registration.Doc) (acc : Z) :
  fold_left (fun sum r => (sum + JS.or_zero (Registration.entryFee (Registration.fields r)))%Z)
            (Registration.find_status regs "approved") acc =
  (acc + Policy.approved_revenue regs)%Z.
Proof.
  revert acc. induction regs as [| r regs IH]; intros acc; simpl; [lia |].
  destruct (Schema.opt_eqb (Registration.status (Registration.fields r)) (Some "approved")); simpl.
  - rewrite IH, or_zero_value. lia.
  - rewrite IH. lia.
Qed.

Lemma approved_revenue_app (l1 l2 : list Registration.Doc) :
  Policy.approved_revenue (l1 ++ l2) =
  (Policy.approved_revenue l1 + Policy.approved_revenue l2)%Z.
Proof.
  induction l1 as [| r l1 IH]; simpl; [reflexivity |]. rewrite IH. lia.
Qed.

Lemma stats_revenue (db : Store) :
  Http.revenue_of (stats_handler db) = Some (Policy.approved_revenue (registrations db)).
Proof.
  unfold stats_handler, Http.revenue_of, totalRevenue. simpl.
  now rewrite totalRevenue_from.
Qed.

(** C7. The revenue reported by the statistics handler is the sum of
    [entryFee] over the registrations whose status is [approved]. A
    registration whose status is [pending] or [rejected] adds nothing to
    it, whatever its fee and wherever it stands in the collection. *)
Theorem stats_revenue_counts_approved_only :
  forall db : Store,
    Http.code (stats_handler db) = 200 /\
    Http.revenue_of (stats_handler db) = Some (Policy.approved_revenue (registrations db)) /\
    (forall (before after : list Registration.Doc) (r : Registration.Doc),
        registrations db = before ++ r :: after ->
        Registration.status (Registration.fields r) = Some "pending" \/
        Registration.status (Registration.fields r) = Some "rejected" ->
        Http.revenue_of (stats_handler db) =
        Http.revenue_of
          (stats_handler (mkStore (admins db) (contacts db) (before ++ after) (next_id db)))).
Proof.
  intros db. split; [reflexivity |]. split; [apply stats_revenue |].
  intros before after r Hregs Hstatus.
  rewrite !stats_revenue. cbn [registrations]. rewrite Hregs, !approved_revenue_app. f_equal.
  f_equal. change (r :: after) with ([r] ++ after). rewrite approved_revenue_app.
  assert (Hzero : Policy.approved_revenue [r] = 0%Z).
  { unfold Policy.approved_revenue. cbn [fold_right].
    destruct Hstatus as [-> | ->]; reflexivity. }
  rewrite Hzero. reflexivity.
Qed.

(** *** Validation reports every failing field *)

Lemma wildcard_errors_fails (c : Validator.ValidationChain)
  (field : Registration.Player -> option string) (ps : list Registration.Player) (m : string) :
  In m (RegisterRoute.wildcard_errors c field ps) <->
  exists p, In p ps /\ Validator.fails c (field p) m.
Proof.
  unfold RegisterRoute.wildcard_errors. rewrite in_flat_map.
  split; intros (p & Hp & H); exists p; (split; [exact Hp |]); now apply run_fails.
Qed.

Lemma validation_errors_failures (b : RegisterRoute.Body) (m : string) :
  In m (RegisterRoute.validation_errors b) <-> RegisterRoute.field_failure b m.
Proof.
  libraries_aside.
  unfold RegisterRoute.validation_errors, RegisterRoute.field_failure.
  rewrite !in_app_iff, !run_fails, !wildcard_errors_fails.
  assert (Harr : In m (if Validator.isArray 1 5 (RegisterRoute.players b)
                       then [] else [RegisterRoute.players_message]) <->
                 Validator.isArray 1 5 (RegisterRoute.players b) = false /\
                 m = RegisterRoute.players_message).
  { destruct (Validator.isArray 1 5 (RegisterRoute.players b)); simpl.
    - split; [intros [] | intros [H _]; discriminate].
    - split; [intros [<- | []]; auto | intros [_ ->]; now left]. }
  rewrite Harr. split.
  - intros [H | [H | [H | [H | [(p & Hp & H) | [(p & Hp & H) | [(p & Hp & H) | H]]]]]]];
      try tauto; right; right; right; right; left; exists p; tauto.
  - intros [H | [H | [H | [H | [(p & Hp & [H | [H | H]]) | H]]]]]; try tauto.
    + right; right; right; right; left. now exists p.
    + right; right; right; right; right; left. now exists p.
    + right; right; right; right; right; right; left. now exists p.
Qed.

Lemma contact_validation_errors_failures (b : ContactRoute.Body) (m : string) :
  In m (contact_validation_errors b) <-> contact_field_failure b m.
Proof.
  libraries_aside.
  unfold contact_validation_errors, contact_field_failure.
  rewrite !in_app_iff, !run_fails. tauto.
Qed.

Lemma register_rejects_invalid (seen : list Registration.Doc) (db : Store)
  (body : RegisterRoute.Body) :
  RegisterRoute.validation_errors body <> [] ->
  RegisterRoute.interleaved seen db body =
  (db, RegisterRoute.validation_failed (RegisterRoute.validation_errors body)).
Proof.
  intros Hne. unfold RegisterRoute.interleaved, RegisterRoute.begin.
  destruct (RegisterRoute.validation_errors body); [now elim Hne | reflexivity].
Qed.

Lemma contact_rejects_invalid (db : Store) (body : ContactRoute.Body) :
  contact_validation_errors body <> [] ->
  contact_handler db body =
  (db, RegisterRoute.validation_failed (contact_validation_errors body)).
Proof.
  intros Hne. unfold contact_handler.
  destruct (contact_validation_errors body); [now elim Hne | reflexivity].
Qed.

(** C8. When a field of a registration or of a contact submission fails one
    of its validations, the handler answers 400, leaves the store as it is,
    and the [errors] list of the response contains the message of that
    validation: no failure hides another one. The list holds the messages
    of all failing validations of all fields and nothing else. *)
Theorem every_failing_field_is_reported :
  forall (seen : list Registration.Doc) (db : Store)
         (registration : RegisterRoute.Body) (contact : ContactRoute.Body) (m : string),
    (RegisterRoute.field_failure registration m ->
     exists errors : list string,
       RegisterRoute.interleaved seen db registration =
       (db, Http.mkResponse 400 false (Some "Validation failed. Please check your input.")
                            (Some errors) Http.NoData) /\
       In m errors /\
       (forall m', In m' errors <-> RegisterRoute.field_failure registration m')) /\
    (contact_field_failure contact m ->
     exists errors : list string,
       contact_handler db contact =
       (db, Http.mkResponse 400 false (Some "Validation failed. Please check your input.")
                            (Some errors) Http.NoData) /\
       In m errors /\
       (forall m', In m' errors <-> contact_field_failure contact m')).
Proof.
  intros seen db registration contact m. split; intros Hfail.
  - exists (RegisterRoute.validation_errors registration).
    pose proof (proj2 (validation_errors_failures registration m) Hfail) as Hin.
    split; [| split; [exact Hin | intros m'; apply validation_errors_failures]].
    apply register_rejects_invalid. intros Hnil. rewrite Hnil in Hin. destruct Hin.
  - exists (contact_validation_errors contact).
    pose proof (proj2 (contact_validation_errors_failures contact m) Hfail) as Hin.
    split; [| split; [exact Hin | intros m'; apply contact_validation_errors_failures]].
    apply contact_rejects_invalid. intros Hnil. rewrite Hnil in Hin. destruct Hin.
Qed.

(** *** The roster rule of persisted registrations *)

Lemma validate_mode (this : Registration.Fields) :
  Registration.validate this = [] ->
  exists m : Policy.Mode, Registration.mode this = Some (Policy.mode_name m).
Proof.
  unfold Registration.validate. intros H.
  apply app_eq_nil in H. destruct H as [_ H].
  apply app_eq_nil in H. destruct H as [_ H].
  apply app_eq_nil in H. destruct H as [Hreq H].
  apply app_eq_nil in H. destruct H as [Henum _].
  unfold Schema.required in Hreq. unfold Schema.enum in Henum.
  destruct (Registration.mode this) as [s |]; [| discriminate].
  destruct (JS.includes ["solo"; "duo"; "squad"] s) eqn:Hin; [| discriminate].
  apply includes_In in Hin. destruct (mode_name_cases _ Hin) as [m ->]. now exists m.
Qed.

(** On a document whose mode is one of the three, the pre-save hook passes
    exactly when the roster is long enough and a required team name is
    there. *)
Lemma pre_save_passes (this : Registration.Fields) (m : Policy.Mode) :
  Registration.mode this = Some (Policy.mode_name m) ->
  (Registration.pre_save this = JS.Ok tt <->
   Policy.requiredPlayerCountFor m <= List.length (Registration.players this) /\
   (Policy.teamNameRequired m = true -> JS.truthy (Registration.teamName this) = true)).
Proof.
  intros Hm. unfold Registration.pre_save. rewrite Hm, expectedPlayers_policy, is_team_mode_policy.
  unfold JS.lt_undef.
  destruct (Nat.ltb_spec (List.length (Registration.players this))
                         (Policy.requiredPlayerCountFor m)) as [Hlt | Hge].
  - split; [discriminate | lia].
  - destruct (Policy.teamNameRequired m); cbn [andb].
    + destruct (JS.truthy (Registration.teamName this)); cbn [negb].
      * split; auto.
      * split; [discriminate | intros [_ H]; specialize (H eq_refl); discriminate].
    + split; [intros _; split; [exact Hge | discriminate] | reflexivity].
Qed.

Lemma truthy_inv (v : option string) :
  JS.truthy v = true -> exists s, v = Some s /\ s <> "".
Proof.
  destruct v as [s |]; [| discriminate]. intros H. exists s. split; [reflexivity |].
  now apply truthy_Some.
Qed.

Lemma invariant_of_hook (id : nat) (this : Registration.Fields) (m : Policy.Mode) :
  Registration.mode this = Some (Policy.mode_name m) ->
  (Policy.roster_invariant (Registration.mkDoc id this) <->
   Registration.pre_save this = JS.Ok tt).
Proof.
  intros Hm. rewrite (pre_save_passes this m Hm). unfold Policy.roster_invariant.
  cbn [Registration.fields]. split.
  - intros (m' & Hm' & Hlen & Hteam).
    assert (m' = m) as ->.
    { rewrite Hm in Hm'. destruct m, m'; simpl in Hm'; congruence. }
    split; [exact Hlen |]. intros Hreq. destruct (Hteam Hreq) as (tn & -> & Hne).
    now apply truthy_Some.
  - intros [Hlen Hteam]. exists m. repeat split; try assumption.
    intros Hreq. apply truthy_inv. now apply Hteam.
Qed.

(** Whatever object is saved, and whatever the collection holds, a save
    that succeeds has stored a document that meets the roster rule. *)
Lemma save_meets_invariant (coll coll' : list Registration.Doc) (fresh : nat)
  (i : Registration.Fields) (d : Registration.Doc) :
  Registration.save coll fresh i = JS.Ok (coll', d) -> Policy.roster_invariant d.
Proof.
  intros Hs. apply save_Ok_inv in Hs. destruct Hs as (-> & _ & Hv & Hp & _).
  destruct (validate_mode _ Hv) as [m Hm]. now apply (invariant_of_hook fresh _ m Hm).
Qed.

Lemma set_status_invariant (s : string) (d : Registration.Doc) :
  Policy.roster_invariant d -> Policy.roster_invariant (Registration.set_status s d).
Proof. intros H. exact H. Qed.

Lemma findByIdAndUpdate_invariant (coll : list Registration.Doc) (id : nat) (s : string) :
  Forall Policy.roster_invariant coll ->
  Forall Policy.roster_invariant (fst (Registration.findByIdAndUpdate coll id s)).
Proof.
  induction 1 as [| d coll Hd Hcoll IH]; simpl; [constructor |].
  destruct (Nat.eqb (Registration._id d) id).
  - simpl. constructor; [now apply set_status_invariant | assumption].
  - destruct (Registration.findByIdAndUpdate coll id s) as [rest r]. simpl in IH |- *.
    now constructor.
Qed.

Lemma commit_invariant (db : Store) (i : Registration.Fields) :
  Forall Policy.roster_invariant (registrations db) ->
  Forall Policy.roster_invariant (registrations (fst (RegisterRoute.commit db i))).
Proof.
  intros Hinv. destruct (commit_cases db i) as [(d & Hs & ->) | (r & -> & _)]; [| exact Hinv].
  cbn [fst registrations]. constructor; [| exact Hinv].
  exact (save_meets_invariant _ _ _ _ _ Hs).
Qed.

Lemma interleaved_invariant (seen : list Registration.Doc) (db : Store) (body : RegisterRoute.Body) :
  Forall Policy.roster_invariant (registrations db) ->
  Forall Policy.roster_invariant (registrations (fst (RegisterRoute.interleaved seen db body))).
Proof.
  intros Hinv. unfold RegisterRoute.interleaved.
  destruct (RegisterRoute.begin seen body); [exact Hinv | now apply commit_invariant].
Qed.

Lemma contact_handler_registrations (db : Store) (body : ContactRoute.Body) :
  registrations (fst (contact_handler db body)) = registrations db.
Proof.
  unfold contact_handler. destruct (contact_validation_errors body); [| reflexivity].
  destruct (Contact.save _ _ _) as [[coll c] | e]; reflexivity.
Qed.

Lemma login_handler_registrations (now : Z) (db : Store) (body : AdminRoutes.LoginBody) :
  registrations (fst (login_handler now db body)) = registrations db.
Proof.
  unfold login_handler. destruct (login_validation_errors body); [| reflexivity].
  destruct (Admin.findOne_email _ _); [| reflexivity].
  destruct (negb _); [reflexivity |].
  destruct (generateToken _ _); reflexivity.
Qed.

Lemma admin_handler_invariant (admin : Admin.Doc) (db : Store) (op : AdminRoutes.Operation) :
  Forall Policy.roster_invariant (registrations db) ->
  Forall Policy.roster_invariant (registrations (fst (admin_handler admin db op))).
Proof.
  intros Hinv. destruct op as [| | q | id st | id | q | id st]; cbn [admin_handler fst];
    try exact Hinv.
  - unfold patch_contact_handler. destruct st as [s |]; [| exact Hinv].
    destruct (_ && _); [| exact Hinv].
    destruct (Contact.findByIdAndUpdate _ _ _) as [coll [c |]]; exact Hinv.
  - unfold delete_contact_handler.
    destruct (Contact.findByIdAndDelete _ _) as [coll [c |]]; exact Hinv.
  - unfold patch_registration_handler. destruct st as [s |]; [| exact Hinv].
    destruct (_ && _); [| exact Hinv].
    pose proof (findByIdAndUpdate_invariant (registrations db) id s Hinv) as Hupd.
    destruct (Registration.findByIdAndUpdate _ _ _) as [coll [r |]]; [exact Hupd | exact Hinv].
Qed.

Lemma handle_invariant (now : Z) (db : Store) (req : Request) :
  Forall Policy.roster_invariant (registrations db) ->
  Forall Policy.roster_invariant (registrations (fst (handle now db req))).
Proof.
  intros Hinv. destruct req as [body | body | body | authorization op]; cbn [handle].
  - now apply interleaved_invariant.
  - now rewrite contact_handler_registrations.
  - now rewrite login_handler_registrations.
  - unfold admin_route. destruct (protect now db authorization); [exact Hinv |].
    now apply admin_handler_invariant.
Qed.

Lemma step_invariant (db db' : Store) :
  step db db' ->
  Forall Policy.roster_invariant (registrations db) ->
  Forall Policy.roster_invariant (registrations db').
Proof.
  intros [now d req | seen d body | d i] Hinv.
  - now apply handle_invariant.
  - now apply interleaved_invariant.
  - now apply commit_invariant.
Qed.

(** C10. In every store reached from one whose registrations meet the
    roster rule (an empty collection, for one), by requests served whole or
    interleaved and by saves of arbitrary registration objects, every
    registration has at least the number of players its mode requires
    (solo 1, duo 2, squad 4) and, for duo and squad, a non-empty team name.
    The rule is enforced by the model itself: a save of any object that
    would break it fails and leaves the store as it is, and when the schema
    validators accept the object it is the pre-save hook that throws. *)
Theorem persisted_registrations_meet_roster_rule :
  forall db0 db : Store,
    Forall Policy.roster_invariant (registrations db0) ->
    reachable db0 db ->
    Forall Policy.roster_invariant (registrations db) /\
    (forall i : Registration.Fields,
        ~ Policy.roster_invariant (Registration.mkDoc (next_id db) (Registration.cast i)) ->
        (exists e : JS.Exn, Registration.save (registrations db) (next_id db) i = JS.Throw e) /\
        fst (RegisterRoute.commit db i) = db /\
        (Registration.validate (Registration.cast i) = [] ->
         exists e : JS.Exn, Registration.pre_save (Registration.cast i) = JS.Throw e)).
Proof.
  intros db0 db Hinit Hreach. split.
  - induction Hreach as [| db db' _ IH Hstep]; [exact Hinit |].
    exact (step_invariant db db' Hstep IH).
  - intros i Hbreak.
    assert (Hfail : exists e, Registration.save (registrations db) (next_id db) i = JS.Throw e).
    { destruct (Registration.save (registrations db) (next_id db) i) as [[coll d] | e] eqn:Hs;
        [| now exists e].
      exfalso. apply Hbreak. pose proof (save_meets_invariant _ _ _ _ _ Hs) as Hd.
      apply save_Ok_inv in Hs. destruct Hs as (<- & _). exact Hd. }
    split; [exact Hfail |]. split.
    + destruct Hfail as [e He]. unfold RegisterRoute.commit. now rewrite He.
    + intros Hv. destruct (validate_mode _ Hv) as [m Hm].
      destruct (Registration.pre_save (Registration.cast i)) as [[] | e] eqn:Hp; [| now exists e].
      exfalso. apply Hbreak. now apply (invariant_of_hook _ _ m Hm).
Qed.

(** *** Transaction identifiers stay, and stay unique *)

Lemma has_transactionId_In (coll : list Registration.Doc) (tid : option string) :
  Registration.has_transactionId coll tid = true <-> In tid (Registration.transactionIds coll).
Proof.
  unfold Registration.has_transactionId, Registration.transactionIds.
  rewrite existsb_exists, in_map_iff. split.
  - intros (d & Hd & Heq). apply opt_eqb_eq in Heq. now exists d.
  - intros (d & Heq & Hd). exists d. split; [exact Hd | now apply opt_eqb_eq].
Qed.

Lemma findByIdAndUpdate_transactionIds (coll : list Registration.Doc) (id : nat) (s : string) :
  Registration.transactionIds (fst (Registration.findByIdAndUpdate coll id s)) =
  Registration.transactionIds coll.
Proof.
  induction coll as [| d coll IH]; [reflexivity |].
  cbn [Registration.findByIdAndUpdate].
  destruct (Nat.eqb (Registration._id d) id); [reflexivity |].
  destruct (Registration.findByIdAndUpdate coll id s) as [rest r].
  cbn [fst] in IH |- *. unfold Registration.transactionIds in IH |- *.
  cbn [map]. now rewrite IH.
Qed.

Lemma admin_handler_transactionIds (admin : Admin.Doc) (db : Store) (op : AdminRoutes.Operation) :
  Registration.transactionIds (registrations (fst (admin_handler admin db op))) =
  Registration.transactionIds (registrations db).
Proof.
  destruct op as [| | q | id st | id | q | id st]; cbn [admin_handler fst]; try reflexivity.
  - unfold patch_contact_handler. destruct st as [s |]; [| reflexivity].
    destruct (_ && _); [| reflexivity].
    destruct (Contact.findByIdAndUpdate _ _ _) as [coll [c |]]; reflexivity.
  - unfold delete_contact_handler.
    destruct (Contact.findByIdAndDelete _ _) as [coll [c |]]; reflexivity.
  - unfold patch_registration_handler. destruct st as [s |]; [| reflexivity].
    destruct (_ && _); [| reflexivity].
    pose proof (findByIdAndUpdate_transactionIds (registrations db) id s) as Hupd.
    destruct (Registration.findByIdAndUpdate _ _ _) as [coll [r |]]; [exact Hupd | reflexivity].
Qed.

(** Each step leaves the transaction identifiers as they are or puts one
    new identifier in front. *)
Lemma step_transactionIds (db db' : Store) :
  step db db' ->
  Registration.transactionIds (registrations db') = Registration.transactionIds (registrations db) \/
  exists tid : option string,
    ~ In tid (Registration.transactionIds (registrations db)) /\
    Registration.transactionIds (registrations db') =
    tid :: Registration.transactionIds (registrations db).
Proof.
  assert (Hcommit : forall d i,
             Registration.transactionIds (registrations (fst (RegisterRoute.commit d i))) =
             Registration.transactionIds (registrations d) \/
             exists tid : option string,
               ~ In tid (Registration.transactionIds (registrations d)) /\
               Registration.transactionIds (registrations (fst (RegisterRoute.commit d i))) =
               tid :: Registration.transactionIds (registrations d)).
  { intros d i. destruct (commit_cases d i) as [(doc & Hs & ->) | (r & -> & _)]; [| now left].
    right. exists (Registration.transactionId (Registration.fields doc)).
    split; [| reflexivity].
    apply save_Ok_inv in Hs. destruct Hs as (-> & _ & _ & _ & Hfree).
    intros Hin. apply has_transactionId_In in Hin. cbn [Registration.fields] in Hin. congruence. }
  assert (Hinter : forall seen d body,
             Registration.transactionIds
               (registrations (fst (RegisterRoute.interleaved seen d body))) =
             Registration.transactionIds (registrations d) \/
             exists tid : option string,
               ~ In tid (Registration.transactionIds (registrations d)) /\
               Registration.transactionIds
                 (registrations (fst (RegisterRoute.interleaved seen d body))) =
               tid :: Registration.transactionIds (registrations d)).
  { intros seen d body. unfold RegisterRoute.interleaved.
    destruct (RegisterRoute.begin seen body); [now left | apply Hcommit]. }
  intros [now d req | seen d body | d i]; [| apply Hinter | apply Hcommit].
  destruct req as [body | body | body | authorization op]; cbn [handle].
  - apply Hinter.
  - left. now rewrite contact_handler_registrations.
  - left. now rewrite login_handler_registrations.
  - left. unfold admin_route. destruct (protect now d authorization); [reflexivity |].
    apply admin_handler_transactionIds.
Qed.

(** In every store reached, a transaction identifier once persisted is still
    there, and no two registrations share one. *)
Lemma transactionIds_kept_and_unique (db0 db : Store) :
  reachable db0 db ->
  (forall tid : option string,
      Registration.has_transactionId (registrations db0) tid = true ->
      Registration.has_transactionId (registrations db) tid = true) /\
  (NoDup (Registration.transactionIds (registrations db0)) ->
   NoDup (Registration.transactionIds (registrations db))).
Proof.
  induction 1 as [| db db' _ [IHkept IHuniq] Hstep]; [split; auto |].
  destruct (step_transactionIds db db' Hstep) as [Heq | (tid & Hnew & Heq)].
  - split.
    + intros t Ht. apply has_transactionId_In. rewrite Heq. apply has_transactionId_In. auto.
    + rewrite Heq. exact IHuniq.
  - split.
    + intros t Ht. apply has_transactionId_In. rewrite Heq. right.
      apply has_transactionId_In. auto.
    + intros Hnodup. rewrite Heq. constructor; [exact Hnew | auto].
Qed.

(** *** The public submissions, outcome by outcome *)

(** X1. A registration in order is accepted, in each of the three modes: an
    allowed game, a mode that is solo, duo or squad once trimmed, at least
    the number of players of the mode and at most five, every player with a
    name, an identifier and a phone number within the limits of the schema,
    a transaction identifier of five characters or more that neither the
    lookup nor the index knows, a team name of at most 50 characters that
    is there when the mode is duo or squad. The answer is 201, the fee is
    the one of the mode, and the registration is stored in front of the
    others as a pending one, with every submitted player through the
    setters of the sub-schema. *)
Theorem registration_in_order_is_accepted :
  forall (seen : list Registration.Doc) (db : Store) (body : RegisterRoute.Body)
         (m : Policy.Mode) (s g t : string) (ps : list Registration.Player),
    RegisterRoute.mode body = Some s -> JS.trim s = Policy.mode_name m ->
    RegisterRoute.players body = Some ps ->
    RegisterRoute.game body = Some g -> In (JS.trim g) ["pubg"; "freefire"; "cod"] ->
    RegisterRoute.transactionId body = Some t -> 5 <= String.length (JS.trim t) ->
    (forall tn, RegisterRoute.teamName body = Some tn -> String.length (JS.trim tn) <= 50) ->
    (Policy.teamNameRequired m = true ->
     JS.truthy (option_map JS.trim (RegisterRoute.teamName body)) = true) ->
    forallb RegisterRoute.player_ok ps = true ->
    Policy.requiredPlayerCountFor m <= List.length ps <= 5 ->
    Registration.has_transactionId seen (Some (JS.trim t)) = false ->
    Registration.has_transactionId (registrations db) (Some (JS.trim t)) = false ->
    exists (db' : Store) (r : Http.Response) (echo : Http.Registered),
      RegisterRoute.interleaved seen db body = (db', r) /\
      Http.code r = 201 /\
      Http.data r = Http.RegisteredData echo /\
      Http.entryFee echo = Some (Policy.entryFeeFor m) /\
      Http.playerCount echo = List.length ps /\
      Http.status echo = "pending" /\
      registrations db' =
      Registration.mkDoc (next_id db) (expected_fields m g t (RegisterRoute.teamName body) ps)
      :: registrations db.
Proof.
  intros seen db body m s g t ps Hs Hm Hps Hg Hgin Ht Htlen Htn Hteam Hok Hlen Hseen Hdb.
  pose proof (in_order_accepted seen db body m s g t ps Hs Hm Hps Hg Hgin Ht Htlen Htn Hteam
                Hok Hlen Hseen Hdb) as Hacc.
  cbv zeta in Hacc. rewrite Hacc.
  eexists. eexists. eexists. split; [reflexivity |]. repeat split.
Qed.

(** X2. What a registration request can do to the store, whatever it
    holds and whatever state its lookup saw. The answer is 201, 400, 409 or
    500. Unless it is 201 the store is exactly as before. With 201 one
    registration is added in front of the others, with the next identifier
    and the status pending, and no stored registration is touched. In no
    case are the contacts or the administrators changed. *)
Theorem registration_request_outcomes :
  forall (seen : list Registration.Doc) (db db' : Store) (body : RegisterRoute.Body)
         (r : Http.Response),
    RegisterRoute.interleaved seen db body = (db', r) ->
    In (Http.code r) [201; 400; 409; 500] /\
    admins db' = admins db /\ contacts db' = contacts db /\
    (Http.code r <> 201 -> db' = db) /\
    (Http.code r = 201 ->
     exists doc : Registration.Doc,
       registrations db' = doc :: registrations db /\
       Registration._id doc = next_id db /\
       Registration.status (Registration.fields doc) = Some "pending" /\
       next_id db' = S (next_id db)).
Proof.
  intros seen db db' body r Hrun. unfold RegisterRoute.interleaved in Hrun.
  destruct (RegisterRoute.begin seen body) as [r0 | i] eqn:Hb.
  - injection Hrun as <- <-. apply begin_inl_code in Hb.
    repeat split; try reflexivity.
    + simpl. destruct Hb as [-> | ->]; auto.
    + intros Hcode. lia.
  - destruct (commit_cases db i) as [(d & Hs & Hc) | (r0 & Hc & Hr0)];
      rewrite Hc in Hrun; injection Hrun as <- <-.
    + repeat split; try reflexivity.
      * now left.
      * intros Hcode. now elim Hcode.
      * intros _. exists d. cbn [registrations next_id]. repeat split.
        -- apply save_Ok_inv in Hs. now destruct Hs as (-> & _).
        -- apply save_Ok_inv in Hs. destruct Hs as (-> & _).
           apply begin_inr_inv in Hb. cbv zeta in Hb. destruct Hb as (_ & _ & _ & _ & ->).
           reflexivity.
    + repeat split; try reflexivity.
      * simpl. destruct Hr0 as [-> | ->]; auto.
      * intros Hcode. lia.
Qed.

(** X3. What a message sent through the contact form can do. The answer
    is 201, 400 or 500: 400 exactly when some field fails the validation
    of the route, 500 when the route lets the message through and the
    schema refuses it. With 201 one message is added in front of the
    others, with the next identifier and the status new, its name, address
    and text trimmed by the schema and within the limits of the schema;
    otherwise the store is exactly as before. The registrations and the
    administrators are never touched. *)
Theorem contact_request_outcomes :
  forall (db db' : Store) (body : ContactRoute.Body) (r : Http.Response),
    contact_handler db body = (db', r) ->
    In (Http.code r) [201; 400; 500] /\
    (Http.code r = 400 <-> contact_validation_errors body <> []) /\
    admins db' = admins db /\ registrations db' = registrations db /\
    (Http.code r <> 201 -> db' = db) /\
    (Http.code r = 201 ->
     exists c : Contact.Doc,
       contacts db' = c :: contacts db /\
       Contact._id c = next_id db /\
       Contact.status (Contact.fields c) = Some "new" /\
       Contact.validate (Contact.fields c) = [] /\
       next_id db' = S (next_id db)).
Proof.
  intros db db' body r. unfold contact_handler.
  destruct (contact_validation_errors body) as [| e errs] eqn:Hv.
  - unfold Contact.save.
    match goal with
    | |- context [Contact.validate ?f] => set (this := f)
    end.
    destruct (Contact.validate this) as [| m msgs] eqn:Hs; intros H; injection H as <- <-.
    + repeat split; try reflexivity; try discriminate.
      * now left.
      * intros Hbad. now elim Hbad.
      * intros Hcode. now elim Hcode.
      * intros _. eexists. cbn [contacts next_id]. split; [reflexivity |].
        cbn [Contact._id Contact.fields]. repeat split; try reflexivity. exact Hs.
    + repeat split; try reflexivity; try discriminate.
      * right. right. now left.
      * intros Hbad. now elim Hbad.
  - intros H. injection H as <- <-.
    repeat split; try reflexivity; try discriminate. right. now left.
Qed.

(** *** Where the validation of a route and the schema differ *)












(** *** Login and the token gate *)

Lemma findOne_email_trimmed (coll : list Admin.Doc) (e : string) :
  Admin.findOne_email coll (Some (JS.trim e)) = Admin.findOne_email coll (Some e).
Proof. unfold Admin.findOne_email. now rewrite trim_idempotent. Qed.

(** A login answered 200, taken apart. *)
Lemma login_ok_inv :
  forall (now : Z) (db db' : Store) (body : AdminRoutes.LoginBody) (r : Http.Response),
    login_handler now db body = (db', r) ->
    Http.code r = 200 ->
    exists (e pw : string) (admin : Admin.Doc),
      AdminRoutes.email body = Some e /\
      AdminRoutes.password body = Some pw /\
      Admin.findOne_email (admins db) (Some e) = Some admin /\
      bcrypt_compare pw (Admin.password admin) = true /\
      JWT_SECRET <> "" /\
      Http.data r =
      Http.LoginData
        (Jwt.Signed JWT_SECRET
           (Jwt.mkPayload (Admin._id admin) (Jwt.clockTimestamp now)
                          (Some (Jwt.clockTimestamp now + 604800)%Z)))
        (Http.mkAdminInfo (Admin._id admin) (Admin.name admin) (Admin.email admin)
                          (Admin.role admin)) /\
      db' =
      mkStore
        (Admin.save (admins db)
           (Admin.mkDoc (Admin._id admin) (Admin.email admin) (Admin.password admin)
                        (Admin.name admin) (Admin.role admin) (Some now)))
        (contacts db) (registrations db) (next_id db).
Proof.
  intros now db db' body r. unfold login_handler.
  destruct (login_validation_errors body) as [| m msgs] eqn:Hv;
    [| intros H; injection H as <- <-; discriminate].
  rewrite login_email_sanitized, login_password_sanitized.
  unfold login_validation_errors in Hv. apply app_eq_nil in Hv. destruct Hv as [Hve Hvp].
  assert (He : exists e, AdminRoutes.email body = Some e).
  { destruct (AdminRoutes.email body) as [e |]; [now exists e |]. discriminate. }
  assert (Hp : exists pw, AdminRoutes.password body = Some pw).
  { destruct (AdminRoutes.password body) as [pw |]; [now exists pw |]. discriminate. }
  destruct He as [e He]. destruct Hp as [pw Hp]. rewrite He, Hp.
  cbn [Validator.toString]. rewrite findOne_email_trimmed.
  destruct (Admin.findOne_email (admins db) (Some e)) as [admin |] eqn:Hfind;
    [| intros H; injection H as <- <-; discriminate].
  unfold comparePassword.
  destruct (bcrypt_compare pw (Admin.password admin)) eqn:Hcmp; cbn [negb];
    [| intros H; injection H as <- <-; discriminate].
  unfold generateToken, Jwt.sign.
  destruct (String.eqb JWT_SECRET "") eqn:Hsecret;
    intros H; injection H as <- <-; [discriminate |].
  intros _. exists e, pw, admin. apply String.eqb_neq in Hsecret. repeat split; auto.
Qed.

(** X6. A login is answered 200 exactly for the right password. When the
    answer is 200, the body carries an address and a password, an
    administrator is stored under that address (trimmed, in lower case),
    and the password matches the stored hash; the token in the answer is
    signed with the secret of the server, names that administrator and
    expires seven days after it was issued; in the store the time of that
    administrator's last login is set to the time of the request and
    nothing else differs. Conversely, an address that the validator takes
    for an e-mail address, under which an administrator is stored, with a
    password that matches the stored hash, is answered 200 when the server
    has a signing secret. *)
Theorem login_succeeds_exactly_with_the_password :
  forall (now : Z) (db : Store) (body : AdminRoutes.LoginBody),
    (forall (db' : Store) (r : Http.Response),
        login_handler now db body = (db', r) ->
        Http.code r = 200 ->
        exists (e pw : string) (admin : Admin.Doc),
          AdminRoutes.email body = Some e /\
          AdminRoutes.password body = Some pw /\
          Admin.findOne_email (admins db) (Some e) = Some admin /\
          bcrypt_compare pw (Admin.password admin) = true /\
          JWT_SECRET <> "" /\
          Http.data r =
          Http.LoginData
            (Jwt.Signed JWT_SECRET
               (Jwt.mkPayload (Admin._id admin) (Jwt.clockTimestamp now)
                              (Some (Jwt.clockTimestamp now + 604800)%Z)))
            (Http.mkAdminInfo (Admin._id admin) (Admin.name admin) (Admin.email admin)
                              (Admin.role admin)) /\
          db' =
          mkStore
            (Admin.save (admins db)
               (Admin.mkDoc (Admin._id admin) (Admin.email admin) (Admin.password admin)
                            (Admin.name admin) (Admin.role admin) (Some now)))
            (contacts db) (registrations db) (next_id db)) /\
    (forall (e pw : string) (admin : Admin.Doc),
        AdminRoutes.email body = Some e ->
        AdminRoutes.password body = Some pw ->
        JS.trim e <> "" -> isEmail (JS.trim e) = true -> pw <> "" ->
        Admin.findOne_email (admins db) (Some e) = Some admin ->
        bcrypt_compare pw (Admin.password admin) = true ->
        JWT_SECRET <> "" ->
        Http.code (snd (login_handler now db body)) = 200).
Proof.
  intros now db body. split; [intros db' r; apply login_ok_inv |].
  intros e pw admin He Hp Hne Hmail Hpw Hfind Hcmp Hsecret.
  unfold login_handler, login_validation_errors.
  rewrite login_email_sanitized, login_password_sanitized, He, Hp.
  cbn [Validator.toString].
  assert (Hve : snd (Validator.run login_email_chain (Some e)) = []).
  { unfold Validator.run, login_email_chain.
    cbn [Validator.optional Validator.stack andb Validator.run_stack Validator.toString fst snd].
    now rewrite (proj2 (notEmpty_true _) Hne), Hmail. }
  assert (Hvp : snd (Validator.run login_password_chain (Some pw)) = []).
  { unfold Validator.run, login_password_chain.
    cbn [Validator.optional Validator.stack andb Validator.run_stack Validator.toString fst snd].
    now rewrite (proj2 (notEmpty_true _) Hpw). }
  rewrite Hve, Hvp. cbn [app]. rewrite findOne_email_trimmed, Hfind.
  unfold comparePassword. rewrite Hcmp. cbn [negb].
  unfold generateToken, Jwt.sign. now rewrite (proj2 (String.eqb_neq _ _) Hsecret).
Qed.

(** X7. The token gate lets a request through only on a good token.
    When [protect] calls [next()], the header carried a non-empty token
    that decodes to claims signed with the secret of the server, the
    secret is not empty, the expiry of the token, if it has one, is later
    than the clock, and the administrator handed to the handler is the one
    stored under the identifier in the claims. *)
Theorem protect_lets_through_only_good_tokens :
  forall (now : Z) (db : Store) (authorization : option string) (admin : Admin.Doc),
    protect now db authorization = inr admin ->
    exists (t : string) (payload : Jwt.Payload),
      bearer_token authorization = Some t /\ t <> "" /\
      jwt_decode t = Jwt.Signed JWT_SECRET payload /\
      JWT_SECRET <> "" /\
      (forall e : Z, Jwt.exp payload = Some e -> (Jwt.clockTimestamp now < e)%Z) /\
      Admin.findById (admins db) (Jwt.id payload) = Some admin /\
      In admin (admins db) /\ Admin._id admin = Jwt.id payload.
Proof.
  intros now db authorization admin. unfold protect.
  destruct (bearer_token authorization) as [t |] eqn:Ht; [| discriminate].
  destruct (JS.truthy (Some t)) eqn:Htruthy; cbn [negb]; [| discriminate].
  apply truthy_Some in Htruthy. cbn [Validator.toString].
  destruct (jwt_decode t) as [| key payload] eqn:Hdec; cbn [Jwt.verify]; [discriminate |].
  destruct (String.eqb JWT_SECRET "") eqn:Hsecret; [discriminate |].
  destruct (String.eqb key JWT_SECRET) eqn:Hkey; cbn [negb]; [| discriminate].
  apply String.eqb_eq in Hkey. subst key. apply String.eqb_neq in Hsecret.
  assert (Hgo : forall p, 
             match Admin.findById (admins db) (Jwt.id p) with
             | Some a => inr a
             | None => inl (Http.fail 401 "Admin account not found.")
             end = (inr admin : Http.Response + Admin.Doc) ->
             Admin.findById (admins db) (Jwt.id p) = Some admin /\
             In admin (admins db) /\ Admin._id admin = Jwt.id p).
  { intros p. destruct (Admin.findById (admins db) (Jwt.id p)) as [a |] eqn:Hfind;
      [| discriminate].
    intros H. injection H as <-. unfold Admin.findById in Hfind.
    apply find_some in Hfind. destruct Hfind as [Hin Hid]. apply Nat.eqb_eq in Hid. auto. }
  destruct (Jwt.exp payload) as [e |] eqn:Hexp.
  - destruct (Z.leb_spec e (Jwt.clockTimestamp now)) as [Hle | Hlt]; [discriminate |].
    intros H. apply Hgo in H. destruct H as (Hfind & Hin & Hid).
    exists t, payload. repeat split; auto.
    intros e' He'. rewrite Hexp in He'. injection He' as <-. assumption.
  - intros H. apply Hgo in H. destruct H as (Hfind & Hin & Hid).
    exists t, payload. repeat split; auto.
    intros e' He'. rewrite Hexp in He'. discriminate.
Qed.

Lemma split_space_plain (s : string) :
  ~ In " "%char (list_ascii_of_string s) -> JS.split_space s = [s].
Proof.
  induction s as [| c s IH]; [reflexivity |].
  cbn [list_ascii_of_string JS.split_space]. intros H.
  destruct (Ascii.eqb c " "%char) eqn:E.
  - apply Ascii.eqb_eq in E. elim H. now left.
  - rewrite IH; [reflexivity |]. intros Hin. apply H. now right.
Qed.

(** The header [Bearer <token>] yields the token. *)
Lemma bearer_token_of_header (t : string) :
  ~ In " "%char (list_ascii_of_string t) ->
  bearer_token (Some ("Bearer " ++ t)%string) = Some t.
Proof.
  intros H. unfold bearer_token.
  cbn [JS.truthy String.append String.eqb JS.startsWith String.prefix Ascii.eqb Bool.eqb negb
       andb JS.split_space].
  now rewrite (split_space_plain t H).
Qed.

Lemma admin_save_findById (coll : list Admin.Doc) (a : Admin.Doc) :
  In (Admin._id a) (map Admin._id coll) ->
  Admin.findById (Admin.save coll a) (Admin._id a) = Some a.
Proof.
  unfold Admin.findById. induction coll as [| d coll IH]; [intros [] |].
  cbn [map Admin.save]. intros Hin.
  destruct (Nat.eqb (Admin._id d) (Admin._id a)) eqn:E.
  - cbn [find]. now rewrite Nat.eqb_refl.
  - cbn [find]. rewrite E. apply IH. destruct Hin as [Hd | Hin]; [| exact Hin].
    apply Nat.eqb_neq in E. contradiction.
Qed.

(** X8. Login, then the token at work. After a login answered 200 at
    clock [now], a request for [/me] that carries the token of the answer
    in a [Bearer] header is let through at any time before the token
    expires, seven days later, and is answered with the very identity that
    the login returned, the last login being the time of that login. The
    wire form of the token is any string without blanks that decodes to
    it. *)
Theorem login_token_opens_the_gate :
  forall (now later : Z) (db db' : Store) (body : AdminRoutes.LoginBody)
         (r : Http.Response) (token : Jwt.Token) (info : Http.AdminInfo) (wire : string),
    login_handler now db body = (db', r) ->
    Http.code r = 200 ->
    Http.data r = Http.LoginData token info ->
    jwt_decode wire = token ->
    wire <> "" -> ~ In " "%char (list_ascii_of_string wire) ->
    (Jwt.clockTimestamp later < Jwt.clockTimestamp now + 604800)%Z ->
    admin_route later db' (Some ("Bearer " ++ wire)%string) AdminRoutes.GetMe =
    (db', Http.mkResponse 200 true None None (Http.MeData info (Some now))).
Proof.
  intros now later db db' body r token info wire Hlogin Hcode Hdata Hwire Hne Hplain Hlater.
  destruct (login_ok_inv now db db' body r Hlogin Hcode)
    as (e & pw & admin & _ & _ & Hfind & _ & Hsecret & Hdata' & ->).
  rewrite Hdata' in Hdata. injection Hdata as <- <-.
  unfold admin_route, protect. rewrite (bearer_token_of_header wire Hplain).
  rewrite (proj2 (truthy_Some wire) Hne). cbn [negb Validator.toString]. rewrite Hwire.
  cbn [Jwt.verify Jwt.exp]. rewrite (proj2 (String.eqb_neq _ _) Hsecret), String.eqb_refl.
  cbn [negb]. rewrite (proj2 (Z.leb_gt _ _) Hlater). cbn [Jwt.id admins].
  change (Admin._id admin) with
    (Admin._id (Admin.mkDoc (Admin._id admin) (Admin.email admin) (Admin.password admin)
                            (Admin.name admin) (Admin.role admin) (Some now))) at 2.
  rewrite admin_save_findById; [reflexivity |].
  cbn [Admin._id]. unfold Admin.findOne_email in Hfind. apply find_some in Hfind.
  apply in_map. exact (proj1 Hfind).
Qed.

(** *** The admin listings *)

Lemma firstn_add_skipn {A : Type} (a b : nat) (l : list A) :
  firstn (a + b) l = firstn a l ++ firstn b (skipn a l).
Proof.
  revert l. induction a as [| a IH]; intros l; [reflexivity |].
  destruct l as [| x l]; [cbn [Nat.add firstn skipn app]; now rewrite firstn_nil |].
  cbn [Nat.add firstn skipn app]. now rewrite IH.
Qed.

(** The first [k] pages of [n] documents each, one after the other, are the
    first [k * n] documents. *)
Lemma pages_concat {A : Type} (n k : nat) (l : list A) :
  concat (map (fun p => firstn n (skipn ((p - 1) * n) l)) (seq 1 k)) = firstn (k * n) l.
Proof.
  induction k as [| k IH]; [reflexivity |].
  rewrite seq_S, map_app, concat_app, IH. cbn [map concat Nat.add].
  rewrite app_nil_r. replace (S k - 1) with k by lia.
  replace (S k * n) with (k * n + n) by lia. now rewrite firstn_add_skipn.
Qed.

(** [Math.ceil(total / limit)] pages are enough, and one page fewer is not. *)
Lemma pages_of_bounds (total limit : nat) :
  0 < limit ->
  total <= pages_of total limit * limit /\
  (0 < total -> (pages_of total limit - 1) * limit < total).
Proof.
  intros Hl. unfold pages_of.
  pose proof (Nat.div_mod_eq (total + limit - 1) limit) as Hdm.
  pose proof (Nat.mod_upper_bound (total + limit - 1) limit ltac:(lia)) as Hmod.
  set (k := (total + limit - 1) / limit) in *.
  set (r := (total + limit - 1) mod limit) in *.
  split; [nia |].
  intros Ht. destruct k as [| k]; [lia |]. replace (S k - 1) with k by lia. nia.
Qed.

Lemma paginate_at_page {A : Type} (q : AdminRoutes.ListQuery) (p : nat) (l : list A) :
  0 < p ->
  paginate (Listing.at_page q (Pos.of_nat p)) l =
  firstn (limit_of q) (skipn ((p - 1) * limit_of q) l).
Proof.
  intros Hp. unfold paginate, page_of, limit_of, Listing.at_page.
  cbn [AdminRoutes.page AdminRoutes.limit]. rewrite Nat2Pos.id by lia. reflexivity.
Qed.

Lemma limit_of_pos (q : AdminRoutes.ListQuery) : 0 < limit_of q.
Proof. unfold limit_of. destruct (AdminRoutes.limit q); lia. Qed.

Lemma paginate_everything {A : Type} (q : AdminRoutes.ListQuery) (n : nat) (l : list A) :
  List.length l <= n -> paginate (Listing.everything q n) l = l.
Proof.
  intros Hn. unfold paginate, page_of, limit_of, Listing.everything.
  cbn [AdminRoutes.page AdminRoutes.limit]. rewrite SuccNat2Pos.id_succ.
  cbn [Pos.to_nat Pos.iter_op Nat.sub Nat.mul skipn]. apply firstn_all2. lia.
Qed.

(** Walking the pages from 1 to the number of pages gives the whole of
    [l], each page holds at most [limit] documents, and a page after the
    last one is empty. *)
Lemma paginate_covers {A : Type} (q : AdminRoutes.ListQuery) (l : list A) :
  concat (map (fun p => paginate (Listing.at_page q (Pos.of_nat p)) l)
              (seq 1 (pages_of (List.length l) (limit_of q)))) = l /\
  (forall p : positive, List.length (paginate (Listing.at_page q p) l) <= limit_of q) /\
  (forall p : positive,
      pages_of (List.length l) (limit_of q) < Pos.to_nat p ->
      paginate (Listing.at_page q p) l = []).
Proof.
  pose proof (limit_of_pos q) as Hl.
  destruct (pages_of_bounds (List.length l) (limit_of q) Hl) as [Hup _].
  repeat split.
  - rewrite (map_ext_in _ (fun p => firstn (limit_of q) (skipn ((p - 1) * limit_of q) l))).
    + rewrite pages_concat. now apply firstn_all2.
    + intros p Hp. apply in_seq in Hp. apply paginate_at_page. lia.
  - intros p. unfold paginate. rewrite length_firstn. 
    change (limit_of (Listing.at_page q p)) with (limit_of q). lia.
  - intros p Hp. unfold paginate.
    change (limit_of (Listing.at_page q p)) with (limit_of q).
    change (page_of (Listing.at_page q p)) with (Pos.to_nat p).
    rewrite skipn_all2; [apply firstn_nil | nia].
Qed.

(** X9. Paging through a listing loses nothing and repeats nothing: for
    any filters and any page size, the pages 1 to [pagination.pages] of the
    registrations listing, one after the other, are exactly the list that
    one page large enough for the whole collection returns, in the same
    order; every page holds at most [limit] documents and reports the same
    [total] and [pages]; a page after the last one is empty. The same holds
    for the contacts listing. *)
Theorem listing_pages_cover_every_match :
  forall (db : Store) (q : AdminRoutes.ListQuery),
    let whole := Listing.everything q (List.length (registrations db)) in
    let pages := Http.pages (Listing.pagination_of (registrations_handler db q)) in
    let page p := registrations_handler db (Listing.at_page q p) in
    let cwhole := Listing.everything q (List.length (contacts db)) in
    let cpages := Http.pages (Listing.pagination_of (contacts_handler db q)) in
    let cpage p := contacts_handler db (Listing.at_page q p) in
    (concat (map (fun n => Listing.registrations_of (page (Pos.of_nat n))) (seq 1 pages)) =
     Listing.registrations_of (registrations_handler db whole) /\
     (forall p : positive,
         List.length (Listing.registrations_of (page p)) <= limit_of q /\
         Http.total (Listing.pagination_of (page p)) =
         List.length (Listing.registrations_of (registrations_handler db whole)) /\
         Http.pages (Listing.pagination_of (page p)) = pages /\
         (pages < Pos.to_nat p -> Listing.registrations_of (page p) = []))) /\
    (concat (map (fun n => Listing.contacts_of (cpage (Pos.of_nat n))) (seq 1 cpages)) =
     Listing.contacts_of (contacts_handler db cwhole) /\
     (forall p : positive,
         List.length (Listing.contacts_of (cpage p)) <= limit_of q /\
         Http.total (Listing.pagination_of (cpage p)) =
         List.length (Listing.contacts_of (contacts_handler db cwhole)) /\
         Http.pages (Listing.pagination_of (cpage p)) = cpages /\
         (cpages < Pos.to_nat p -> Listing.contacts_of (cpage p) = []))).
Proof.
  intros db q. cbv zeta. split.
  - unfold registrations_handler, Listing.registrations_of, Listing.pagination_of, pagination.
    cbn [Http.data Http.pages Http.total Listing.at_page Listing.everything
         AdminRoutes.game AdminRoutes.mode AdminRoutes.status].
    match goal with
    | |- context [paginate (Listing.everything _ _) ?l] => set (matching := l)
    end.
    assert (Hlen : List.length matching <= List.length (registrations db))
      by apply filter_length_le.
    rewrite (paginate_everything q _ matching Hlen).
    destruct (paginate_covers q matching) as (Hcat & Hle & Hout).
    split; [exact Hcat |]. intros p. repeat split; [apply Hle | apply Hout].
  - unfold contacts_handler, Listing.contacts_of, Listing.pagination_of, pagination.
    cbn [Http.data Http.pages Http.total Listing.at_page Listing.everything
         AdminRoutes.game AdminRoutes.mode AdminRoutes.status].
    match goal with
    | |- context [paginate (Listing.everything _ _) ?l] => set (matching := l)
    end.
    assert (Hlen : List.length matching <= List.length (contacts db))
      by apply filter_length_le.
    rewrite (paginate_everything q _ matching Hlen).
    destruct (paginate_covers q matching) as (Hcat & Hle & Hout).
    split; [exact Hcat |]. intros p. repeat split; [apply Hle | apply Hout].
Qed.

(** A filter entry holds of a stored value exactly when the query value,
    if it is one of the allowed ones, is the stored value. *)
Lemma filter_by_iff (allowed : list string) (v stored : option string) :
  ~ In "" allowed ->
  (filter_by allowed v stored = true <->
   forall s : string, v = Some s -> In s allowed -> stored = Some s).
Proof.
  intros Hempty. unfold filter_by. destruct v as [s |].
  - destruct (JS.truthy (Some s)) eqn:Ht; cbn [andb].
    + destruct (JS.includes allowed s) eqn:Hin.
      * rewrite opt_eqb_eq. apply includes_In in Hin. split.
        -- intros -> s' Hs' _. exact Hs'.
        -- intros H. now apply H.
      * split; [| reflexivity]. intros _ s' Hs' Hin'. injection Hs' as <-.
        apply includes_In in Hin'. congruence.
    + split; [| reflexivity]. intros _ s' Hs' Hin'. injection Hs' as <-.
      simpl in Ht. apply negb_false_iff, String.eqb_eq in Ht. now subst.
  - split; [discriminate | reflexivity].
Qed.

(** X10. What the admin listings select. A registration is listed exactly
    when it is in the store and, for each of the filters [game], [mode] and
    [status] whose value is one of the allowed ones, carries that value; a
    filter value outside the allowed ones, or empty, selects nothing and the
    listing is as if the filter were absent. Likewise for the contacts and
    their [status] filter. *)
Theorem listing_selects_by_allowed_filters :
  forall (db : Store) (q : AdminRoutes.ListQuery),
    (forall d : Registration.Doc,
        In d (Listing.registrations_of
                (registrations_handler db
                   (Listing.everything q (List.length (registrations db))))) <->
        In d (registrations db) /\
        (forall v, AdminRoutes.game q = Some v -> In v ["pubg"; "freefire"; "cod"] ->
                   Registration.game (Registration.fields d) = Some v) /\
        (forall v, AdminRoutes.mode q = Some v -> In v ["solo"; "duo"; "squad"] ->
                   Registration.mode (Registration.fields d) = Some v) /\
        (forall v, AdminRoutes.status q = Some v -> In v ["pending"; "approved"; "rejected"] ->
                   Registration.status (Registration.fields d) = Some v)) /\
    (forall c : Contact.Doc,
        In c (Listing.contacts_of
                (contacts_handler db (Listing.everything q (List.length (contacts db))))) <->
        In c (contacts db) /\
        (forall v, AdminRoutes.status q = Some v -> In v ["new"; "read"; "replied"] ->
                   Contact.status (Contact.fields c) = Some v)).
Proof.
  intros db q. split.
  - intros d. unfold registrations_handler, Listing.registrations_of.
    cbn [Http.data Listing.everything AdminRoutes.game AdminRoutes.mode AdminRoutes.status].
    rewrite paginate_everything by apply filter_length_le.
    rewrite filter_In, !andb_true_iff, !filter_by_iff.
    + rewrite and_assoc. reflexivity.
    + simpl. intros [H | [H | [H | []]]]; discriminate.
    + simpl. intros [H | [H | [H | []]]]; discriminate.
    + simpl. intros [H | [H | [H | []]]]; discriminate.
  - intros c. unfold contacts_handler, Listing.contacts_of.
    cbn [Http.data Listing.everything AdminRoutes.game AdminRoutes.mode AdminRoutes.status].
    rewrite paginate_everything by apply filter_length_le.
    rewrite filter_In, filter_by_iff.
    + reflexivity.
    + simpl. intros [H | [H | [H | []]]]; discriminate.
Qed.

(** *** Status updates and deletion *)

Lemma registration_update_result (coll : list Registration.Doc) (id : nat) (s : string) :
  snd (Registration.findByIdAndUpdate coll id s) =
  option_map (Registration.set_status s) (View.registration_by_id coll id).
Proof.
  unfold View.registration_by_id. induction coll as [| d coll IH]; [reflexivity |].
  cbn [Registration.findByIdAndUpdate find].
  destruct (Nat.eqb (Registration._id d) id); [reflexivity |].
  destruct (Registration.findByIdAndUpdate coll id s) as [rest r]. exact IH.
Qed.

Lemma registration_update_miss (coll : list Registration.Doc) (id : nat) (s : string) :
  View.registration_by_id coll id = None ->
  fst (Registration.findByIdAndUpdate coll id s) = coll.
Proof.
  unfold View.registration_by_id. induction coll as [| d coll IH]; [reflexivity |].
  cbn [Registration.findByIdAndUpdate find].
  destruct (Nat.eqb (Registration._id d) id); [discriminate |].
  destruct (Registration.findByIdAndUpdate coll id s) as [rest r].
  cbn [fst] in IH |- *. intros H. now rewrite (IH H).
Qed.

(** An update changes the status of a document and nothing else in the
    collection. *)
Lemma registration_update_but_status (coll : list Registration.Doc) (id : nat) (s : string) :
  map View.but_status (fst (Registration.findByIdAndUpdate coll id s)) =
  map View.but_status coll.
Proof.
  induction coll as [| d coll IH]; [reflexivity |].
  cbn [Registration.findByIdAndUpdate].
  destruct (Nat.eqb (Registration._id d) id); [reflexivity |].
  destruct (Registration.findByIdAndUpdate coll id s) as [rest r].
  cbn [fst map] in IH |- *. now rewrite IH.
Qed.

Lemma registration_update_others (coll : list Registration.Doc) (id : nat) (s : string)
  (d0 : Registration.Doc) :
  In d0 coll -> Registration._id d0 <> id ->
  In d0 (fst (Registration.findByIdAndUpdate coll id s)).
Proof.
  intros Hin Hid. induction coll as [| d coll IH]; [destruct Hin |].
  cbn [Registration.findByIdAndUpdate].
  destruct (Nat.eqb (Registration._id d) id) eqn:E.
  - apply Nat.eqb_eq in E. destruct Hin as [-> | Hin]; [contradiction |]. now right.
  - destruct (Registration.findByIdAndUpdate coll id s) as [rest r]. cbn [fst] in IH |- *.
    destruct Hin as [-> | Hin]; [now left | right; auto].
Qed.

Lemma registration_update_hit (coll : list Registration.Doc) (id : nat) (s : string)
  (d : Registration.Doc) :
  View.registration_by_id coll id = Some d ->
  View.registration_by_id (fst (Registration.findByIdAndUpdate coll id s)) id =
  Some (Registration.set_status s d).
Proof.
  unfold View.registration_by_id. induction coll as [| d0 coll IH]; [discriminate |].
  cbn [Registration.findByIdAndUpdate find].
  destruct (Nat.eqb (Registration._id d0) id) eqn:E.
  - intros H. injection H as <-. cbn [fst find Registration.set_status Registration._id].
    now rewrite E.
  - destruct (Registration.findByIdAndUpdate coll id s) as [rest r]. cbn [fst find] in IH |- *.
    now rewrite E.
Qed.

Lemma registration_set_status_twice (s1 s2 : string) (d : Registration.Doc) :
  Registration.set_status s2 (Registration.set_status s1 d) = Registration.set_status s2 d.
Proof. reflexivity. Qed.

Lemma registration_update_twice (coll : list Registration.Doc) (id : nat) (s1 s2 : string) :
  fst (Registration.findByIdAndUpdate (fst (Registration.findByIdAndUpdate coll id s1)) id s2) =
  fst (Registration.findByIdAndUpdate coll id s2).
Proof.
  induction coll as [| d coll IH]; [reflexivity |].
  cbn [Registration.findByIdAndUpdate].
  destruct (Nat.eqb (Registration._id d) id) eqn:E.
  - cbn [fst Registration.findByIdAndUpdate Registration.set_status Registration._id].
    now rewrite E.
  - destruct (Registration.findByIdAndUpdate coll id s1) as [rest1 r1].
    destruct (Registration.findByIdAndUpdate coll id s2) as [rest2 r2].
    cbn [fst Registration.findByIdAndUpdate] in IH |- *. rewrite E.
    destruct (Registration.findByIdAndUpdate rest1 id s2) as [rest r]. cbn [fst] in IH |- *.
    now rewrite IH.
Qed.

Lemma allowed_status_passes (allowed : list string) (s : string) :
  ~ In "" allowed -> In s allowed ->
  JS.truthy (Some s) && JS.includes allowed s = true.
Proof.
  intros Hempty Hin. apply andb_true_iff. split.
  - apply truthy_Some. intros ->. contradiction.
  - now apply includes_In.
Qed.

Lemma refused_status_fails (allowed : list string) (s : string) :
  ~ In s allowed -> JS.truthy (Some s) && JS.includes allowed s = false.
Proof.
  intros Hin. apply andb_false_iff. right.
  destruct (JS.includes allowed s) eqn:E; [| reflexivity].
  apply includes_In in E. contradiction.
Qed.

(** The PATCH of a registration with an allowed status, in one piece. *)
Lemma patch_registration_allowed (db : Store) (id : nat) (s : string) :
  In s ["pending"; "approved"; "rejected"] ->
  patch_registration_handler db id (Some s) =
  match View.registration_by_id (registrations db) id with
  | Some d =>
      (mkStore (admins db) (contacts db)
               (fst (Registration.findByIdAndUpdate (registrations db) id s)) (next_id db),
       Http.mkResponse 200 true None None
         (Http.RegistrationItem (Registration.set_status s d)))
  | None => (db, Http.fail 404 "Registration not found.")
  end.
Proof.
  intros Hs. unfold patch_registration_handler.
  rewrite allowed_status_passes;
    [| simpl; intros [H | [H | [H | []]]]; discriminate | exact Hs].
  pose proof (registration_update_result (registrations db) id s) as Hr.
  destruct (Registration.findByIdAndUpdate (registrations db) id s) as [coll r].
  cbn [snd fst] in Hr |- *. rewrite Hr.
  destruct (View.registration_by_id (registrations db) id); reflexivity.
Qed.

(** X11. The status of a registration. A PATCH with one of the three
    statuses, on the identifier of a stored registration, answers 200 with
    that registration under its new status, whatever its status was before
    (no transition is refused); in the store that registration now has the
    new status and nothing else differs: no other field, no other document,
    no other collection. On an unknown identifier the answer is 404. A
    second PATCH overrides the first. A status that is missing or not one
    of the three is refused with 400 before any lookup, so also for an
    unknown identifier; 404 and 400 leave the store as it is. *)
Theorem registration_status_update :
  forall (db : Store) (id : nat),
    (forall s : string,
        In s ["pending"; "approved"; "rejected"] ->
        match View.registration_by_id (registrations db) id with
        | Some d =>
            exists db' : Store,
              patch_registration_handler db id (Some s) =
              (db', Http.mkResponse 200 true None None
                      (Http.RegistrationItem (Registration.set_status s d))) /\
              View.registration_by_id (registrations db') id =
              Some (Registration.set_status s d) /\
              map View.but_status (registrations db') = map View.but_status (registrations db) /\
              (forall d0 : Registration.Doc,
                  In d0 (registrations db) -> Registration._id d0 <> id ->
                  In d0 (registrations db')) /\
              admins db' = admins db /\ contacts db' = contacts db /\ next_id db' = next_id db
        | None =>
            patch_registration_handler db id (Some s) =
            (db, Http.fail 404 "Registration not found.")
        end) /\
    (forall s1 s2 : string,
        In s1 ["pending"; "approved"; "rejected"] ->
        In s2 ["pending"; "approved"; "rejected"] ->
        fst (patch_registration_handler (fst (patch_registration_handler db id (Some s1)))
                                        id (Some s2)) =
        fst (patch_registration_handler db id (Some s2))) /\
    (forall status : option string,
        (forall s : string, status = Some s -> ~ In s ["pending"; "approved"; "rejected"]) ->
        patch_registration_handler db id status =
        (db, Http.fail 400 "Status must be: pending, approved, or rejected")).
Proof.
  intros db id. repeat split.
  - intros s Hs. rewrite (patch_registration_allowed db id s Hs).
    destruct (View.registration_by_id (registrations db) id) as [d |] eqn:Hd; [| reflexivity].
    eexists. split; [reflexivity |]. cbn [registrations admins contacts next_id].
    repeat split.
    + now apply registration_update_hit.
    + apply registration_update_but_status.
    + intros d0. apply registration_update_others.
  - intros s1 s2 Hs1 Hs2. rewrite (patch_registration_allowed db id s1 Hs1).
    destruct (View.registration_by_id (registrations db) id) as [d |] eqn:Hd;
      [| reflexivity].
    cbn [fst]. rewrite !(patch_registration_allowed _ id s2 Hs2). cbn [registrations].
    rewrite (registration_update_hit _ id s1 d Hd), Hd.
    cbn [fst admins contacts next_id]. now rewrite registration_update_twice.
  - intros status Hbad. unfold patch_registration_handler.
    destruct status as [s |]; [| reflexivity].
    now rewrite (refused_status_fails _ s (Hbad s eq_refl)).
Qed.

Lemma contact_update_result (coll : list Contact.Doc) (id : nat) (s : string) :
  snd (Contact.findByIdAndUpdate coll id s) =
  option_map (Contact.set_status s) (View.contact_by_id coll id).
Proof.
  unfold View.contact_by_id. induction coll as [| d coll IH]; [reflexivity |].
  cbn [Contact.findByIdAndUpdate find].
  destruct (Nat.eqb (Contact._id d) id); [reflexivity |].
  destruct (Contact.findByIdAndUpdate coll id s) as [rest r]. exact IH.
Qed.

Lemma contact_update_but_status (coll : list Contact.Doc) (id : nat) (s : string) :
  map View.message_but_status (fst (Contact.findByIdAndUpdate coll id s)) =
  map View.message_but_status coll.
Proof.
  induction coll as [| d coll IH]; [reflexivity |].
  cbn [Contact.findByIdAndUpdate].
  destruct (Nat.eqb (Contact._id d) id); [reflexivity |].
  destruct (Contact.findByIdAndUpdate coll id s) as [rest r].
  cbn [fst map] in IH |- *. now rewrite IH.
Qed.

Lemma contact_update_others (coll : list Contact.Doc) (id : nat) (s : string)
  (d0 : Contact.Doc) :
  In d0 coll -> Contact._id d0 <> id ->
  In d0 (fst (Contact.findByIdAndUpdate coll id s)).
Proof.
  intros Hin Hid. induction coll as [| d coll IH]; [destruct Hin |].
  cbn [Contact.findByIdAndUpdate].
  destruct (Nat.eqb (Contact._id d) id) eqn:E.
  - apply Nat.eqb_eq in E. destruct Hin as [-> | Hin]; [contradiction |]. now right.
  - destruct (Contact.findByIdAndUpdate coll id s) as [rest r]. cbn [fst] in IH |- *.
    destruct Hin as [-> | Hin]; [now left | right; auto].
Qed.

Lemma contact_update_hit (coll : list Contact.Doc) (id : nat) (s : string) (d : Contact.Doc) :
  View.contact_by_id coll id = Some d ->
  View.contact_by_id (fst (Contact.findByIdAndUpdate coll id s)) id =
  Some (Contact.set_status s d).
Proof.
  unfold View.contact_by_id. induction coll as [| d0 coll IH]; [discriminate |].
  cbn [Contact.findByIdAndUpdate find].
  destruct (Nat.eqb (Contact._id d0) id) eqn:E.
  - intros H. injection H as <-. cbn [fst find Contact.set_status Contact._id].
    now rewrite E.
  - destruct (Contact.findByIdAndUpdate coll id s) as [rest r]. cbn [fst find] in IH |- *.
    now rewrite E.
Qed.

Lemma patch_contact_allowed (db : Store) (id : nat) (s : string) :
  In s ["new"; "read"; "replied"] ->
  patch_contact_handler db id (Some s) =
  match View.contact_by_id (contacts db) id with
  | Some c =>
      (mkStore (admins db) (fst (Contact.findByIdAndUpdate (contacts db) id s))
               (registrations db) (next_id db),
       Http.mkResponse 200 true None None (Http.ContactItem (Contact.set_status s c)))
  | None => (db, Http.fail 404 "Contact not found.")
  end.
Proof.
  intros Hs. unfold patch_contact_handler.
  rewrite allowed_status_passes;
    [| simpl; intros [H | [H | [H | []]]]; discriminate | exact Hs].
  pose proof (contact_update_result (contacts db) id s) as Hr.
  destruct (Contact.findByIdAndUpdate (contacts db) id s) as [coll r].
  cbn [snd fst] in Hr |- *. rewrite Hr.
  destruct (View.contact_by_id (contacts db) id); reflexivity.
Qed.

(** What a deletion does to the collection: the first document with the
    identifier is taken out and returned, the others stay in order. *)
Lemma contact_delete_split (coll : list Contact.Doc) (id : nat) :
  match View.contact_by_id coll id with
  | Some c =>
      exists before after : list Contact.Doc,
        coll = before ++ c :: after /\
        Contact.findByIdAndDelete coll id = (before ++ after, Some c) /\
        Contact._id c = id /\
        View.contact_by_id before id = None
  | None => Contact.findByIdAndDelete coll id = (coll, None)
  end.
Proof.
  unfold View.contact_by_id. induction coll as [| d coll IH]; [reflexivity |].
  cbn [Contact.findByIdAndDelete find].
  destruct (Nat.eqb (Contact._id d) id) eqn:E.
  - exists [], coll. apply Nat.eqb_eq in E. auto.
  - destruct (find (fun c => Nat.eqb (Contact._id c) id) coll) as [c |].
    + destruct IH as (before & after & -> & -> & Hid & Hnone).
      exists (d :: before), after. cbn [app find]. rewrite E. auto.
    + now rewrite IH.
Qed.

Lemma contact_by_id_absent (coll : list Contact.Doc) (id : nat) :
  ~ In id (map Contact._id coll) -> View.contact_by_id coll id = None.
Proof.
  unfold View.contact_by_id. induction coll as [| d coll IH]; [reflexivity |].
  cbn [map find]. intros H.
  destruct (Nat.eqb (Contact._id d) id) eqn:E.
  - apply Nat.eqb_eq in E. elim H. now left.
  - apply IH. intros Hin. apply H. now right.
Qed.

(** X12. The messages of the contact form under the admin operations. A
    PATCH with one of the statuses new, read, replied on a stored message
    answers 200 with the message under its new status and changes nothing
    else, whatever the status was before; with any other status it is
    refused with 400 before any lookup. A DELETE takes exactly that message
    out of the collection and leaves the others in order; identifiers being
    distinct, a second DELETE of the same identifier answers 404. On an
    unknown identifier both answer 404 and change nothing. Neither touches
    the registrations or the administrators. *)
Theorem contact_status_update_and_delete :
  forall (db : Store) (id : nat),
    (forall s : string,
        In s ["new"; "read"; "replied"] ->
        match View.contact_by_id (contacts db) id with
        | Some c =>
            exists db' : Store,
              patch_contact_handler db id (Some s) =
              (db', Http.mkResponse 200 true None None
                      (Http.ContactItem (Contact.set_status s c))) /\
              View.contact_by_id (contacts db') id = Some (Contact.set_status s c) /\
              map View.message_but_status (contacts db') =
              map View.message_but_status (contacts db) /\
              (forall c0 : Contact.Doc,
                  In c0 (contacts db) -> Contact._id c0 <> id -> In c0 (contacts db')) /\
              admins db' = admins db /\ registrations db' = registrations db /\
              next_id db' = next_id db
        | None =>
            patch_contact_handler db id (Some s) = (db, Http.fail 404 "Contact not found.")
        end) /\
    (forall status : option string,
        (forall s : string, status = Some s -> ~ In s ["new"; "read"; "replied"]) ->
        patch_contact_handler db id status =
        (db, Http.fail 400 "Status must be: new, read, or replied")) /\
    match View.contact_by_id (contacts db) id with
    | Some c =>
        exists before after : list Contact.Doc,
          contacts db = before ++ c :: after /\
          let db' := mkStore (admins db) (before ++ after) (registrations db) (next_id db) in
          delete_contact_handler db id =
          (db', Http.mkResponse 200 true (Some "Contact deleted.") None Http.NoData) /\
          (NoDup (map Contact._id (contacts db)) ->
           delete_contact_handler db' id = (db', Http.fail 404 "Contact not found."))
    | None => delete_contact_handler db id = (db, Http.fail 404 "Contact not found.")
    end.
Proof.
  intros db id. repeat split.
  - intros s Hs. rewrite (patch_contact_allowed db id s Hs).
    destruct (View.contact_by_id (contacts db) id) as [c |] eqn:Hc; [| reflexivity].
    eexists. split; [reflexivity |]. cbn [registrations admins contacts next_id].
    repeat split.
    + now apply contact_update_hit.
    + apply contact_update_but_status.
    + intros c0. apply contact_update_others.
  - intros status Hbad. unfold patch_contact_handler.
    destruct status as [s |]; [| reflexivity].
    now rewrite (refused_status_fails _ s (Hbad s eq_refl)).
  - pose proof (contact_delete_split (contacts db) id) as Hdel.
    destruct (View.contact_by_id (contacts db) id) as [c |].
    + destruct Hdel as (before & after & Hsplit & Hdel & Hid & Hbefore).
      exists before, after. split; [exact Hsplit |]. cbv zeta. split.
      * unfold delete_contact_handler. now rewrite Hdel.
      * intros Hnodup. unfold delete_contact_handler. cbn [contacts].
        pose proof (contact_delete_split (before ++ after) id) as Hagain.
        rewrite contact_by_id_absent in Hagain; [now rewrite Hagain |].
        rewrite Hsplit, map_app in Hnodup. cbn [map] in Hnodup.
        apply NoDup_remove_2 in Hnodup. now rewrite Hid, <- map_app in Hnodup.
    + unfold delete_contact_handler. now rewrite Hdel.
Qed.

(** *** What the requests never change *)

Lemma commit_but_status (db : Store) (i : Registration.Fields) :
  exists newer : list Registration.Doc,
    map View.but_status (registrations (fst (RegisterRoute.commit db i))) =
    newer ++ map View.but_status (registrations db).
Proof.
  destruct (commit_cases db i) as [(d & Hs & ->) | (r & -> & _)].
  - now exists [View.but_status d].
  - now exists [].
Qed.

Lemma interleaved_but_status (seen : list Registration.Doc) (db : Store)
  (body : RegisterRoute.Body) :
  exists newer : list Registration.Doc,
    map View.but_status (registrations (fst (RegisterRoute.interleaved seen db body))) =
    newer ++ map View.but_status (registrations db).
Proof.
  unfold RegisterRoute.interleaved.
  destruct (RegisterRoute.begin seen body); [now exists [] | apply commit_but_status].
Qed.

Lemma admin_handler_but_status (admin : Admin.Doc) (db : Store) (op : AdminRoutes.Operation) :
  map View.but_status (registrations (fst (admin_handler admin db op))) =
  map View.but_status (registrations db).
Proof.
  destruct op as [| | q | id st | id | q | id st]; cbn [admin_handler fst]; try reflexivity.
  - unfold patch_contact_handler. destruct st as [s |]; [| reflexivity].
    destruct (_ && _); [| reflexivity].
    destruct (Contact.findByIdAndUpdate _ _ _) as [coll [c |]]; reflexivity.
  - unfold delete_contact_handler.
    destruct (Contact.findByIdAndDelete _ _) as [coll [c |]]; reflexivity.
  - unfold patch_registration_handler. destruct st as [s |]; [| reflexivity].
    destruct (_ && _); [| reflexivity].
    pose proof (registration_update_but_status (registrations db) id s) as Hupd.
    destruct (Registration.findByIdAndUpdate _ _ _) as [coll [r |]]; [exact Hupd | reflexivity].
Qed.

Lemma step_but_status (db db' : Store) :
  step db db' ->
  exists newer : list Registration.Doc,
    map View.but_status (registrations db') = newer ++ map View.but_status (registrations db).
Proof.
  intros [now d req | seen d body | d i];
    [| apply interleaved_but_status | apply commit_but_status].
  destruct req as [body | body | body | authorization op]; cbn [handle].
  - apply interleaved_but_status.
  - exists []. now rewrite contact_handler_registrations.
  - exists []. now rewrite login_handler_registrations.
  - exists []. unfold admin_route. destruct (protect now d authorization); [reflexivity |].
    apply admin_handler_but_status.
Qed.

(** X13. A registration once stored is never deleted and never edited:
    in every store reached later, by requests of any kind served whole or
    interleaved, the registrations of the earlier store are all there, in
    the same order behind the newer ones, and each is as it was in every
    field but its status. *)
Theorem stored_registrations_change_in_status_only :
  forall db0 db : Store,
    reachable db0 db ->
    (exists newer : list Registration.Doc,
        map View.but_status (registrations db) =
        newer ++ map View.but_status (registrations db0)) /\
    (forall d : Registration.Doc,
        In d (registrations db0) ->
        exists d' : Registration.Doc,
          In d' (registrations db) /\ View.but_status d' = View.but_status d).
Proof.
  intros db0 db Hreach.
  assert (Hsuffix : exists newer : list Registration.Doc,
             map View.but_status (registrations db) =
             newer ++ map View.but_status (registrations db0)).
  { induction Hreach as [| db db' _ [newer IH] Hstep]; [now exists [] |].
    destruct (step_but_status db db' Hstep) as [newer' Hstep'].
    exists (newer' ++ newer). now rewrite Hstep', IH, app_assoc. }
  split; [exact Hsuffix |].
  destruct Hsuffix as [newer Heq]. intros d Hd.
  assert (Hin : In (View.but_status d) (map View.but_status (registrations db))).
  { rewrite Heq. apply in_or_app. right. now apply in_map. }
  apply in_map_iff in Hin. destruct Hin as (d' & Hd' & Hin). now exists d'.
Qed.

(** Saving a loaded administrator replaces the stored document of the same
    identifier. *)
Lemma admin_save_account (coll : list Admin.Doc) (p : Admin.Doc -> bool) (a a' : Admin.Doc) :
  NoDup (map Admin._id coll) ->
  find p coll = Some a ->
  Admin._id a' = Admin._id a ->
  View.account a' = View.account a ->
  map View.account (Admin.save coll a') = map View.account coll.
Proof.
  intros Hnodup Hfind Hid Hacc. induction coll as [| d coll IH]; [reflexivity |].
  cbn [map] in Hnodup. apply NoDup_cons_iff in Hnodup. destruct Hnodup as [Hfresh Hnodup].
  cbn [find] in Hfind. cbn [Admin.save]. destruct (p d).
  - injection Hfind as <-. rewrite Hid, Nat.eqb_refl. cbn [map]. now rewrite Hacc.
  - destruct (Nat.eqb (Admin._id d) (Admin._id a')) eqn:E.
    + apply Nat.eqb_eq in E. elim Hfresh. rewrite E, Hid.
      apply in_map. now apply find_some in Hfind.
    + cbn [map]. now rewrite (IH Hnodup Hfind).
Qed.

Lemma login_handler_accounts (now : Z) (db : Store) (body : AdminRoutes.LoginBody) :
  NoDup (map Admin._id (admins db)) ->
  map View.account (admins (fst (login_handler now db body))) = map View.account (admins db).
Proof.
  intros Hnodup. unfold login_handler. destruct (login_validation_errors body); [| reflexivity].
  unfold Admin.findOne_email.
  destruct (fst (Validator.run login_email_chain (AdminRoutes.email body))) as [e |];
    [| reflexivity].
  destruct (find _ (admins db)) as [admin |] eqn:Hfind; [| reflexivity].
  destruct (negb _); [reflexivity |].
  assert (Hsave : map View.account
                    (Admin.save (admins db)
                       (Admin.mkDoc (Admin._id admin) (Admin.email admin) (Admin.password admin)
                                    (Admin.name admin) (Admin.role admin) (Some now))) =
                  map View.account (admins db)).
  { now apply (admin_save_account _ _ admin _ Hnodup Hfind). }
  destruct (generateToken _ _); exact Hsave.
Qed.

Lemma admin_handler_admins (admin : Admin.Doc) (db : Store) (op : AdminRoutes.Operation) :
  admins (fst (admin_handler admin db op)) = admins db.
Proof.
  destruct op as [| | q | id st | id | q | id st]; cbn [admin_handler fst]; try reflexivity.
  - unfold patch_contact_handler. destruct st as [s |]; [| reflexivity].
    destruct (_ && _); [| reflexivity].
    destruct (Contact.findByIdAndUpdate _ _ _) as [coll [c |]]; reflexivity.
  - unfold delete_contact_handler.
    destruct (Contact.findByIdAndDelete _ _) as [coll [c |]]; reflexivity.
  - unfold patch_registration_handler. destruct st as [s |]; [| reflexivity].
    destruct (_ && _); [| reflexivity].
    destruct (Registration.findByIdAndUpdate _ _ _) as [coll [r |]]; reflexivity.
Qed.

Lemma commit_admins (db : Store) (i : Registration.Fields) :
  admins (fst (RegisterRoute.commit db i)) = admins db /\
  contacts (fst (RegisterRoute.commit db i)) = contacts db.
Proof.
  destruct (commit_cases db i) as [(d & Hs & ->) | (r & -> & _)]; split; reflexivity.
Qed.

Lemma interleaved_admins (seen : list Registration.Doc) (db : Store) (body : RegisterRoute.Body) :
  admins (fst (RegisterRoute.interleaved seen db body)) = admins db /\
  contacts (fst (RegisterRoute.interleaved seen db body)) = contacts db.
Proof.
  unfold RegisterRoute.interleaved.
  destruct (RegisterRoute.begin seen body); [split; reflexivity | apply commit_admins].
Qed.

Lemma contact_handler_admins (db : Store) (body : ContactRoute.Body) :
  admins (fst (contact_handler db body)) = admins db.
Proof.
  unfold contact_handler. destruct (contact_validation_errors body); [| reflexivity].
  destruct (Contact.save _ _ _) as [[coll c] | e]; reflexivity.
Qed.

Lemma step_accounts (db db' : Store) :
  step db db' ->
  NoDup (map Admin._id (admins db)) ->
  map View.account (admins db') = map View.account (admins db).
Proof.
  intros [now d req | seen d body | d i] Hnodup.
  - destruct req as [body | body | body | authorization op]; cbn [handle].
    + unfold RegisterRoute.handler. now rewrite (proj1 (interleaved_admins _ _ _)).
    + now rewrite contact_handler_admins.
    + now apply login_handler_accounts.
    + unfold admin_route. destruct (protect now d authorization); [reflexivity |].
      now rewrite admin_handler_admins.
  - now rewrite (proj1 (interleaved_admins _ _ _)).
  - now rewrite (proj1 (commit_admins _ _)).
Qed.

Lemma account_id (a : Admin.Doc) : Admin._id (View.account a) = Admin._id a.
Proof. reflexivity. Qed.

(** X14. No request creates, removes or alters an administrator account.
    In every store reached by requests of any kind, the administrators are
    the same as at the start, in the same order, with the same identifier,
    address, password hash, name and role; the time of the last login is
    the only thing a request can change. Identifiers are distinct, as the
    database has them. *)
Theorem administrator_accounts_are_fixed :
  forall db0 db : Store,
    reachable db0 db ->
    NoDup (map Admin._id (admins db0)) ->
    map View.account (admins db) = map View.account (admins db0).
Proof.
  intros db0 db Hreach Hnodup.
  induction Hreach as [| db db' _ IH Hstep]; [reflexivity |].
  rewrite <- IH. apply step_accounts; [exact Hstep |].
  rewrite <- (map_ext _ _ account_id), <- map_map, IH, map_map.
  now rewrite (map_ext _ _ account_id).
Qed.

(** X15. The unique index at work: in every store reached from one whose
    registrations carry distinct transaction identifiers, by requests
    served whole or interleaved at their awaits and by saves of any object,
    no two registrations share a transaction identifier, and an identifier
    once stored is still stored. *)
Theorem transaction_identifiers_stay_unique :
  forall db0 db : Store,
    reachable db0 db ->
    NoDup (Registration.transactionIds (registrations db0)) ->
    NoDup (Registration.transactionIds (registrations db)) /\
    (forall tid : option string,
        In tid (Registration.transactionIds (registrations db0)) ->
        In tid (Registration.transactionIds (registrations db))).
Proof.
  intros db0 db Hreach Hnodup.
  destruct (transactionIds_kept_and_unique db0 db Hreach) as [Hkept Huniq].
  split; [now apply Huniq |].
  intros tid Hin. apply has_transactionId_In, Hkept, has_transactionId_In, Hin.
Qed.

(** *** Stored registrations stay valid; the statistics add up *)


Lemma set_status_schema_valid (s : string) (d : Registration.Doc) :
  In s ["pending"; "approved"; "rejected"] ->
  View.schema_valid d -> View.schema_valid (Registration.set_status s d).
Proof.
  intros Hs [Hv _]. split; [| discriminate].
  unfold Registration.validate in Hv |- *.
  cbn [Registration.set_status Registration.fields Registration.game Registration.mode
       Registration.teamName Registration.players Registration.transactionId
       Registration.entryFee Registration.status].
  repeat (apply app_eq_nil in Hv; destruct Hv as [?H Hv]).
  repeat match goal with
         | [ E : ?x = [] |- ?x ++ _ = [] ] => rewrite E; cbn [app]
         end.
  unfold Schema.enum. now rewrite (proj2 (includes_In _ _) Hs).
Qed.

Lemma save_schema_valid (coll coll' : list Registration.Doc) (fresh : nat)
  (i : Registration.Fields) (d : Registration.Doc) :
  Registration.save coll fresh i = JS.Ok (coll', d) -> View.schema_valid d.
Proof.
  intros Hs. apply save_Ok_inv in Hs. destruct Hs as (-> & _ & Hv & _).
  split; [exact Hv |]. cbn [Registration.fields Registration.cast Registration.status].
  destruct (Registration.status i); discriminate.
Qed.

Lemma findByIdAndUpdate_schema_valid (coll : list Registration.Doc) (id : nat) (s : string) :
  In s ["pending"; "approved"; "rejected"] ->
  Forall View.schema_valid coll ->
  Forall View.schema_valid (fst (Registration.findByIdAndUpdate coll id s)).
Proof.
  intros Hs. induction 1 as [| d coll Hd Hcoll IH]; cbn [Registration.findByIdAndUpdate fst];
    [constructor |].
  destruct (Nat.eqb (Registration._id d) id).
  - cbn [fst]. constructor; [now apply set_status_schema_valid | assumption].
  - destruct (Registration.findByIdAndUpdate coll id s) as [rest r]. cbn [fst] in IH |- *.
    now constructor.
Qed.

Lemma commit_schema_valid (db : Store) (i : Registration.Fields) :
  Forall View.schema_valid (registrations db) ->
  Forall View.schema_valid (registrations (fst (RegisterRoute.commit db i))).
Proof.
  intros Hinv. destruct (commit_cases db i) as [(d & Hs & ->) | (r & -> & _)]; [| exact Hinv].
  cbn [fst registrations]. constructor; [| exact Hinv].
  exact (save_schema_valid _ _ _ _ _ Hs).
Qed.

Lemma interleaved_schema_valid (seen : list Registration.Doc) (db : Store)
  (body : RegisterRoute.Body) :
  Forall View.schema_valid (registrations db) ->
  Forall View.schema_valid (registrations (fst (RegisterRoute.interleaved seen db body))).
Proof.
  intros Hinv. unfold RegisterRoute.interleaved.
  destruct (RegisterRoute.begin seen body); [exact Hinv | now apply commit_schema_valid].
Qed.

Lemma admin_handler_schema_valid (admin : Admin.Doc) (db : Store) (op : AdminRoutes.Operation) :
  Forall View.schema_valid (registrations db) ->
  Forall View.schema_valid (registrations (fst (admin_handler admin db op))).
Proof.
  intros Hinv. destruct op as [| | q | id st | id | q | id st]; cbn [admin_handler fst];
    try exact Hinv.
  - unfold patch_contact_handler. destruct st as [s |]; [| exact Hinv].
    destruct (_ && _); [| exact Hinv].
    destruct (Contact.findByIdAndUpdate _ _ _) as [coll [c |]]; exact Hinv.
  - unfold delete_contact_handler.
    destruct (Contact.findByIdAndDelete _ _) as [coll [c |]]; exact Hinv.
  - unfold patch_registration_handler. destruct st as [s |]; [| exact Hinv].
    destruct (JS.truthy (Some s) && JS.includes _ s) eqn:E; [| exact Hinv].
    apply andb_true_iff in E. destruct E as [_ E]. apply includes_In in E.
    pose proof (findByIdAndUpdate_schema_valid (registrations db) id s E Hinv) as Hupd.
    destruct (Registration.findByIdAndUpdate _ _ _) as [coll [r |]]; [exact Hupd | exact Hinv].
Qed.

Lemma step_schema_valid (db db' : Store) :
  step db db' ->
  Forall View.schema_valid (registrations db) ->
  Forall View.schema_valid (registrations db').
Proof.
  intros [now d req | seen d body | d i] Hinv;
    [| now apply interleaved_schema_valid | now apply commit_schema_valid].
  destruct req as [body | body | body | authorization op]; cbn [handle].
  - now apply interleaved_schema_valid.
  - now rewrite contact_handler_registrations.
  - now rewrite login_handler_registrations.
  - unfold admin_route. destruct (protect now d authorization); [exact Hinv |].
    now apply admin_handler_schema_valid.
Qed.

(** X16. Status updates are written by [findByIdAndUpdate], which runs no
    save hook; all the same, in every store reached by requests of any
    kind and by saves of any object, every registration is one that the
    validators of the schema accept as it stands: game, mode and status
    among the allowed values, one to five players within their length
    limits, a transaction identifier, a fee of at least 5. *)
Theorem stored_registrations_stay_schema_valid :
  forall db0 db : Store,
    reachable db0 db ->
    Forall View.schema_valid (registrations db0) ->
    Forall View.schema_valid (registrations db).
Proof.
  intros db0 db Hreach Hinv.
  induction Hreach as [| db db' _ IH Hstep]; [exact Hinv |].
  now apply (step_schema_valid db db' Hstep).
Qed.





(** *** The sanitizer of request bodies *)

(** Induction on a body, with the property at hand for every item of an
    array and every member of an object. *)
Lemma Value_nested_ind (P : Json.Value -> Prop) :
  P Json.JNull ->
  (forall b, P (Json.JBool b)) ->
  (forall n, P (Json.JNumber n)) ->
  (forall s, P (Json.JString s)) ->
  (forall items, Forall P items -> P (Json.JArray items)) ->
  (forall members, Forall (fun kv => P (snd kv)) members -> P (Json.JObject members)) ->
  forall v, P v.
Proof.
  intros HN HB HZ HS HA HO. fix IH 1. intros [| b | n | s | items | members].
  - exact HN.
  - apply HB.
  - apply HZ.
  - apply HS.
  - apply HA.
    exact ((fix all (l : list Json.Value) : Forall P l :=
              match l with
              | [] => Forall_nil P
              | x :: xs => Forall_cons x (IH x) (all xs)
              end) items).
  - apply HO.
    exact ((fix all (l : list (string * Json.Value)) : Forall (fun kv => P (snd kv)) l :=
              match l with
              | [] => Forall_nil _
              | kv :: xs => Forall_cons kv (IH (snd kv)) (all xs)
              end) members).
Qed.

(** The keys that are left are no operators. *)
Lemma sanitized_keys (body : Json.Value) :
  forallb Json.not_operator (Json.keys (Json.sanitizeObject body)) = true.
Proof.
  induction body as [| b | n | s | items IH | members IH] using Value_nested_ind;
    try reflexivity.
  - cbn [Json.sanitizeObject Json.keys].
    induction IH as [| x xs Hx _ IHxs]; [reflexivity |].
    cbn [map flat_map]. rewrite forallb_app, Hx. exact IHxs.
  - cbn [Json.sanitizeObject Json.keys].
    induction IH as [| [key x] ms Hx _ IHms]; [reflexivity |].
    cbn [snd] in Hx.
    destruct (JS.startsWith key "$") eqn:Hkey; [exact IHms |].
    cbn [forallb]. unfold Json.not_operator at 1. rewrite Hkey. cbn [negb andb].
    rewrite forallb_app, Hx. exact IHms.
Qed.

(** X18. Whatever the body, once sanitized no object inside it, at any
    depth and also inside arrays, has a key that starts with a dollar
    sign. *)
Theorem sanitizeObject_leaves_no_operator_key :
  forall (body : Json.Value) (key : string),
    In key (Json.keys (Json.sanitizeObject body)) -> JS.startsWith key "$" = false.
Proof.
  intros body key Hin. pose proof (sanitized_keys body) as Hall.
  rewrite forallb_forall in Hall. apply Hall in Hin.
  unfold Json.not_operator in Hin. now apply negb_true_iff in Hin.
Qed.

(** X19. A body in which no key starts with a dollar sign is returned
    exactly as it came, and sanitizing a second time changes nothing. *)
Theorem sanitizeObject_keeps_clean_bodies :
  (forall body : Json.Value,
      forallb Json.not_operator (Json.keys body) = true -> Json.sanitizeObject body = body) /\
  (forall body : Json.Value,
      Json.sanitizeObject (Json.sanitizeObject body) = Json.sanitizeObject body).
Proof.
  assert (Hclean : forall body : Json.Value,
             forallb Json.not_operator (Json.keys body) = true -> Json.sanitizeObject body = body).
  { induction body as [| b | n | s | items IH | members IH] using Value_nested_ind;
      try reflexivity.
    - cbn [Json.sanitizeObject Json.keys]. intros Hk. f_equal.
      induction IH as [| x xs Hx _ IHxs]; [reflexivity |].
      cbn [map flat_map] in Hk |- *. rewrite forallb_app in Hk.
      apply andb_true_iff in Hk. destruct Hk as [Hk1 Hk2].
      now rewrite (Hx Hk1), (IHxs Hk2).
    - cbn [Json.sanitizeObject Json.keys]. intros Hk. f_equal.
      induction IH as [| [key x] ms Hx _ IHms]; [reflexivity |].
      cbn [snd] in Hx. cbn [forallb] in Hk.
      apply andb_true_iff in Hk. destruct Hk as [Hkey Hk].
      rewrite forallb_app in Hk. apply andb_true_iff in Hk. destruct Hk as [Hk1 Hk2].
      unfold Json.not_operator in Hkey. apply negb_true_iff in Hkey. rewrite Hkey.
      now rewrite (Hx Hk1), (IHms Hk2). }
  split; [exact Hclean |].
  intros body. apply Hclean. apply sanitized_keys.
Qed.

(** *** The browser side against the server *)

Lemma lower_ascii_classes (c : ascii) :
  JS.is_space (JS.lower_ascii c) = JS.is_space c /\
  Ascii.eqb (JS.lower_ascii c) "@"%char = Ascii.eqb c "@"%char /\
  Ascii.eqb (JS.lower_ascii c) "."%char = Ascii.eqb c "."%char.
Proof.
  destruct c as [[] [] [] [] [] [] [] []]; repeat split; reflexivity.
Qed.

Lemma toLowerCase_empty (s : string) :
  String.eqb (JS.toLowerCase s) "" = String.eqb s "".
Proof. destruct s; reflexivity. Qed.

Lemma toLowerCase_no_space (s : string) :
  Contact.no_space (JS.toLowerCase s) = Contact.no_space s.
Proof.
  unfold Contact.no_space. induction s as [| c s IH]; [reflexivity |].
  cbn [JS.toLowerCase list_ascii_of_string forallb].
  destruct (lower_ascii_classes c) as (-> & _). now rewrite IH.
Qed.

Lemma toLowerCase_dot_then_more (s : string) :
  Contact.dot_then_more (JS.toLowerCase s) = Contact.dot_then_more s.
Proof.
  induction s as [| c s IH]; [reflexivity |].
  cbn [JS.toLowerCase Contact.dot_then_more].
  destruct (lower_ascii_classes c) as (_ & _ & ->). now rewrite toLowerCase_empty, IH.
Qed.

Lemma toLowerCase_at_then_domain (s : string) :
  Contact.at_then_domain (JS.toLowerCase s) = Contact.at_then_domain s.
Proof.
  induction s as [| c s IH]; [reflexivity |].
  cbn [JS.toLowerCase Contact.at_then_domain].
  destruct (lower_ascii_classes c) as (_ & -> & _). rewrite IH.
  destruct s as [| d s']; [reflexivity |].
  cbn [JS.toLowerCase]. now rewrite toLowerCase_dot_then_more.
Qed.

(** Lower-casing an address does not change whether it has the shape that
    the schema asks for. *)
Lemma toLowerCase_email_shape (s : string) :
  Contact.email_shape (JS.toLowerCase s) = Contact.email_shape s.
Proof.
  unfold Contact.email_shape. rewrite toLowerCase_no_space.
  destruct s as [| c s]; [reflexivity |].
  cbn [JS.toLowerCase]. now rewrite toLowerCase_at_then_domain.
Qed.

Lemma rtrim_no_space (s : string) : Contact.no_space s = true -> JS.rtrim s = s.
Proof.
  unfold Contact.no_space. induction s as [| c s IH]; [reflexivity |].
  cbn [list_ascii_of_string forallb]. intros H.
  apply andb_true_iff in H. destruct H as [Hc Hs]. apply negb_true_iff in Hc.
  rewrite (rtrim_cons_nonspace c s Hc). now rewrite (IH Hs).
Qed.

(** A string without blanks is its own trimmed form. *)
Lemma trim_no_space (s : string) : Contact.no_space s = true -> JS.trim s = s.
Proof.
  intros H. unfold JS.trim.
  assert (Hl : JS.ltrim s = s).
  { destruct s as [| c s]; [reflexivity |].
    unfold Contact.no_space in H. cbn [list_ascii_of_string forallb] in H.
    apply andb_true_iff in H. destruct H as [Hc _]. apply negb_true_iff in Hc.
    cbn [JS.ltrim]. now rewrite Hc. }
  rewrite Hl. now apply rtrim_no_space.
Qed.

Lemma not_space_or_at_no_space (c : ascii) :
  Browser.not_space_or_at c = true -> negb (JS.is_space c) = true.
Proof. unfold Browser.not_space_or_at. intros H. now apply andb_true_iff in H. Qed.

Lemma dot_is_no_space (c : ascii) : Ascii.eqb c "."%char = true -> negb (JS.is_space c) = true.
Proof. intros H. apply Ascii.eqb_eq in H. now subst. Qed.

Lemma at_is_no_space (c : ascii) : Ascii.eqb c "@"%char = true -> negb (JS.is_space c) = true.
Proof. intros H. apply Ascii.eqb_eq in H. now subst. Qed.

Lemma email_last_part_no_space (s : string) :
  Browser.email_last_part s = true -> Contact.no_space s = true /\ s <> "".
Proof.
  unfold Browser.email_last_part, Browser.all_of, Contact.no_space. intros H.
  apply andb_true_iff in H. destruct H as [Hne Hall]. split.
  - rewrite forallb_forall in Hall |- *. intros c Hc.
    now apply not_space_or_at_no_space, Hall.
  - intros ->. discriminate.
Qed.

Lemma email_upto_dot_shape (s : string) :
  Browser.email_upto_dot s = true ->
  Contact.no_space s = true /\ Contact.dot_then_more s = true.
Proof.
  induction s as [| c s IH]; [discriminate |].
  cbn [Browser.email_upto_dot Contact.dot_then_more]. unfold Contact.no_space.
  cbn [list_ascii_of_string forallb]. intros H.
  apply orb_true_iff in H. destruct H as [H | H]; apply andb_true_iff in H; destruct H as [Hc Hs].
  - destruct (email_last_part_no_space s Hs) as [Hns Hne].
    rewrite (dot_is_no_space c Hc), Hc. unfold Contact.no_space in Hns. rewrite Hns.
    apply String.eqb_neq in Hne. rewrite Hne. split; reflexivity.
  - destruct (IH Hs) as [Hns Hdot].
    rewrite (not_space_or_at_no_space c Hc). unfold Contact.no_space in Hns. rewrite Hns, Hdot.
    split; [reflexivity | apply orb_true_r].
Qed.

Lemma email_upto_at_shape (s : string) :
  Browser.email_upto_at s = true ->
  Contact.no_space s = true /\ Contact.at_then_domain s = true.
Proof.
  induction s as [| c s IH]; [discriminate |].
  cbn [Browser.email_upto_at Contact.at_then_domain]. unfold Contact.no_space.
  cbn [list_ascii_of_string forallb]. intros H.
  apply orb_true_iff in H. destruct H as [H | H]; apply andb_true_iff in H; destruct H as [Hc Hs].
  - destruct s as [| d s']; [discriminate |].
    apply andb_true_iff in Hs. destruct Hs as [Hd Hs'].
    destruct (email_upto_dot_shape s' Hs') as [Hns Hdot].
    rewrite (at_is_no_space c Hc), Hc, Hdot. cbn [list_ascii_of_string forallb].
    rewrite (not_space_or_at_no_space d Hd). unfold Contact.no_space in Hns. rewrite Hns.
    split; reflexivity.
  - destruct (IH Hs) as [Hns Hat].
    rewrite (not_space_or_at_no_space c Hc). unfold Contact.no_space in Hns. rewrite Hns, Hat.
    split; [reflexivity | apply orb_true_r].
Qed.

Lemma isValidEmail_shape (email : string) :
  Browser.isValidEmail email = true ->
  Contact.no_space email = true /\ Contact.email_shape email = true.
Proof.
  destruct email as [| c s]; [discriminate |].
  unfold Browser.isValidEmail, Contact.email_shape, Contact.no_space.
  cbn [list_ascii_of_string forallb]. intros H.
  apply andb_true_iff in H. destruct H as [Hc Hs].
  destruct (email_upto_at_shape s Hs) as [Hns Hat].
  rewrite (not_space_or_at_no_space c Hc). unfold Contact.no_space in Hns. rewrite Hns, Hat.
  split; reflexivity.
Qed.

(** X20. An address that the check of the browser accepts has the shape
    that the contact schema asks for: after the setters of the [email] path
    (trim, lower case) it matches the schema's pattern, so [save()] does not
    reject the document for its address, and the setters change nothing but
    the case of its letters. *)
Theorem address_valid_in_browser_matches_schema :
  forall email : string,
    Browser.isValidEmail email = true ->
    Contact.email_shape (JS.toLowerCase (JS.trim email)) = true /\
    JS.toLowerCase (JS.trim email) = JS.toLowerCase email.
Proof.
  intros email H. destruct (isValidEmail_shape email H) as [Hns Hshape].
  rewrite (trim_no_space email Hns), toLowerCase_email_shape. auto.
Qed.

Lemma modeConfig_keys (mode : string) (info : Browser.ModeInfo) :
  JS.index Browser.modeConfig mode = Some info ->
  exists m : Policy.Mode,
    mode = Policy.mode_name m /\
    Browser.players info = Policy.requiredPlayerCountFor m /\
    Browser.feeNum info = Policy.entryFeeFor m /\
    Browser.showTeam info = Policy.teamNameRequired m.
Proof.
  unfold Browser.modeConfig. cbn [JS.index]. intros H.
  destruct (String.eqb "solo" mode) eqn:E1.
  { apply String.eqb_eq in E1. subst mode. injection H as <-. now exists Policy.solo. }
  destruct (String.eqb "duo" mode) eqn:E2.
  { apply String.eqb_eq in E2. subst mode. injection H as <-. now exists Policy.duo. }
  destruct (String.eqb "squad" mode) eqn:E3; [| discriminate].
  apply String.eqb_eq in E3. subst mode. injection H as <-. now exists Policy.squad.
Qed.

(** The page opened for the mode parameter [s] shows the sections of a
    mode. When [s], trimmed as the route trims it, is the mode [m] and the
    roster built by the page is long enough for [m], the page shows the
    sections of [m] itself. *)
Lemma modeInfo_of_accepted (s : string) (m : Policy.Mode) :
  JS.trim s = Policy.mode_name m ->
  Policy.requiredPlayerCountFor m <= Browser.player_sections (Browser.modeInfo s) ->
  exists info : Browser.ModeInfo,
    Browser.modeInfo s = Some info /\
    Browser.players info = Browser.player_sections (Browser.modeInfo s) /\
    Browser.feeNum info = Policy.entryFeeFor m.
Proof.
  intros Htrim Hlen. unfold Browser.modeInfo in Hlen |- *.
  destruct (JS.index Browser.modeConfig s) as [info |] eqn:Hidx.
  - exists info. repeat split.
    destruct (modeConfig_keys s info Hidx) as (m' & -> & _ & Hfee & _).
    assert (m' = m); [| now subst].
    destruct m', m; try reflexivity; vm_compute in Htrim; discriminate.
  - destruct (JS.includes Browser.Object_prototype s).
    + cbn [Browser.player_sections] in Hlen. destruct m; simpl in Hlen; lia.
    + cbn [JS.index Browser.modeConfig String.eqb Ascii.eqb Bool.eqb Browser.player_sections
           Browser.players] in Hlen |- *.
      eexists. repeat split.
      destruct m; simpl in Hlen; try lia. reflexivity.
Qed.

(** X21. The registration page and the route agree. Every mode of the
    page's table is a mode of the route's tables, with the same fee, the
    same number of players and a team name asked for in the same modes.
    And whenever the route answers 201 to the data that the page posts,
    whatever the URL parameters and the content of the form, the fee and
    the number of players in the response are the ones the page
    displayed. *)
Theorem registration_page_agrees_with_route :
  (forall (mode : string) (info : Browser.ModeInfo),
      JS.index Browser.modeConfig mode = Some info ->
      JS.index RegisterRoute.FEE_TABLE mode = Some (Browser.feeNum info) /\
      JS.index RegisterRoute.PLAYER_COUNT mode = Some (Browser.players info) /\
      JS.index Registration.expectedPlayers mode = Some (Browser.players info) /\
      Registration.is_team_mode (Some mode) = Browser.showTeam info) /\
  (forall (game mode : option string) (form : Browser.Form) (body : RegisterRoute.Body)
          (seen : list Registration.Doc) (db db' : Store) (r : Http.Response),
      Browser.registration_data game mode form = Some body ->
      RegisterRoute.interleaved seen db body = (db', r) ->
      Http.code r = 201 ->
      exists (info : Browser.ModeInfo) (echo : Http.Registered),
        Browser.modeInfo (Browser.param mode "solo") = Some info /\
        Http.data r = Http.RegisteredData echo /\
        Http.entryFee echo = Some (Browser.feeNum info) /\
        Http.playerCount echo = Browser.players info).
Proof.
  split.
  - intros mode info H.
    destruct (modeConfig_keys mode info H) as (m & -> & -> & -> & ->).
    rewrite FEE_TABLE_policy, PLAYER_COUNT_policy, expectedPlayers_policy, is_team_mode_policy.
    auto.
  - intros game mode form body seen db db' r Hdata Hrun Hcode.
    unfold Browser.registration_data in Hdata.
    destruct (form "transactionId") as [t |]; [| discriminate]. injection Hdata as <-.
    unfold RegisterRoute.interleaved in Hrun.
    match type of Hrun with
    | context [RegisterRoute.begin seen ?b] => set (body := b) in *
    end.
    destruct (RegisterRoute.begin seen body) as [r0 | i] eqn:Hb.
    + injection Hrun as <- <-. apply begin_inl_code in Hb. lia.
    + destruct (commit_cases db i) as [(d & Hs & Hc) | (r0 & Hc & Hr0)].
      2:{ rewrite Hc in Hrun. injection Hrun as <- <-. lia. }
      rewrite Hc in Hrun. injection Hrun as <- <-.
      apply begin_inr_inv in Hb. cbv zeta in Hb. destruct Hb as (Hv & _ & Hlt & _ & Hi).
      apply validation_errors_nil in Hv. destruct Hv as (_ & Hm & _).
      destruct (mode_chain_ok _ Hm) as (m & s & Hs0 & Htrim & Hfst).
      assert (Hmode : RegisterRoute.mode (RegisterRoute.sanitize body) = Some (Policy.mode_name m))
        by exact Hfst.
      rewrite Hmode in Hlt, Hi. rewrite PLAYER_COUNT_policy in Hlt.
      rewrite FEE_TABLE_policy in Hi.
      assert (Hroster : List.length (RegisterRoute.roster (RegisterRoute.sanitize body)) =
                        Browser.player_sections (Browser.modeInfo (Browser.param mode "solo"))).
      { rewrite roster_sanitize_length. unfold body, RegisterRoute.roster.
        cbn [RegisterRoute.players]. now rewrite length_map, length_seq. }
      unfold JS.lt_undef in Hlt. apply Nat.ltb_ge in Hlt. rewrite Hroster in Hlt.
      assert (Hs1 : s = Browser.param mode "solo").
      { unfold body in Hs0. cbn [RegisterRoute.mode] in Hs0. congruence. }
      subst s.
      destruct (modeInfo_of_accepted _ m Htrim Hlt) as (info & Hinfo & Hplayers & Hfee).
      exists info. eexists. split; [exact Hinfo |]. split; [reflexivity |].
      cbn [Http.entryFee Http.playerCount]. rewrite Hi.
      cbn [Registration.entryFee Registration.players]. rewrite Hfee, Hplayers.
      split; [reflexivity | exact Hroster].
Qed.


(** *** The seed script *)

Lemma ADMIN_EMAIL_cast : JS.toLowerCase (JS.trim Seed.ADMIN_EMAIL) = Seed.ADMIN_EMAIL.
Proof. reflexivity. Qed.

(** On a store without the address of the script, the script creates the
    administrator. *)
Lemma seedAdmin_creates (hash : string -> string) (db : Store) :
  Admin.findOne_email (admins db) (Some Seed.ADMIN_EMAIL) = None ->
  Seed.seedAdmin hash db =
  (mkStore
     (Admin.mkDoc (next_id db) Seed.ADMIN_EMAIL (hash Seed.ADMIN_PASSWORD) Seed.ADMIN_NAME
                  "superadmin" None :: admins db)
     (contacts db) (registrations db) (S (next_id db)), 0).
Proof.
  intros Hnone. unfold Seed.seedAdmin. rewrite Hnone.
  unfold Admin.create. cbn [option_map]. rewrite ADMIN_EMAIL_cast.
  replace (Admin.validate (Some Seed.ADMIN_EMAIL) (Some Seed.ADMIN_PASSWORD)
             (Some (JS.trim Seed.ADMIN_NAME)) (Some "superadmin")) with (@nil string)
    by reflexivity.
  cbn [Validator.toString].
  unfold Admin.findOne_email in Hnone. rewrite ADMIN_EMAIL_cast in Hnone.
  apply find_existsb in Hnone. rewrite Hnone. reflexivity.
Qed.

Lemma seedAdmin_found (hash : string -> string) (db : Store) :
  exists a : Admin.Doc,
    Admin.findOne_email (admins (fst (Seed.seedAdmin hash db))) (Some Seed.ADMIN_EMAIL) = Some a /\
    (Admin.findOne_email (admins db) (Some Seed.ADMIN_EMAIL) = None ->
     a = Admin.mkDoc (next_id db) Seed.ADMIN_EMAIL (hash Seed.ADMIN_PASSWORD) Seed.ADMIN_NAME
                     "superadmin" None).
Proof.
  destruct (Admin.findOne_email (admins db) (Some Seed.ADMIN_EMAIL)) as [a |] eqn:Hfind.
  - exists a. unfold Seed.seedAdmin. rewrite Hfind. cbn [fst]. split; [exact Hfind | discriminate].
  - rewrite (seedAdmin_creates hash db Hfind). cbn [fst admins].
    eexists. split; [| reflexivity].
    unfold Admin.findOne_email.
    cbn [find Admin.email]. rewrite ADMIN_EMAIL_cast, String.eqb_refl. reflexivity.
Qed.

(** X23. The seed script. Run on a connected database it ends with exit
    code 0 and leaves an administrator under the address of the script;
    run again it changes nothing. It touches no administrator that is
    already there, no contact and no registration. The administrator it
    creates has the role superadmin and, as password, the hash of the
    password of the script, never the password itself. *)
Theorem seeding_is_idempotent :
  forall (hash : string -> string) (db : Store),
    let db1 := fst (Seed.seedAdmin hash db) in
    snd (Seed.seedAdmin hash db) = 0 /\
    (exists a : Admin.Doc,
        Admin.findOne_email (admins db1) (Some Seed.ADMIN_EMAIL) = Some a) /\
    Seed.seedAdmin hash db1 = (db1, 0) /\
    contacts db1 = contacts db /\ registrations db1 = registrations db /\
    (admins db1 = admins db \/
     admins db1 =
     Admin.mkDoc (next_id db) Seed.ADMIN_EMAIL (hash Seed.ADMIN_PASSWORD) Seed.ADMIN_NAME
                 "superadmin" None :: admins db).
Proof.
  intros hash db. cbv zeta.
  destruct (seedAdmin_found hash db) as (a & Hfound & _).
  split; [| split; [now exists a | split]].
  - destruct (Admin.findOne_email (admins db) (Some Seed.ADMIN_EMAIL)) as [a0 |] eqn:Hfind.
    + unfold Seed.seedAdmin. now rewrite Hfind.
    + now rewrite (seedAdmin_creates hash db Hfind).
  - unfold Seed.seedAdmin at 1. now rewrite Hfound.
  - destruct (Admin.findOne_email (admins db) (Some Seed.ADMIN_EMAIL)) as [a0 |] eqn:Hfind.
    + unfold Seed.seedAdmin. rewrite Hfind. cbn [fst]. auto.
    + rewrite (seedAdmin_creates hash db Hfind). cbn [fst contacts registrations admins]. auto.
Qed.

(** X24. The seeded administrator can log in. On a store without the
    address of the script, after the script has run, a login with the
    address and the password of the script is answered 200 with a token
    for the new administrator, provided the hash that bcrypt made of the
    password matches it, the address is an e-mail address for the
    validator, and the server has a signing secret. *)
Theorem seeded_administrator_can_log_in :
  forall (hash : string -> string) (now : Z) (db : Store),
    Admin.findOne_email (admins db) (Some Seed.ADMIN_EMAIL) = None ->
    bcrypt_compare Seed.ADMIN_PASSWORD (hash Seed.ADMIN_PASSWORD) = true ->
    isEmail Seed.ADMIN_EMAIL = true ->
    JWT_SECRET <> "" ->
    exists (db' : Store) (token : Jwt.Token),
      login_handler now (fst (Seed.seedAdmin hash db))
        (AdminRoutes.mkLoginBody (Some Seed.ADMIN_EMAIL) (Some Seed.ADMIN_PASSWORD)) =
      (db', Http.mkResponse 200 true (Some "Login successful") None
              (Http.LoginData token
                 (Http.mkAdminInfo (next_id db) Seed.ADMIN_NAME Seed.ADMIN_EMAIL "superadmin"))) /\
      Jwt.verify token JWT_SECRET now =
      JS.Ok (Jwt.mkPayload (next_id db) (Jwt.clockTimestamp now)
                           (Some (Jwt.clockTimestamp now + Jwt.seven_days)%Z)).
Proof.
  intros hash now db Hnone Hcmp Hmail Hsecret.
  destruct (seedAdmin_found hash db) as (a & Hfound & Ha). specialize (Ha Hnone). subst a.
  unfold login_handler, login_validation_errors.
  rewrite login_email_sanitized, login_password_sanitized.
  cbn [AdminRoutes.email AdminRoutes.password Validator.toString].
  assert (Htrim : JS.trim Seed.ADMIN_EMAIL = Seed.ADMIN_EMAIL) by reflexivity.
  assert (Hve : snd (Validator.run login_email_chain (Some Seed.ADMIN_EMAIL)) = []).
  { unfold Validator.run, login_email_chain.
    cbn [Validator.optional Validator.stack andb Validator.run_stack Validator.toString fst snd].
    rewrite Htrim, Hmail. reflexivity. }
  assert (Hvp : snd (Validator.run login_password_chain (Some Seed.ADMIN_PASSWORD)) = [])
    by reflexivity.
  rewrite Hve, Hvp. cbn [app]. rewrite Htrim, Hfound.
  unfold comparePassword. cbn [Admin.password]. rewrite Hcmp. cbn [negb].
  unfold generateToken, Jwt.sign. rewrite (proj2 (String.eqb_neq _ _) Hsecret).
  eexists. eexists. split; [reflexivity |].
  cbn [Admin._id]. rewrite verify_own_token by exact Hsecret.
  destruct (Z.leb_spec (Jwt.clockTimestamp now + Jwt.seven_days) (Jwt.clockTimestamp now)) as [H | H];
    [| reflexivity].
  unfold Jwt.seven_days in H. lia.
Qed.

End Server.

(* ====================================================================== *)
(** ** The handlers on sample requests *)
(* ====================================================================== *)

Example trim_blanks : JS.trim "  UPI 123	 " = "UPI 123".
Proof. reflexivity. Qed.

Example header_pieces : JS.split_space "Bearer abc.def" = ["Bearer"; "abc.def"].
Proof. reflexivity. Qed.

Example header_double_space : nth_error (JS.split_space "Bearer  x") 1 = Some "".
Proof. reflexivity. Qed.

(** The end-to-end example of the specification: 201, fee 10, status
    pending; the identical body submitted again: 409. *)
Example end_to_end_duo :
  exists (db : Store) (r : Http.Registered),
    RegisterRoute.handler Sample.empty Sample.duo_body =
    (db, Http.mkResponse 201 true
           (Some "Registration successful! You will receive match details via WhatsApp/call before the tournament.")
           None (Http.RegisteredData r)) /\
    Http.entryFee r = Some 10%Z /\
    Http.status r = "pending" /\
    Http.code (snd (RegisterRoute.handler db Sample.duo_body)) = 409.
Proof. do 2 eexists. repeat split. Qed.

Example all_messages_at_once :
  Http.errors (snd (RegisterRoute.handler Sample.empty Sample.invalid_body)) =
  Some ["Invalid game selection"; "Transaction ID must be at least 5 characters"].
Proof. reflexivity. Qed.

Example untidy_player_is_normalized :
  Registration.cast_player (RegisterRoute.sanitize_player Sample.untidy) =
  Registration.mkPlayer (Some "C") (Some "3") (Some "9876543212") (Some "c@mail.in").
Proof. reflexivity. Qed.

(** The length limits on in-game names and identifiers live in the schema
    only: the route's validation passes, [save()] throws, and the catch
    block answers 500. *)
Example schema_only_limit :
  RegisterRoute.validation_errors Sample.long_name_body = [] /\
  RegisterRoute.handler Sample.empty Sample.long_name_body =
  (Sample.empty,
   Http.fail 500
     "Registration failed: Registration validation failed: In-game name cannot exceed 50 characters").
Proof. split; reflexivity. Qed.

Example login_succeeds :
  Http.code (snd (login_handler Sample.isEmail Sample.bcrypt_compare Sample.secret
                                0%Z Sample.empty Sample.good_login)) = 200.
Proof. reflexivity. Qed.

Example stats_of_busy_store :
  Http.revenue_of (stats_handler Sample.busy) = Some 25%Z.
Proof. reflexivity. Qed.

(* ====================================================================== *)
(** ** The theorems at sample inputs *)
(* ====================================================================== *)

(** C1 at the solo sample, which sends a fee of 1: accepted with 201, and
    the outcome is the same for every other fee field. *)
Lemma entryFee_is_policy_fee_of_mode_witness :
  RegisterRoute.interleaved [] Sample.empty Sample.solo_body =
  (fst (RegisterRoute.handler Sample.empty Sample.solo_body),
   snd (RegisterRoute.handler Sample.empty Sample.solo_body)) /\
  Http.code (snd (RegisterRoute.handler Sample.empty Sample.solo_body)) = 201 /\
  (exists (m : Policy.Mode) (s : string) (doc : Registration.Doc) (echo : Http.Registered),
      RegisterRoute.mode Sample.solo_body = Some s /\
      JS.trim s = Policy.mode_name m /\
      registrations (fst (RegisterRoute.handler Sample.empty Sample.solo_body)) =
      doc :: registrations Sample.empty /\
      Registration.entryFee (Registration.fields doc) = Some (Policy.entryFeeFor m) /\
      Http.data (snd (RegisterRoute.handler Sample.empty Sample.solo_body)) =
      Http.RegisteredData echo /\
      Http.entryFee echo = Some (Policy.entryFeeFor m)) /\
  (forall fee : option Z,
      RegisterRoute.interleaved [] Sample.empty
        (RegisterRoute.with_entryFee fee Sample.solo_body) =
      (fst (RegisterRoute.handler Sample.empty Sample.solo_body),
       snd (RegisterRoute.handler Sample.empty Sample.solo_body))).
Proof.
  split; [reflexivity |]. split; [reflexivity |].
  apply (entryFee_is_policy_fee_of_mode [] Sample.empty
           (fst (RegisterRoute.handler Sample.empty Sample.solo_body))
           Sample.solo_body
           (snd (RegisterRoute.handler Sample.empty Sample.solo_body)));
    reflexivity.
Defined.

(** C2 at the duo sample submitted twice: served in turn, and with the
    second lookup running before the first write. *)
Lemma second_use_of_transactionId_conflicts_witness :
  Http.code (snd (RegisterRoute.handler Sample.empty Sample.duo_body)) = 201 /\
  RegisterRoute.validation_errors Sample.duo_body = [] /\
  RegisterRoute.handler (fst (RegisterRoute.handler Sample.empty Sample.duo_body)) Sample.duo_body =
  (fst (RegisterRoute.handler Sample.empty Sample.duo_body), RegisterRoute.duplicate_found) /\
  RegisterRoute.interleaved [] (fst (RegisterRoute.handler Sample.empty Sample.duo_body))
    Sample.duo_body =
  (fst (RegisterRoute.handler Sample.empty Sample.duo_body), RegisterRoute.duplicate_key_caught).
Proof.
  split; [reflexivity |]. split; [reflexivity |].
  destruct (second_use_of_transactionId_conflicts
              (registrations Sample.empty) [] Sample.empty
              (fst (RegisterRoute.handler Sample.empty Sample.duo_body))
              (fst (RegisterRoute.handler Sample.empty Sample.duo_body))
              Sample.duo_body Sample.duo_body
              (snd (RegisterRoute.handler Sample.empty Sample.duo_body))
              eq_refl eq_refl eq_refl eq_refl (fun _ H => H)) as (Hturn & _ & Hrace & _).
  split; [exact Hturn |].
  exact (Hrace _ eq_refl eq_refl).
Defined.

(** C3 at the solo sample with two players. *)
Lemma solo_roster_lengths_witness :
  exists (doc : Registration.Doc) (r : Http.Response) (echo : Http.Registered),
    RegisterRoute.interleaved [] Sample.empty Sample.solo_body =
    (mkStore (admins Sample.empty) (contacts Sample.empty)
             (doc :: registrations Sample.empty) (S (next_id Sample.empty)), r) /\
    Http.code r = 201 /\
    Http.data r = Http.RegisteredData echo /\
    Http.playerCount echo = 2 /\
    Registration.players (Registration.fields doc) = [Sample.lead; Sample.mate].
Proof.
  assert (Hgame : In (JS.trim "freefire") ["pubg"; "freefire"; "cod"]) by (simpl; auto).
  assert (Hlen : 5 <= String.length (JS.trim "UPI000333444")) by (simpl; lia).
  assert (Hteam : forall tn, RegisterRoute.teamName Sample.solo_body = Some tn ->
                             String.length (JS.trim tn) <= 50) by discriminate.
  assert (Hcount : 1 <= List.length [Sample.lead; Sample.mate] <= 5) by (simpl; lia).
  destruct (solo_roster_lengths [] Sample.empty Sample.solo_body
              "solo" "freefire" "UPI000333444" [Sample.lead; Sample.mate]
              eq_refl eq_refl eq_refl eq_refl Hgame eq_refl Hlen Hteam
              eq_refl eq_refl eq_refl) as [_ Hmany].
  destruct (Hmany Hcount)
    as (doc & r & echo & Hrun & Hcode & Hdata & Hecho & Hplayers & _ & _).
  exists doc, r, echo. repeat split; assumption.
Defined.

(** C4 at a duo request with one player and no team name that reuses the
    transaction identifier of the persisted duo sample. *)
Lemma duplicate_lookup_precedes_roster_checks_witness :
  RegisterRoute.validation_errors Sample.short_duo_body = [] /\
  Registration.has_transactionId
    (registrations (fst (RegisterRoute.handler Sample.empty Sample.duo_body)))
    (Some (JS.trim "UPI000111222")) = true /\
  List.length (RegisterRoute.roster Sample.short_duo_body) <
  Policy.requiredPlayerCountFor Policy.duo /\
  RegisterRoute.handler (fst (RegisterRoute.handler Sample.empty Sample.duo_body))
    Sample.short_duo_body =
  (fst (RegisterRoute.handler Sample.empty Sample.duo_body), RegisterRoute.duplicate_found) /\
  Http.code (snd (RegisterRoute.handler Sample.empty Sample.short_duo_body)) = 400.
Proof.
  assert (Hshort : List.length (RegisterRoute.roster Sample.short_duo_body) <
                   Policy.requiredPlayerCountFor Policy.duo) by (simpl; lia).
  split; [reflexivity |]. split; [reflexivity |]. split; [exact Hshort |].
  destruct (duplicate_lookup_precedes_roster_checks
              (registrations (fst (RegisterRoute.handler Sample.empty Sample.duo_body)))
              (fst (RegisterRoute.handler Sample.empty Sample.duo_body))
              Sample.short_duo_body Policy.duo "duo" "UPI000111222"
              eq_refl eq_refl eq_refl eq_refl eq_refl (or_introl Hshort))
    as (Hrun & _ & _).
  split; [exact Hrun | reflexivity].
Defined.

(** C5 at the sample store: an unknown address, and the address of the
    administrator with a wrong password. *)
Lemma login_failures_indistinguishable_witness :
  login_handler Sample.isEmail Sample.bcrypt_compare Sample.secret 0%Z Sample.empty
    Sample.unknown_login = (Sample.empty, invalid_credentials) /\
  login_handler Sample.isEmail Sample.bcrypt_compare Sample.secret 1%Z Sample.empty
    Sample.wrong_password_login = (Sample.empty, invalid_credentials) /\
  Http.code invalid_credentials = 401 /\
  Http.message invalid_credentials = Some "Invalid email or password.".
Proof.
  exact (login_failures_indistinguishable Sample.isEmail Sample.bcrypt_compare Sample.secret
           0%Z 1%Z Sample.empty Sample.empty Sample.unknown_login Sample.wrong_password_login
           "nobody@example.com" " Admin@Example.com" "guess" Sample.root
           eq_refl eq_refl eq_refl eq_refl eq_refl eq_refl eq_refl eq_refl).
Defined.

(** C6 with the sample secret, for a token issued to administrator 7 at
    clock 0. *)
Lemma token_expires_after_seven_days_witness :
  Sample.secret <> "" /\
  exists token : Jwt.Token,
    generateToken Sample.secret 0%Z 7 = JS.Ok token /\
    (exists payload : Jwt.Payload,
        Jwt.verify token Sample.secret (0 + Jwt.days 6) = JS.Ok payload /\
        Jwt.id payload = 7) /\
    Jwt.verify token Sample.secret (0 + Jwt.days 8) = JS.Throw Jwt.TokenExpiredError.
Proof.
  assert (Hsecret : Sample.secret <> "") by discriminate.
  split; [exact Hsecret |].
  destruct (token_expires_after_seven_days Sample.jwt_decode Sample.secret 0%Z 7 Hsecret)
    as (token & payload & Hgen & Hid & _ & _ & H6 & H8 & _).
  exists token. split; [exact Hgen |]. split; [| exact H8].
  exists payload. split; [exact H6 | exact Hid].
Defined.

(** C7 at the sample store: 20 + 5 from the two approved registrations;
    dropping the pending one changes nothing. *)
Lemma stats_revenue_counts_approved_only_witness :
  Http.revenue_of (stats_handler Sample.busy) =
  Some (Policy.approved_revenue (registrations Sample.busy)) /\
  Policy.approved_revenue (registrations Sample.busy) = 25%Z /\
  Http.revenue_of (stats_handler Sample.busy) =
  Http.revenue_of
    (stats_handler
       (mkStore (admins Sample.busy) (contacts Sample.busy)
                ([] ++ [Sample.approved 20 3; Sample.rejected 10 2; Sample.approved 5 1])
                (next_id Sample.busy))).
Proof.
  destruct (stats_revenue_counts_approved_only Sample.busy) as (_ & Hsum & Hdrop).
  split; [exact Hsum |]. split; [reflexivity |].
  exact (Hdrop [] [Sample.approved 20 3; Sample.rejected 10 2; Sample.approved 5 1]
               (Sample.pending 50 4) eq_refl (or_introl eq_refl)).
Defined.

(** C8 at a registration with a wrong game and a short transaction
    identifier, and at a contact message with a short name and a short
    text: the later failure is reported together with the earlier one. *)
Lemma every_failing_field_is_reported_witness :
  RegisterRoute.field_failure Sample.invalid_body
    "Transaction ID must be at least 5 characters" /\
  contact_field_failure Sample.isEmail Sample.normalizeEmail Sample.invalid_contact
    "Message must be 10–2000 characters" /\
  (exists errors : list string,
      RegisterRoute.interleaved [] Sample.empty Sample.invalid_body =
      (Sample.empty,
       Http.mkResponse 400 false (Some "Validation failed. Please check your input.")
                       (Some errors) Http.NoData) /\
      In "Transaction ID must be at least 5 characters" errors) /\
  (exists errors : list string,
      contact_handler Sample.isEmail Sample.normalizeEmail Sample.empty Sample.invalid_contact =
      (Sample.empty,
       Http.mkResponse 400 false (Some "Validation failed. Please check your input.")
                       (Some errors) Http.NoData) /\
      In "Message must be 10–2000 characters" errors).
Proof.
  assert (Hreg : RegisterRoute.field_failure Sample.invalid_body
                   "Transaction ID must be at least 5 characters").
  { do 5 right. split; [reflexivity |].
    apply Validator.rejects_after_sanitization, Validator.rejects_after_validation,
      Validator.rejects_here. reflexivity. }
  assert (Hcon : contact_field_failure Sample.isEmail Sample.normalizeEmail Sample.invalid_contact
                   "Message must be 10–2000 characters").
  { do 4 right. split; [reflexivity |].
    apply Validator.rejects_after_sanitization, Validator.rejects_after_validation,
      Validator.rejects_here. reflexivity. }
  split; [exact Hreg |]. split; [exact Hcon |]. split.
  - destruct (every_failing_field_is_reported Sample.isEmail Sample.normalizeEmail
                [] Sample.empty Sample.invalid_body Sample.invalid_contact
                "Transaction ID must be at least 5 characters") as [Hr _].
    destruct (Hr Hreg) as (errors & Hrun & Hin & _). exists errors. split; assumption.
  - destruct (every_failing_field_is_reported Sample.isEmail Sample.normalizeEmail
                [] Sample.empty Sample.invalid_body Sample.invalid_contact
                "Message must be 10–2000 characters") as [_ Hc].
    destruct (Hc Hcon) as (errors & Hrun & Hin & _). exists errors. split; assumption.
Defined.

(** C9 at a request to delete a contact that presents, eight days after it
    was issued, the token of the sample administrator. *)
Lemma unauthorized_admin_request_touches_nothing_witness :
  Unauthorized Sample.jwt_decode Sample.secret (0 + Jwt.days 8) Sample.empty
    (Some "Bearer root.token") /\
  exists r : Http.Response,
    admin_route Sample.jwt_decode Sample.secret (0 + Jwt.days 8) Sample.empty
      (Some "Bearer root.token") (AdminRoutes.DeleteContact 1) = (Sample.empty, r) /\
    Http.code r = 401.
Proof.
  assert (Hexpired : (Jwt.seven_days <= Jwt.clockTimestamp (0 + Jwt.days 8))%Z)
    by (vm_compute; discriminate).
  assert (Hun : Unauthorized Sample.jwt_decode Sample.secret (0 + Jwt.days 8) Sample.empty
                  (Some "Bearer root.token")).
  { apply (token_expired Sample.jwt_decode Sample.secret (0 + Jwt.days 8) Sample.empty
             (Some "Bearer root.token") "root.token"
             (Jwt.mkPayload 7 0%Z (Some Jwt.seven_days)) Jwt.seven_days);
      [reflexivity | discriminate | reflexivity | reflexivity | exact Hexpired]. }
  split; [exact Hun |].
  destruct (unauthorized_admin_request_touches_nothing Sample.jwt_decode Sample.secret
              (0 + Jwt.days 8) Sample.empty (Some "Bearer root.token")
              (AdminRoutes.DeleteContact 1) Hun) as (r & Hrun & Hcode & _).
  exists r. split; assumption.
Defined.

(** C10 at the store reached from the sample store by the duo
    registration. *)
Lemma persisted_registrations_meet_roster_rule_witness :
  Forall Policy.roster_invariant (registrations Sample.empty) /\
  reachable Sample.isEmail Sample.normalizeEmail Sample.bcrypt_compare Sample.jwt_decode
    Sample.secret Sample.empty
    (fst (handle Sample.isEmail Sample.normalizeEmail Sample.bcrypt_compare Sample.jwt_decode
            Sample.secret 0%Z Sample.empty (PostRegister Sample.duo_body))) /\
  Forall Policy.roster_invariant
    (registrations
       (fst (handle Sample.isEmail Sample.normalizeEmail Sample.bcrypt_compare Sample.jwt_decode
               Sample.secret 0%Z Sample.empty (PostRegister Sample.duo_body)))).
Proof.
  assert (Hstart : Forall Policy.roster_invariant (registrations Sample.empty))
    by constructor.
  assert (Hreach : reachable Sample.isEmail Sample.normalizeEmail Sample.bcrypt_compare
                     Sample.jwt_decode Sample.secret Sample.empty
                     (fst (handle Sample.isEmail Sample.normalizeEmail Sample.bcrypt_compare
                             Sample.jwt_decode Sample.secret 0%Z Sample.empty
                             (PostRegister Sample.duo_body)))).
  { eapply reachable_step; [apply reachable_start | apply step_request]. }
  split; [exact Hstart |]. split; [exact Hreach |].
  exact (proj1 (persisted_registrations_meet_roster_rule Sample.isEmail Sample.normalizeEmail
                  Sample.bcrypt_compare Sample.jwt_decode Sample.secret Sample.empty _
                  Hstart Hreach)).
Defined.

(* ====================================================================== *)
(** ** Further properties at sample inputs *)
(* ====================================================================== *)

(** X1 at a squad of five. *)
Lemma registration_in_order_is_accepted_witness :
  exists (db' : Store) (r : Http.Response) (echo : Http.Registered),
    RegisterRoute.interleaved [] Sample.empty Sample.squad_body = (db', r) /\
    Http.code r = 201 /\
    Http.data r = Http.RegisteredData echo /\
    Http.entryFee echo = Some 20%Z /\
    Http.playerCount echo = 5 /\
    Http.status echo = "pending" /\
    registrations db' =
    Registration.mkDoc 100
      (expected_fields Policy.squad " cod " "UPI000777888" (Some " Omega ")
         [Sample.lead; Sample.mate; Sample.fifth "C"; Sample.fifth "D"; Sample.fifth "E"])
    :: registrations Sample.empty.
Proof.
  refine (registration_in_order_is_accepted [] Sample.empty Sample.squad_body Policy.squad
            "squad" " cod " "UPI000777888"
            [Sample.lead; Sample.mate; Sample.fifth "C"; Sample.fifth "D"; Sample.fifth "E"]
            eq_refl eq_refl eq_refl eq_refl _ eq_refl _ _ _ eq_refl _ eq_refl eq_refl).
  - right. right. now left.
  - vm_compute. lia.
  - intros tn H. injection H as <-. vm_compute. lia.
  - intros _. reflexivity.
  - simpl. lia.
Defined.

(** X2 at the duo registration, and at the same registration once more. *)
Lemma registration_request_outcomes_witness :
  (exists doc : Registration.Doc,
      registrations Sample.after_duo = doc :: registrations Sample.empty /\
      Registration._id doc = 100 /\
      Registration.status (Registration.fields doc) = Some "pending" /\
      next_id Sample.after_duo = 101) /\
  fst (RegisterRoute.interleaved [] Sample.after_duo Sample.duo_body) = Sample.after_duo.
Proof.
  split.
  - exact (proj2 (proj2 (proj2 (proj2
             (registration_request_outcomes [] Sample.empty Sample.after_duo Sample.duo_body
                (snd (RegisterRoute.handler Sample.empty Sample.duo_body)) eq_refl))))
             eq_refl).
  - apply (proj1 (proj2 (proj2 (proj2
             (registration_request_outcomes [] Sample.after_duo
                (fst (RegisterRoute.interleaved [] Sample.after_duo Sample.duo_body))
                Sample.duo_body
                (snd (RegisterRoute.interleaved [] Sample.after_duo Sample.duo_body))
                eq_refl))))).
    vm_compute. discriminate.
Defined.

(** X3 at a message in order. *)
Lemma contact_request_outcomes_witness :
  exists c : Contact.Doc,
    contacts (fst (contact_handler Sample.isEmail Sample.normalizeEmail Sample.empty
                     Sample.valid_contact)) = c :: contacts Sample.empty /\
    Contact._id c = 100 /\
    Contact.status (Contact.fields c) = Some "new" /\
    Contact.validate (Contact.fields c) = [] /\
    next_id (fst (contact_handler Sample.isEmail Sample.normalizeEmail Sample.empty
                    Sample.valid_contact)) = 101.
Proof.
  exact (proj2 (proj2 (proj2 (proj2 (proj2
           (contact_request_outcomes Sample.isEmail Sample.normalizeEmail Sample.empty
              (fst (contact_handler Sample.isEmail Sample.normalizeEmail Sample.empty
                      Sample.valid_contact))
              Sample.valid_contact
              (snd (contact_handler Sample.isEmail Sample.normalizeEmail Sample.empty
                      Sample.valid_contact))
              eq_refl)))))
           eq_refl).
Defined.



(** X6 at the good login of the sample store. *)
Lemma login_succeeds_exactly_with_the_password_witness :
  Http.code (snd (login_handler Sample.isEmail Sample.bcrypt_compare Sample.secret 0%Z
                    Sample.empty Sample.good_login)) = 200 /\
  exists (e pw : string) (admin : Admin.Doc),
    AdminRoutes.email Sample.good_login = Some e /\
    AdminRoutes.password Sample.good_login = Some pw /\
    Admin.findOne_email (admins Sample.empty) (Some e) = Some admin /\
    Sample.bcrypt_compare pw (Admin.password admin) = true /\
    Sample.secret <> "" /\
    Http.data (snd (login_handler Sample.isEmail Sample.bcrypt_compare Sample.secret 0%Z
                      Sample.empty Sample.good_login)) =
    Http.LoginData
      (Jwt.Signed Sample.secret
         (Jwt.mkPayload (Admin._id admin) (Jwt.clockTimestamp 0)
                        (Some (Jwt.clockTimestamp 0 + 604800)%Z)))
      (Http.mkAdminInfo (Admin._id admin) (Admin.name admin) (Admin.email admin)
                        (Admin.role admin)) /\
    fst (login_handler Sample.isEmail Sample.bcrypt_compare Sample.secret 0%Z
           Sample.empty Sample.good_login) =
    mkStore
      (Admin.save (admins Sample.empty)
         (Admin.mkDoc (Admin._id admin) (Admin.email admin) (Admin.password admin)
                      (Admin.name admin) (Admin.role admin) (Some 0%Z)))
      (contacts Sample.empty) (registrations Sample.empty) (next_id Sample.empty).
Proof.
  destruct (login_succeeds_exactly_with_the_password Sample.isEmail Sample.bcrypt_compare
              Sample.secret 0%Z Sample.empty Sample.good_login) as [Honly Hif].
  assert (Hcode : Http.code (snd (login_handler Sample.isEmail Sample.bcrypt_compare
                                    Sample.secret 0%Z Sample.empty Sample.good_login)) = 200).
  { apply (Hif "admin@example.com" "letmein" Sample.root); try reflexivity; discriminate. }
  split; [exact Hcode |].
  exact (Honly _ _ eq_refl Hcode).
Defined.

(** X7 at the token of the sample administrator. *)
Lemma protect_lets_through_only_good_tokens_witness :
  protect Sample.jwt_decode Sample.secret 0%Z Sample.empty Sample.root_header =
  inr Sample.root /\
  exists (t : string) (payload : Jwt.Payload),
    bearer_token Sample.root_header = Some t /\ t <> "" /\
    Sample.jwt_decode t = Jwt.Signed Sample.secret payload /\
    Sample.secret <> "" /\
    (forall e : Z, Jwt.exp payload = Some e -> (Jwt.clockTimestamp 0 < e)%Z) /\
    Admin.findById (admins Sample.empty) (Jwt.id payload) = Some Sample.root /\
    In Sample.root (admins Sample.empty) /\ Admin._id Sample.root = Jwt.id payload.
Proof.
  split; [reflexivity |].
  exact (protect_lets_through_only_good_tokens Sample.jwt_decode Sample.secret 0%Z
           Sample.empty Sample.root_header Sample.root eq_refl).
Defined.

(** X8: the token of the good login, six days later. *)
Lemma login_token_opens_the_gate_witness :
  admin_route Sample.jwt_decode Sample.secret (Jwt.days 6)
    (fst (login_handler Sample.isEmail Sample.bcrypt_compare Sample.secret 0%Z
            Sample.empty Sample.good_login))
    Sample.root_header AdminRoutes.GetMe =
  (fst (login_handler Sample.isEmail Sample.bcrypt_compare Sample.secret 0%Z
          Sample.empty Sample.good_login),
   Http.mkResponse 200 true None None
     (Http.MeData (Http.mkAdminInfo 7 "Root" "admin@example.com" "superadmin") (Some 0%Z))).
Proof.
  refine (login_token_opens_the_gate Sample.isEmail Sample.bcrypt_compare Sample.jwt_decode
            Sample.secret 0%Z (Jwt.days 6) Sample.empty _ Sample.good_login
            (snd (login_handler Sample.isEmail Sample.bcrypt_compare Sample.secret 0%Z
                    Sample.empty Sample.good_login))
            Sample.root_token (Http.mkAdminInfo 7 "Root" "admin@example.com" "superadmin")
            "root.token" eq_refl eq_refl eq_refl eq_refl _ _ eq_refl).
  - discriminate.
  - simpl. intuition discriminate.
Defined.

(** X9 at the busy store, three registrations to a page: two pages hold
    the four registrations, a third page is empty. *)
Lemma listing_pages_cover_every_match_witness :
  concat
    (map (fun n =>
            Listing.registrations_of
              (registrations_handler Sample.busy
                 (Listing.at_page Sample.by_three (Pos.of_nat n))))
         (seq 1 2)) = registrations Sample.busy /\
  Listing.registrations_of
    (registrations_handler Sample.busy (Listing.at_page Sample.by_three 3%positive)) = [].
Proof.
  destruct (listing_pages_cover_every_match Sample.busy Sample.by_three) as [[Hcat Hpage] _].
  split; [exact Hcat |].
  apply (Hpage 3%positive). vm_compute. lia.
Defined.

(** X10 at the busy store: the game filter [chess] is no game and selects
    nothing, the status filter selects the approved registrations. *)
Lemma listing_selects_by_allowed_filters_witness :
  In (Sample.approved 20 3)
     (Listing.registrations_of
        (registrations_handler Sample.busy (Listing.everything Sample.approved_only 4))) /\
  ~ In (Sample.pending 50 4)
       (Listing.registrations_of
          (registrations_handler Sample.busy (Listing.everything Sample.approved_only 4))).
Proof.
  destruct (listing_selects_by_allowed_filters Sample.busy Sample.approved_only) as [Hreg _].
  split.
  - apply (proj2 (Hreg (Sample.approved 20 3))). split; [right; now left |].
    repeat split; intros v Hv Hin; try discriminate.
    + injection Hv as <-. simpl in Hin. intuition discriminate.
    + now injection Hv as <-.
  - intros Hin. apply (proj1 (Hreg (Sample.pending 50 4))) in Hin.
    destruct Hin as (_ & _ & _ & Hstatus).
    specialize (Hstatus "approved" eq_refl (or_intror (or_introl eq_refl))). discriminate.
Defined.

(** X11 at the busy store: the pending registration is approved, then
    rejected. *)
Lemma registration_status_update_witness :
  (exists db' : Store,
      patch_registration_handler Sample.busy 4 (Some "approved") =
      (db', Http.mkResponse 200 true None None
              (Http.RegistrationItem
                 (Registration.set_status "approved" (Sample.pending 50 4)))) /\
      View.registration_by_id (registrations db') 4 =
      Some (Registration.set_status "approved" (Sample.pending 50 4))) /\
  fst (patch_registration_handler
         (fst (patch_registration_handler Sample.busy 4 (Some "approved"))) 4 (Some "rejected")) =
  fst (patch_registration_handler Sample.busy 4 (Some "rejected")) /\
  patch_registration_handler Sample.busy 4 (Some "done") =
  (Sample.busy, Http.fail 400 "Status must be: pending, approved, or rejected").
Proof.
  destruct (registration_status_update Sample.busy 4) as (Hset & Hlast & Hbad).
  split; [| split].
  - destruct (Hset "approved" (or_intror (or_introl eq_refl))) as (db' & Hrun & Hnow & _).
    exists db'. split; [exact Hrun | exact Hnow].
  - apply Hlast; simpl; auto.
  - apply Hbad. intros s Hs Hin. injection Hs as <-. simpl in Hin. intuition discriminate.
Defined.

(** X12 at the inbox: the message 12 is marked replied; deleted, it cannot
    be deleted again. *)
Lemma contact_status_update_and_delete_witness :
  (exists db' : Store,
      patch_contact_handler Sample.inbox 12 (Some "replied") =
      (db', Http.mkResponse 200 true None None (Http.ContactItem (Sample.note 12 "replied")))) /\
  NoDup (map Contact._id (contacts Sample.inbox)) /\
  exists before after : list Contact.Doc,
    contacts Sample.inbox = before ++ Sample.note 12 "read" :: after /\
    delete_contact_handler Sample.inbox 12 =
    (mkStore (admins Sample.inbox) (before ++ after) (registrations Sample.inbox)
             (next_id Sample.inbox),
     Http.mkResponse 200 true (Some "Contact deleted.") None Http.NoData) /\
    delete_contact_handler
      (mkStore (admins Sample.inbox) (before ++ after) (registrations Sample.inbox)
               (next_id Sample.inbox)) 12 =
    (mkStore (admins Sample.inbox) (before ++ after) (registrations Sample.inbox)
             (next_id Sample.inbox),
     Http.fail 404 "Contact not found.").
Proof.
  assert (Hnodup : NoDup (map Contact._id (contacts Sample.inbox))).
  { repeat (constructor; [simpl; intuition discriminate |]). constructor. }
  destruct (contact_status_update_and_delete Sample.inbox 12) as (Hset & _ & Hdel).
  split; [| split; [exact Hnodup |]].
  - destruct (Hset "replied" (or_intror (or_intror (or_introl eq_refl)))) as (db' & Hrun & _).
    exists db'. exact Hrun.
  - destruct Hdel as (before & after & Hsplit & Hrun & Hagain).
    exists before, after. split; [exact Hsplit |]. split; [exact Hrun | exact (Hagain Hnodup)].
Defined.

(** X13 at the busy store, after an administrator has approved the pending
    registration. *)
Lemma stored_registrations_change_in_status_only_witness :
  In (Sample.pending 50 4) (registrations Sample.busy) /\
  exists d' : Registration.Doc,
    In d' (registrations
             (fst (handle Sample.isEmail Sample.normalizeEmail Sample.bcrypt_compare
                     Sample.jwt_decode Sample.secret 0%Z Sample.busy
                     (AdminRequest Sample.root_header
                        (AdminRoutes.PatchRegistration 4 (Some "approved")))))) /\
    View.but_status d' = View.but_status (Sample.pending 50 4).
Proof.
  assert (Hin : In (Sample.pending 50 4) (registrations Sample.busy)) by (now left).
  split; [exact Hin |].
  refine (proj2 (stored_registrations_change_in_status_only Sample.isEmail
                   Sample.normalizeEmail Sample.bcrypt_compare Sample.jwt_decode Sample.secret
                   Sample.busy _ _) _ Hin).
  eapply reachable_step; [apply reachable_start | apply step_request].
Defined.

(** X14 at the sample store, after a successful login. *)
Lemma administrator_accounts_are_fixed_witness :
  NoDup (map Admin._id (admins Sample.empty)) /\
  map View.account
    (admins (fst (handle Sample.isEmail Sample.normalizeEmail Sample.bcrypt_compare
                    Sample.jwt_decode Sample.secret 5000%Z Sample.empty
                    (PostLogin Sample.good_login)))) =
  map View.account (admins Sample.empty).
Proof.
  assert (Hnodup : NoDup (map Admin._id (admins Sample.empty))).
  { constructor; [intros [] | constructor]. }
  split; [exact Hnodup |].
  refine (administrator_accounts_are_fixed Sample.isEmail Sample.normalizeEmail
            Sample.bcrypt_compare Sample.jwt_decode Sample.secret Sample.empty _ _ Hnodup).
  eapply reachable_step; [apply reachable_start | apply step_request].
Defined.

(** X15 at the store reached by the duo registration. *)
Lemma transaction_identifiers_stay_unique_witness :
  NoDup (Registration.transactionIds (registrations Sample.empty)) /\
  NoDup (Registration.transactionIds (registrations Sample.after_duo)).
Proof.
  assert (Hstart : NoDup (Registration.transactionIds (registrations Sample.empty)))
    by constructor.
  split; [exact Hstart |].
  refine (proj1 (transaction_identifiers_stay_unique Sample.isEmail Sample.normalizeEmail
                   Sample.bcrypt_compare Sample.jwt_decode Sample.secret
                   Sample.empty Sample.after_duo _ Hstart)).
  eapply reachable_step; [apply reachable_start |].
  exact (step_request Sample.isEmail Sample.normalizeEmail Sample.bcrypt_compare
           Sample.jwt_decode Sample.secret 0%Z Sample.empty (PostRegister Sample.duo_body)).
Defined.

(** X16 at the busy store, after an administrator has rejected the pending
    registration. *)
Lemma stored_registrations_stay_schema_valid_witness :
  Forall View.schema_valid (registrations Sample.busy) /\
  Forall View.schema_valid
    (registrations
       (fst (handle Sample.isEmail Sample.normalizeEmail Sample.bcrypt_compare
               Sample.jwt_decode Sample.secret 0%Z Sample.busy
               (AdminRequest Sample.root_header
                  (AdminRoutes.PatchRegistration 4 (Some "rejected")))))).
Proof.
  assert (Hstart : Forall View.schema_valid (registrations Sample.busy)).
  { repeat (constructor; [split; [reflexivity | discriminate] |]). constructor. }
  split; [exact Hstart |].
  refine (stored_registrations_stay_schema_valid Sample.isEmail Sample.normalizeEmail
            Sample.bcrypt_compare Sample.jwt_decode Sample.secret Sample.busy _ _ Hstart).
  eapply reachable_step; [apply reachable_start | apply step_request].
Defined.


(** X18 at a body with operators at three places: the key [phone] stays,
    and it is no operator. *)
Lemma sanitizeObject_leaves_no_operator_key_witness :
  In "phone" (Json.keys (Json.sanitizeObject Sample.injection)) /\
  JS.startsWith "phone" "$" = false /\
  Json.sanitizeObject Sample.injection =
  Json.JObject
    [("email", Json.JObject []);
     ("players", Json.JArray [Json.JObject [("phone", Json.JNumber 1)]])].
Proof.
  assert (Hin : In "phone" (Json.keys (Json.sanitizeObject Sample.injection))).
  { simpl. auto. }
  split; [exact Hin |]. split; [| reflexivity].
  exact (sanitizeObject_leaves_no_operator_key Sample.injection "phone" Hin).
Defined.

(** X19 at a body without operators. *)
Lemma sanitizeObject_keeps_clean_bodies_witness :
  forallb Json.not_operator (Json.keys Sample.clean_body) = true /\
  Json.sanitizeObject Sample.clean_body = Sample.clean_body.
Proof.
  split; [reflexivity |].
  exact (proj1 sanitizeObject_keeps_clean_bodies Sample.clean_body eq_refl).
Defined.

(** X20 at an address with capitals. *)
Lemma address_valid_in_browser_matches_schema_witness :
  Browser.isValidEmail "John@Example.com" = true /\
  Contact.email_shape (JS.toLowerCase (JS.trim "John@Example.com")) = true /\
  JS.toLowerCase (JS.trim "John@Example.com") = JS.toLowerCase "John@Example.com".
Proof.
  split; [reflexivity |].
  exact (address_valid_in_browser_matches_schema "John@Example.com" eq_refl).
Defined.

(** X21 at the page opened with [?mode=duo] and no game. *)
Lemma registration_page_agrees_with_route_witness :
  exists (body : RegisterRoute.Body) (info : Browser.ModeInfo) (echo : Http.Registered),
    Browser.registration_data None (Some "duo") Sample.duo_form = Some body /\
    Http.code (snd (RegisterRoute.interleaved [] Sample.empty body)) = 201 /\
    Browser.modeInfo (Browser.param (Some "duo") "solo") = Some info /\
    Http.data (snd (RegisterRoute.interleaved [] Sample.empty body)) = Http.RegisteredData echo /\
    Http.entryFee echo = Some (Browser.feeNum info) /\
    Http.playerCount echo = Browser.players info.
Proof.
  destruct (proj2 registration_page_agrees_with_route None (Some "duo") Sample.duo_form
              _ [] Sample.empty _ _ eq_refl eq_refl eq_refl)
    as (info & echo & Hinfo & Hdata & Hfee & Hcount).
  eexists. exists info, echo. split; [reflexivity |]. split; [reflexivity |].
  split; [exact Hinfo |]. split; [exact Hdata |]. split; [exact Hfee | exact Hcount].
Defined.


(** X24 at the sample store, which has no administrator under the address
    of the script. *)
Lemma seeded_administrator_can_log_in_witness :
  exists (db' : Store) (token : Jwt.Token),
    login_handler Sample.isEmail Sample.bcrypt_compare_hash Sample.secret 0%Z
      (fst (Seed.seedAdmin Sample.bcrypt_hash Sample.empty))
      (AdminRoutes.mkLoginBody (Some Seed.ADMIN_EMAIL) (Some Seed.ADMIN_PASSWORD)) =
    (db', Http.mkResponse 200 true (Some "Login successful") None
            (Http.LoginData token
               (Http.mkAdminInfo 100 Seed.ADMIN_NAME Seed.ADMIN_EMAIL "superadmin"))) /\
    Jwt.verify token Sample.secret 0%Z =
    JS.Ok (Jwt.mkPayload 100 (Jwt.clockTimestamp 0)
                         (Some (Jwt.clockTimestamp 0 + Jwt.seven_days)%Z)).
Proof.
  refine (seeded_administrator_can_log_in Sample.isEmail Sample.bcrypt_compare_hash
            Sample.secret Sample.bcrypt_hash 0%Z Sample.empty eq_refl eq_refl eq_refl _).
  discriminate.
Defined.
